(** * VeerTapApp: the file-backed submission store, its backups, archival
      and the per-day booking cap

    A shallow embedding of the backend services
    ([utils/helpers.js], [middleware/fileLock.middleware.js],
    [services/excel.service.js], [services/backup.service.js],
    [services/monitor.service.js], [controllers/submission.controller.js])
    and the properties the specification states about them. *)

From Stdlib Require Import ZArith String Ascii Bool Lia.
From Stdlib Require Import DecimalString DecimalZ.
From stdpp Require Import base option list sorting gmap strings.

Local Open Scope string_scope.
Local Open Scope list_scope.
Local Open Scope Z_scope.

(** ** JavaScript values held in worksheet cells and request bodies *)

(** A [Date] object carries a time value in milliseconds since the epoch,
    or none when it is an "Invalid Date". Numbers are integers here: every
    number the modelled code handles is a count or a time value. *)
Inductive value : Type :=
  | VUndefined
  | VNull
  | VBool (b : bool)
  | VNum (n : Z)
  | VStr (s : string)
  | VDate (t : option Z).

(** [if (v)]: JavaScript truthiness. *)
Definition truthy (v : value) : bool :=
  match v with
  | VUndefined | VNull => false
  | VBool b => b
  | VNum n => negb (n =? 0)
  | VStr s => negb (String.eqb s EmptyString)
  | VDate _ => true
  end.

(** [v === 'literal'] against a string literal. *)
Definition strict_eq_str (v : value) (s : string) : bool :=
  match v with
  | VStr s' => String.eqb s' s
  | _ => false
  end.

(** [a || b]. *)
Definition js_or (a b : value) : value := if truthy a then a else b.

(** ** Strings *)

Definition is_lower (c : ascii) : bool :=
  let n := nat_of_ascii c in (97 <=? n)%nat && (n <=? 122)%nat.
Definition is_upper (c : ascii) : bool :=
  let n := nat_of_ascii c in (65 <=? n)%nat && (n <=? 90)%nat.

Definition upper_char (c : ascii) : ascii :=
  if is_lower c then ascii_of_nat (nat_of_ascii c - 32) else c.
Definition lower_char (c : ascii) : ascii :=
  if is_upper c then ascii_of_nat (nat_of_ascii c + 32) else c.

Fixpoint string_map (f : ascii -> ascii) (s : string) : string :=
  match s with
  | EmptyString => EmptyString
  | String c r => String (f c) (string_map f r)
  end.

(** [String.prototype.toUpperCase] / [toLowerCase] on the ASCII letters;
    other bytes are left as they are. *)
Definition toUpperCase : string -> string := string_map upper_char.
Definition toLowerCase : string -> string := string_map lower_char.

(** [s.startsWith(p)]. *)
Definition startsWith (s p : string) : bool := String.prefix p s.

(** [s.endsWith(p)]. *)
Definition endsWith (s p : string) : bool :=
  let ls := String.length s in
  let lp := String.length p in
  (lp <=? ls)%nat && String.eqb (String.substring (ls - lp) lp s) p.

(** [s.includes(q)]. *)
Fixpoint includes (s q : string) : bool :=
  String.prefix q s ||
  match s with
  | EmptyString => false
  | String _ r => includes r q
  end.

(** ** Dates *)

Definition msPerDay : Z := 86400000.

(** The day part of [toISOString()], i.e. [toISOString().split('T')[0]].
    The text [YYYY-MM-DD] names a UTC calendar day and different days have
    different texts, so the day is carried as its number since the epoch. *)
Definition utcDay (t : Z) : Z := t / msPerDay.

(** ** utils/helpers.js *)

Module Helpers.

Definition hexDigit (n : N) : ascii :=
  match n with
  | 0%N => "0" | 1%N => "1" | 2%N => "2" | 3%N => "3"
  | 4%N => "4" | 5%N => "5" | 6%N => "6" | 7%N => "7"
  | 8%N => "8" | 9%N => "9" | 10%N => "a" | 11%N => "b"
  | 12%N => "c" | 13%N => "d" | 14%N => "e" | _ => "f"
  end%char.

(** One byte of [Buffer.toString('hex')]: two lower-case digits. *)
Definition hexByte (b : Byte.byte) : string :=
  let n := Byte.to_N b in
  String (hexDigit (n / 16)) (String (hexDigit (n mod 16)) EmptyString).

(** [buf.toString('hex')]. *)
Fixpoint toHex (buf : list Byte.byte) : string :=
  match buf with
  | [] => EmptyString
  | b :: r => hexByte b +:+ toHex r
  end.

(** Template-literal rendering of an integer. *)
Definition showInt (n : Z) : string := NilZero.string_of_int (Z.to_int n).

(** The four bytes [crypto.randomBytes(4)] returns. *)
Record rand4 := Rand4 { r0 : Byte.byte; r1 : Byte.byte; r2 : Byte.byte; r3 : Byte.byte }.

Definition bytes_of (r : rand4) : list Byte.byte := [r0 r; r1 r; r2 r; r3 r].

(** [generateSubmissionId()]: [now] is what [Date.now()] reads and [rnd]
    what [crypto.randomBytes(4)] draws. *)
Definition generateSubmissionId (now : Z) (rnd : rand4) : string :=
  let timestamp := now in
  let random := toUpperCase (toHex (bytes_of rnd)) in
  "VRT-" +:+ showInt timestamp +:+ "-" +:+ random.

(** The random part of an id, and what reads one of its bytes back. *)
Definition randomPart (rnd : rand4) : string := toUpperCase (toHex (bytes_of rnd)).

Definition unhexUpper (c : ascii) : N :=
  let n := N_of_ascii c in
  if (n <? 58)%N then (n - 48)%N else (n - 55)%N.

Definition decodeByte (hi lo : ascii) : option Byte.byte :=
  Byte.of_N (16 * unhexUpper hi + unhexUpper lo).

(** The alphabet of the random part: upper-case hexadecimal digits. *)
Definition isUpperHex (c : ascii) : bool :=
  let n := nat_of_ascii c in
  ((48 <=? n)%nat && (n <=? 57)%nat) || ((65 <=? n)%nat && (n <=? 70)%nat).

Fixpoint string_forall (p : ascii -> bool) (s : string) : bool :=
  match s with
  | EmptyString => true
  | String c r => p c && string_forall p r
  end.

End Helpers.

(** ** What the JavaScript runtime and the host supply *)

(** The server's local time zone as a fixed offset from UTC in
    milliseconds (east positive), [Date.parse] on a string, and the calendar
    arithmetic of [d.setMonth(d.getMonth() - m)] on a time value. *)
Class JSRuntime := {
  tzOffset : Z;
  Date_parse : string -> option Z;
  subtractMonths : Z -> Z -> Z
}.

Section Dates.
Context `{JSRuntime}.

(** [TimeClip]: a [Date] holds at most 8.64e15 milliseconds on either side
    of the epoch; a number beyond that makes an Invalid Date. *)
Definition maxTime : Z := 8640000000000000.
Definition timeClip (t : Z) : option Z :=
  if (- maxTime <=? t) && (t <=? maxTime) then Some t else None.

(** The time value of [new Date(v)]; [None] is an Invalid Date. A [Date] is
    copied, a string parsed, anything else goes through [ToNumber] and
    [TimeClip]. *)
Definition newDate (v : value) : option Z :=
  match v with
  | VDate t => t
  | VStr s => Date_parse s
  | VNum n => timeClip n
  | VNull => Some 0
  | VBool b => Some (if b then 1 else 0)
  | VUndefined => None
  end.

(** [d.setHours(0, 0, 0, 0)]: midnight, local time, of the local day of [t]. *)
Definition setHours0 (t : Z) : Z :=
  (t + tzOffset) / msPerDay * msPerDay - tzOffset.

(** [d.setDate(d.getDate() + i)]: [i] local calendar days later. *)
Definition addDays (t : Z) (i : Z) : Z := t + i * msPerDay.

End Dates.

(** ** Rows, workbooks and JavaScript objects *)

(** An object literal or a parsed JSON body: a finite map from property
    names to values. A missing property reads as [undefined]. *)
Abbreviation jsobject := (gmap string value).

Definition prop (o : jsobject) (k : string) : value := default VUndefined (o !! k).

(** [a === b]. Two [Date] objects are equal only when they are the same
    object, which cells read from a file and request values never are. *)
Definition strict_eq (a b : value) : bool :=
  match a, b with
  | VUndefined, VUndefined => true
  | VNull, VNull => true
  | VBool x, VBool y => Bool.eqb x y
  | VNum x, VNum y => x =? y
  | VStr x, VStr y => String.eqb x y
  | _, _ => false
  end.

Module Row.
(** One row of the Submissions sheet, cells 1 to 10 in the order of
    [excelConfig.columns]. *)
Record t := mk {
  id : value;
  submissionDate : value;
  bookingDate : value;
  name : value;
  upiNumber : value;
  whatsappNumber : value;
  ayambilShalaName : value;
  city : value;
  status : value;
  ipAddress : value
}.

(** [row.getCell(n).value]; a cell past the last column is empty. *)
Definition getCell (r : t) (n : nat) : value :=
  match n with
  | 1 => id r | 2 => submissionDate r | 3 => bookingDate r | 4 => name r
  | 5 => upiNumber r | 6 => whatsappNumber r | 7 => ayambilShalaName r
  | 8 => city r | 9 => status r | 10 => ipAddress r
  | _ => VNull
  end%nat.

(** [row.getCell(n).value = v]. *)
Definition setCell (r : t) (n : nat) (v : value) : t :=
  match n with
  | 1 => mk v (submissionDate r) (bookingDate r) (name r) (upiNumber r) (whatsappNumber r) (ayambilShalaName r) (city r) (status r) (ipAddress r)
  | 2 => mk (id r) v (bookingDate r) (name r) (upiNumber r) (whatsappNumber r) (ayambilShalaName r) (city r) (status r) (ipAddress r)
  | 3 => mk (id r) (submissionDate r) v (name r) (upiNumber r) (whatsappNumber r) (ayambilShalaName r) (city r) (status r) (ipAddress r)
  | 4 => mk (id r) (submissionDate r) (bookingDate r) v (upiNumber r) (whatsappNumber r) (ayambilShalaName r) (city r) (status r) (ipAddress r)
  | 5 => mk (id r) (submissionDate r) (bookingDate r) (name r) v (whatsappNumber r) (ayambilShalaName r) (city r) (status r) (ipAddress r)
  | 6 => mk (id r) (submissionDate r) (bookingDate r) (name r) (upiNumber r) v (ayambilShalaName r) (city r) (status r) (ipAddress r)
  | 7 => mk (id r) (submissionDate r) (bookingDate r) (name r) (upiNumber r) (whatsappNumber r) v (city r) (status r) (ipAddress r)
  | 8 => mk (id r) (submissionDate r) (bookingDate r) (name r) (upiNumber r) (whatsappNumber r) (ayambilShalaName r) v (status r) (ipAddress r)
  | 9 => mk (id r) (submissionDate r) (bookingDate r) (name r) (upiNumber r) (whatsappNumber r) (ayambilShalaName r) (city r) v (ipAddress r)
  | 10 => mk (id r) (submissionDate r) (bookingDate r) (name r) (upiNumber r) (whatsappNumber r) (ayambilShalaName r) (city r) (status r) v
  | _ => r
  end%nat.
End Row.

(** ** config/excel.config.js *)

Module ExcelConfig.
Definition maxBackups : nat := 30.
Definition maxBookingsPerDay : nat := 3.
Definition backupDir : string := "data/backups".
Definition archiveDir : string := "data/archives".

(** The keys of [columns], with the cell each one names. *)
Definition columns : list (string * nat) :=
  [("id", 1); ("submissionDate", 2); ("bookingDate", 3); ("name", 4);
   ("upiNumber", 5); ("whatsappNumber", 6); ("ayambilShalaName", 7);
   ("city", 8); ("status", 9); ("ipAddress", 10)]%nat.
End ExcelConfig.

Arguments ExcelConfig.maxBackups : simpl never.
Arguments ExcelConfig.maxBookingsPerDay : simpl never.

(** A name that [path.join] leaves as it is, one segment below the
    directory, and that can name a file there: not empty, neither [.]
    nor [..], at most 255 bytes long, and without a separator or a NUL. *)
Definition plainName (f : string) : bool :=
  negb (String.eqb f EmptyString) && negb (String.eqb f ".") &&
  negb (String.eqb f "..") && (String.length f <=? 255)%nat &&
  Helpers.string_forall
    (fun c => negb (Ascii.eqb c "/") && negb (Ascii.eqb c "\") &&
              negb (Ascii.eqb c Ascii.zero)) f.

(** [path.join(dir, f)] for a plain name [f], the only names the
    services make up themselves; [path.join] would resolve the [.] and
    [..] segments of any other name. *)
Definition path_join (dir f : string) : string := dir +:+ "/" +:+ f.

(** The Summary sheet: the count in row 2 and the stamp in row 3. *)
Record summarySheet := { total : Z; lastUpdated : Z }.

(** The workbook kept in [data/submissions.xlsx]: the data rows of the
    Submissions sheet (row [i] of the list is worksheet row [i + 2], below
    the header) and the Summary sheet when there is one. *)
Record workbook := { submissions : list Row.t; summary : option summarySheet }.

(** A file of the backup directory. *)
Record backupFile := { mtime : Z; content : workbook }.

(** ** The host: files, the advisory lock, what can go wrong *)

(** What an operation can reject with. *)
Inductive error : Type :=
  | ENOENT (path : string)        (* a file that is not there *)
  | EIO (syscall path : string)   (* any other failure of an fs call *)
  | LockedError                   (* 'File is currently locked by another process. ...' *)
  | SubmissionNotFound            (* Error('Submission not found') *)
  | RangeError                    (* toISOString() on an Invalid Date *)
  | TypeError.                    (* a method called on a value that lacks it *)

(** What an observer of the store file and of the console sees; of the
    console, only what a [catch] block reports with [console.error]. *)
Inductive event : Type :=
  | LockAcquired
  | LockReleased
  | StoreRead
  | StoreWritten
  | ConsoleError (msg : string).

(** Failures of the file system calls of [cleanOldBackups]: whether
    [readdir] of the backup directory fails, and the backup files for which
    [stat], resp. [unlink], fails. *)
Record fsFaults := {
  readdirFails : bool;
  statFails : gset string;
  unlinkFails : gset string
}.

(** The host as the services see it. The directories [data/backups] and
    [data/archives] are there throughout. *)
Record world := {
  storeFile : option workbook;          (* data/submissions.xlsx, when it exists *)
  backups : gmap string backupFile;     (* data/backups *)
  archives : gmap string (list Row.t);  (* data/archives: the rows of each archive *)
  lockBusy : bool;                      (* another process holds the lock and keeps it *)
  faults : fsFaults;
  trace : list event                    (* oldest first *)
}.

Definition set_storeFile (f : option workbook) (w : world) : world :=
  {| storeFile := f; backups := backups w; archives := archives w;
     lockBusy := lockBusy w; faults := faults w; trace := trace w |}.
Definition set_backups (b : gmap string backupFile) (w : world) : world :=
  {| storeFile := storeFile w; backups := b; archives := archives w;
     lockBusy := lockBusy w; faults := faults w; trace := trace w |}.
Definition set_archives (a : gmap string (list Row.t)) (w : world) : world :=
  {| storeFile := storeFile w; backups := backups w; archives := a;
     lockBusy := lockBusy w; faults := faults w; trace := trace w |}.
Definition set_trace (t : list event) (w : world) : world :=
  {| storeFile := storeFile w; backups := backups w; archives := archives w;
     lockBusy := lockBusy w; faults := faults w; trace := t |}.

(** An async function: it runs on the world and resolves or rejects; the
    effects it had before rejecting stay. *)
Inductive result (A : Type) : Type :=
  | Ok (a : A)
  | Throw (e : error).
Arguments Ok {A} a.
Arguments Throw {A} e.

Definition M (A : Type) : Type := world -> result A * world.

Definition ret {A} (a : A) : M A := fun w => (Ok a, w).
Definition throw {A} (e : error) : M A := fun w => (Throw e, w).
Definition bind {A B} (m : M A) (k : A -> M B) : M B :=
  fun w => match m w with
           | (Ok a, w') => k a w'
           | (Throw e, w') => (Throw e, w')
           end.
(** [try { m } catch (error) { h error }]. *)
Definition tryCatch {A} (m : M A) (h : error -> M A) : M A :=
  fun w => match m w with
           | (Ok a, w') => (Ok a, w')
           | (Throw e, w') => h e w'
           end.
Definition gets {A} (f : world -> A) : M A := fun w => (Ok (f w), w).
Definition modify (f : world -> world) : M unit := fun w => (Ok tt, f w).
Definition emit (e : event) : M unit := modify (fun w => set_trace (trace w ++ [e]) w).

Declare Scope js_scope.
Delimit Scope js_scope with js.
Notation "x <- m ;; k" := (bind m (fun x => k))
  (at level 100, m at next level, right associativity) : js_scope.
Notation "m ;; k" := (bind m (fun _ => k))
  (at level 100, right associativity) : js_scope.
Local Open Scope js_scope.

(** [for (const x of xs) await body(x)]. *)
Fixpoint forOf {A} (xs : list A) (body : A -> M unit) : M unit :=
  match xs with
  | [] => ret tt
  | x :: r => body x ;; forOf r body
  end.

Definition storePath : string := "data/submissions.xlsx".

(** [workbook.xlsx.readFile(filePath)]. *)
Definition readFile : M workbook :=
  f <- gets storeFile ;;
  match f with
  | Some wb => emit StoreRead ;; ret wb
  | None => throw (ENOENT storePath)
  end.

(** [workbook.xlsx.writeFile(filePath)]. *)
Definition writeFile (wb : workbook) : M unit :=
  modify (set_storeFile (Some wb)) ;; emit StoreWritten.

(** ** middleware/fileLock.middleware.js *)

(** [withFileLock(operation)]: [lockfile.lock] first resolves the path of
    the store file and rejects with [ENOENT], no lock taken, when the file
    is not there; that error is rethrown as it is. Otherwise it either
    gives the lock or, its retries used up on a lock that another process
    holds, rejects with [ELOCKED], which is rethrown under the message of
    [LockedError]. A lock that was taken is released whether the operation
    resolves or rejects. *)
Definition withFileLock {A} (operation : M A) : M A :=
  fun w =>
    match storeFile w with
    | None => (Throw (ENOENT storePath), w)
    | Some _ =>
        if lockBusy w then (Throw LockedError, w)
        else
          let '(r, w1) := (emit LockAcquired ;; operation) w in
          let '(_, w2) := emit LockReleased w1 in
          (r, w2)
    end.

(** ** Arrays *)

(** [xs.sort(cmp)]: a stable sort; [cmp a b] is the number the comparator
    returns, [None] when it is [NaN]. An element moves behind the ones the
    comparator puts strictly before it and stays where it is otherwise. *)
Fixpoint sortInsert {A} (cmp : A -> A -> option Z) (x : A) (l : list A) : list A :=
  match l with
  | [] => [x]
  | y :: r =>
      match cmp x y with
      | Some d => if 0 <? d then y :: sortInsert cmp x r else x :: y :: r
      | None => x :: y :: r
      end
  end.

Definition jsSort {A} (cmp : A -> A -> option Z) (l : list A) : list A :=
  foldr (sortInsert cmp) [] l.

(** [xs.filter(p)] for a predicate that may throw. *)
Fixpoint filterR {A} (p : A -> result bool) (l : list A) : result (list A) :=
  match l with
  | [] => Ok []
  | x :: r =>
      match p x with
      | Throw e => Throw e
      | Ok b =>
          match filterR p r with
          | Throw e => Throw e
          | Ok r' => Ok (if b then x :: r' else r')
          end
      end
  end.

Definition liftR {A} (r : result A) : M A := fun w => (r, w).

(** ** services/excel.service.js *)

Module ExcelService.
Section WithRuntime.
Context `{JSRuntime}.

(** What a cell holds once a value is put in it: an [undefined] item of
    the array given to [addRow] leaves its cell empty. *)
Definition cellOf (v : value) : value :=
  match v with VUndefined => VNull | _ => v end.

Definition rowOfValues (r : Row.t) : Row.t :=
  Row.mk (cellOf (Row.id r)) (cellOf (Row.submissionDate r))
    (cellOf (Row.bookingDate r)) (cellOf (Row.name r))
    (cellOf (Row.upiNumber r)) (cellOf (Row.whatsappNumber r))
    (cellOf (Row.ayambilShalaName r)) (cellOf (Row.city r))
    (cellOf (Row.status r)) (cellOf (Row.ipAddress r)).

(** What [addSubmission] resolves to: [{ success: true, id, message, data }]. *)
Record addResult := { newId : string; data : Row.t }.

(** The Summary sheet, when there is one, after the count went through
    [f] and the stamp was set to the clock. *)
Definition touchSummary (now : Z) (f : Z -> Z) (s : option summarySheet) : option summarySheet :=
  match s with
  | Some sh => Some {| total := f (total sh); lastUpdated := now |}
  | None => None
  end.

(** The object [submissionData] that [addSubmission] builds. *)
Definition submissionData (id : string) (now : Z) (data : jsobject) : Row.t :=
  Row.mk (VStr id)
    (VDate (Some now))
    (if truthy (prop data "bookingDate")
     then VDate (newDate (prop data "bookingDate")) else VNull)
    (prop data "name")
    (prop data "upiNumber")
    (prop data "whatsappNumber")
    (prop data "ayambilShalaName")
    (prop data "city")
    (VStr "pending")
    (js_or (prop data "ipAddress") (VStr EmptyString)).

(** [addSubmission(data)]; [now] is the clock, [rnd] the random bytes. *)
Definition addSubmission (now : Z) (rnd : Helpers.rand4) (data : jsobject) : M addResult :=
  withFileLock (
    wb <- readFile ;;
    let id := Helpers.generateSubmissionId now rnd in
    let submissionData := submissionData id now data in
    let worksheet := submissions wb ++ [rowOfValues submissionData] in
    let summarySheet := touchSummary now (fun currentTotal => currentTotal + 1) (summary wb) in
    writeFile {| submissions := worksheet; summary := summarySheet |} ;;
    ret {| newId := id; data := submissionData |}).

(** The filter of [getAllSubmissions]. *)
Definition matchesFilters (filters : jsobject) (submission : Row.t) : bool :=
  let matches := true in
  let matches :=
    if truthy (prop filters "status") &&
       negb (strict_eq (Row.status submission) (prop filters "status"))
    then false else matches in
  let matches :=
    if truthy (prop filters "city") &&
       negb (strict_eq (Row.city submission) (prop filters "city"))
    then false else matches in
  matches.

(** [(a, b) => new Date(b.submissionDate) - new Date(a.submissionDate)]. *)
Definition newestFirst (a b : Row.t) : option Z :=
  match newDate (Row.submissionDate b), newDate (Row.submissionDate a) with
  | Some tb, Some ta => Some (tb - ta)
  | _, _ => None
  end.

(** [getAllSubmissions(filters)]. *)
Definition getAllSubmissions (filters : jsobject) : M (list Row.t) :=
  withFileLock (
    wb <- readFile ;;
    let submissions := filter (fun s => matchesFilters filters s = true) (submissions wb) in
    ret (jsSort newestFirst submissions)).

(** [getSubmissionById(id)]. *)
Definition getSubmissionById (id : string) : M (option Row.t) :=
  submissions <- getAllSubmissions ∅ ;;
  ret (List.find (fun s => strict_eq_str (Row.id s) id) submissions).

(** The body of the row callback of [updateSubmission], for a row whose
    id matched: one guarded assignment per updatable field, in order. *)
Definition applyUpdates (updates : jsobject) (row : Row.t) : Row.t :=
  let row := if truthy (prop updates "status")
             then Row.setCell row 9 (prop updates "status") else row in
  let row := if truthy (prop updates "bookingDate")
             then Row.setCell row 3 (VDate (newDate (prop updates "bookingDate"))) else row in
  let row := if truthy (prop updates "name")
             then Row.setCell row 4 (prop updates "name") else row in
  let row := if truthy (prop updates "upiNumber")
             then Row.setCell row 5 (prop updates "upiNumber") else row in
  let row := if truthy (prop updates "whatsappNumber")
             then Row.setCell row 6 (prop updates "whatsappNumber") else row in
  let row := if truthy (prop updates "ayambilShalaName")
             then Row.setCell row 7 (prop updates "ayambilShalaName") else row in
  let row := if truthy (prop updates "city")
             then Row.setCell row 8 (prop updates "city") else row in
  row.

(** [worksheet.eachRow] of [updateSubmission] over the data rows:
    the rows after the callback ran on each, and [updatedSubmission], set
    (together with [updated]) by every row whose id matches. *)
Fixpoint updateEachRow (id : string) (updates : jsobject) (rows : list Row.t)
    (updatedSubmission : option Row.t) : list Row.t * option Row.t :=
  match rows with
  | [] => ([], updatedSubmission)
  | row :: rest =>
      if strict_eq_str (Row.getCell row 1) id then
        let row := applyUpdates updates row in
        let '(rest, u) := updateEachRow id updates rest (Some row) in
        (row :: rest, u)
      else
        let '(rest, u) := updateEachRow id updates rest updatedSubmission in
        (row :: rest, u)
  end.

(** [updateSubmission(id, updates)]. *)
Definition updateSubmission (id : string) (updates : jsobject) : M Row.t :=
  withFileLock (
    wb <- readFile ;;
    let '(worksheet, updatedSubmission) := updateEachRow id updates (submissions wb) None in
    match updatedSubmission with
    | None => throw SubmissionNotFound
    | Some data =>
        writeFile {| submissions := worksheet; summary := summary wb |} ;;
        ret data
    end).

(** [v?.toLowerCase().includes(q)] and [v?.includes(q)]: [undefined] on a
    missing value, a [TypeError] on a value that is not a string. *)
Definition optIncludes (lower : bool) (v : value) (q : string) : result bool :=
  match v with
  | VStr s => Ok (includes (if lower then toLowerCase s else s) q)
  | VNull | VUndefined => Ok false
  | _ => Throw TypeError
  end.

(** [a || b] on tests that may throw. *)
Definition orR (a b : result bool) : result bool :=
  match a with
  | Ok true => Ok true
  | Ok false => b
  | Throw e => Throw e
  end.

(** [searchSubmissions(query)]. *)
Definition searchSubmissions (query : string) : M (list Row.t) :=
  allSubmissions <- getAllSubmissions ∅ ;;
  let lowerQuery := toLowerCase query in
  liftR (filterR (fun submission =>
    orR (optIncludes true (Row.name submission) lowerQuery)
   (orR (optIncludes false (Row.upiNumber submission) query)
   (orR (optIncludes false (Row.whatsappNumber submission) query)
   (orR (optIncludes true (Row.ayambilShalaName submission) lowerQuery)
   (orR (optIncludes true (Row.city submission) lowerQuery)
        (optIncludes true (Row.id submission) lowerQuery))))))
    allSubmissions).

(** What [getStatistics] resolves to, without [fileSizeMB]. *)
Record statistics := {
  stat_total : nat; stat_today : nat; stat_pending : nat;
  stat_reviewed : nat; stat_archived : nat
}.

Definition countStatus (s : string) (l : list Row.t) : nat :=
  length (filter (fun r => strict_eq_str (Row.status r) s = true) l).

(** [getStatistics()]. *)
Definition getStatistics (now : Z) : M statistics :=
  submissions <- getAllSubmissions ∅ ;;
  let today := setHours0 now in
  let todaySubmissions :=
    filter (fun s => match newDate (Row.submissionDate s) with
                     | Some subDate => setHours0 subDate =? today
                     | None => false
                     end = true) submissions in
  ret {| stat_total := length submissions;
         stat_today := length todaySubmissions;
         stat_pending := countStatus "pending" submissions;
         stat_reviewed := countStatus "reviewed" submissions;
         stat_archived := countStatus "archived" submissions |}.

(** [new Date(v).toISOString().split('T')[0]]. *)
Definition isoDay (v : value) : result Z :=
  match newDate v with
  | Some t => Ok (utcDay t)
  | None => Throw RangeError
  end.

(** The row callback of [getBookingCountForDate] run over the data rows. *)
Fixpoint countRows (dateStr : Z) (rows : list Row.t) (count : nat) : result nat :=
  match rows with
  | [] => Ok count
  | row :: rest =>
      let bookingDate := Row.getCell row 3 in
      let status := Row.getCell row 9 in
      if truthy bookingDate && negb (strict_eq_str status "archived") then
        match isoDay bookingDate with
        | Throw e => Throw e
        | Ok rowDateStr =>
            countRows dateStr rest (if rowDateStr =? dateStr then S count else count)
        end
      else countRows dateStr rest count
  end.

(** [getBookingCountForDate(date)]: the file is read without the lock. *)
Definition getBookingCountForDate (date : value) : M nat :=
  dateStr <- liftR (isoDay date) ;;
  wb <- readFile ;;
  liftR (countRows dateStr (submissions wb) 0).

(** What [isDateAvailable] resolves to. *)
Record availability := {
  available : bool; count : nat; maxBookings : nat; remaining : Z
}.

(** [isDateAvailable(date)]. *)
Definition isDateAvailable (date : value) : M availability :=
  count <- getBookingCountForDate date ;;
  let maxBookings := ExcelConfig.maxBookingsPerDay in
  ret {| available := (count <? maxBookings)%nat;
         count := count;
         maxBookings := maxBookings;
         remaining := Z.of_nat maxBookings - Z.of_nat count |}.

(** What [getNextAvailableDate] resolves to when it finds a day. *)
Record nextDate := { nd_date : Z; nd_count : nat; nd_remaining : Z }.

(** The loop of [getNextAvailableDate] from index [i], with [n] turns left. *)
Fixpoint searchFrom (searchStart : option Z) (i : Z) (n : nat) : M (option nextDate) :=
  match n with
  | O => ret None
  | S n' =>
      let checkDate := option_map (fun t => addDays t i) searchStart in
      availability <- isDateAvailable (VDate checkDate) ;;
      if available availability then
        date <- liftR (isoDay (VDate checkDate)) ;;
        ret (Some {| nd_date := date;
                     nd_count := count availability;
                     nd_remaining := remaining availability |})
      else searchFrom searchStart (i + 1) n'
  end.

(** [getNextAvailableDate(startDate, maxDaysToSearch)]. *)
Definition getNextAvailableDate (startDate : value) (maxDaysToSearch : nat) : M (option nextDate) :=
  let searchStart := option_map setHours0 (newDate startDate) in
  searchFrom searchStart 0 maxDaysToSearch.

(** What [validateBookingDate] resolves to. *)
Inductive validation : Type :=
  | Valid (count : nat) (remaining : Z)
  | PastDate
  | FullyBooked (currentCount : nat) (nextAvailableDate : option nextDate).

Definition valid (v : validation) : bool :=
  match v with Valid _ _ => true | _ => false end.

(** [a < b] on two [Date]s, false when one is invalid. *)
Definition dateLt (a b : option Z) : bool :=
  match a, b with
  | Some x, Some y => x <? y
  | _, _ => false
  end.

(** [validateBookingDate(bookingDate)]. *)
Definition validateBookingDate (now : Z) (bookingDate : value) : M validation :=
  let today := Some (setHours0 now) in
  let targetDate := option_map setHours0 (newDate bookingDate) in
  if dateLt targetDate today then ret PastDate
  else
    availability <- isDateAvailable bookingDate ;;
    if negb (available availability) then
      nextDate <- getNextAvailableDate (VDate targetDate) 90 ;;
      ret (FullyBooked (count availability) nextDate)
    else ret (Valid (count availability) (remaining availability)).

(** [initializeFile()]: nothing is done when the file is there; otherwise a
    workbook with the header row alone and a Summary sheet counting zero
    is written. *)
Definition initializeFile (now : Z) : M unit :=
  tryCatch (
    f <- gets storeFile ;;
    match f with
    | Some _ => ret tt
    | None =>
        writeFile {| submissions := [];
                     summary := Some {| total := 0; lastUpdated := now |} |}
    end)
    (fun error => emit (ConsoleError "Error initializing Excel file:") ;; throw error).

(** The row callback of [deleteSubmission] run over the data rows from
    worksheet row [rowNumber] on: [rowToDelete] ends as the number of the
    last row whose id matches. *)
Fixpoint findRowToDelete (id : string) (rowNumber : nat) (rows : list Row.t)
    (rowToDelete : option nat) : option nat :=
  match rows with
  | [] => rowToDelete
  | row :: rest =>
      findRowToDelete id (S rowNumber) rest
        (if strict_eq_str (Row.getCell row 1) id then Some rowNumber else rowToDelete)
  end.

(** [deleteSubmission(id)]: worksheet row [rowToDelete] is item
    [rowToDelete - 2] of the data rows. *)
Definition deleteSubmission (now : Z) (id : string) : M unit :=
  withFileLock (
    wb <- readFile ;;
    match findRowToDelete id 2 (submissions wb) None with
    | None => throw SubmissionNotFound
    | Some rowToDelete =>
        let worksheet := delete (rowToDelete - 2)%nat (submissions wb) in
        let summarySheet :=
          touchSummary now (fun currentTotal => Z.max 0 (currentTotal - 1)) (summary wb) in
        writeFile {| submissions := worksheet; summary := summarySheet |}
    end).

(** [a >= b] and [a <= b] on two [Date]s, false when one is invalid. *)
Definition dateGe (a b : option Z) : bool :=
  match a, b with
  | Some x, Some y => y <=? x
  | _, _ => false
  end.
Definition dateLe (a b : option Z) : bool :=
  match a, b with
  | Some x, Some y => x <=? y
  | _, _ => false
  end.

(** The row callback of [getBookingCountsByDateRange] run over the data
    rows; [bookingCounts] maps a day, carried as its number, to its count. *)
Fixpoint countByDay (startDate endDate : option Z) (rows : list Row.t)
    (bookingCounts : gmap Z nat) : gmap Z nat :=
  match rows with
  | [] => bookingCounts
  | row :: rest =>
      let bookingDate := Row.getCell row 3 in
      if truthy bookingDate then
        let date := newDate bookingDate in
        let status := Row.getCell row 9 in
        if dateGe date startDate && dateLe date endDate &&
           negb (strict_eq_str status "archived")
        then
          match date with
          | Some t =>
              let dateStr := utcDay t in
              countByDay startDate endDate rest
                (<[dateStr := S (default 0%nat (bookingCounts !! dateStr))]> bookingCounts)
          | None => countByDay startDate endDate rest bookingCounts
          end
        else countByDay startDate endDate rest bookingCounts
      else countByDay startDate endDate rest bookingCounts
  end.

(** [getBookingCountsByDateRange(startDate, endDate)], given two [Date]s. *)
Definition getBookingCountsByDateRange (startDate endDate : option Z) : M (gmap Z nat) :=
  wb <- readFile ;;
  ret (countByDay startDate endDate (submissions wb) ∅).

End WithRuntime.
End ExcelService.

(** ** services/backup.service.js *)

Module BackupService.

(** The text [YYYY-MM-DD_HH-MM-SS] that [createBackup] cuts out of
    [toISOString()]: it names the UTC second of [now], one text per second,
    and is carried as the number of that second. *)
Definition timestamp (now : Z) : string := Helpers.showInt (now / 1000).

(** [`submissions_backup_${timestamp}.xlsx`]. *)
Definition backupFileName (now : Z) : string :=
  "submissions_backup_" +:+ timestamp now +:+ ".xlsx".

(** [f.startsWith('submissions_backup_') && f.endsWith('.xlsx')]. *)
Definition isBackupName (f : string) : bool :=
  startsWith f "submissions_backup_" && endsWith f ".xlsx".

(** [fs.readdir(backupDir)]. *)
Definition readdir : M (list string) :=
  fun w =>
    if readdirFails (faults w) then (Throw (EIO "readdir" ExcelConfig.backupDir), w)
    else (Ok ((map_to_list (backups w)).*1), w).

(** One entry of [filesWithStats]: [{ name, path, mtime }]. *)
Record fileWithStats := { fname : string; fpath : string; fmtime : Z }.

(** [fs.stat(path)] of a file of the backup directory, kept to [mtime]. *)
Definition stat (name : string) : M Z :=
  fun w =>
    if decide (name ∈ statFails (faults w))
    then (Throw (EIO "stat" (path_join ExcelConfig.backupDir name)), w)
    else match backups w !! name with
         | Some f => (Ok (mtime f), w)
         | None => (Throw (ENOENT (path_join ExcelConfig.backupDir name)), w)
         end.

(** [Promise.all(backupFiles.map(async file => ...))]. *)
Fixpoint statAll (names : list string) : M (list fileWithStats) :=
  match names with
  | [] => ret []
  | f :: r =>
      m <- stat f ;;
      rest <- statAll r ;;
      ret ({| fname := f; fpath := path_join ExcelConfig.backupDir f; fmtime := m |} :: rest)
  end.

(** [fs.unlink(file.path)]. *)
Definition unlink (file : fileWithStats) : M unit :=
  fun w =>
    if decide (fname file ∈ unlinkFails (faults w))
    then (Throw (EIO "unlink" (fpath file)), w)
    else match backups w !! fname file with
         | Some _ => (Ok tt, set_backups (delete (fname file) (backups w)) w)
         | None => (Throw (ENOENT (fpath file)), w)
         end.

(** [cleanOldBackups()]. *)
Definition cleanOldBackups : M unit :=
  tryCatch (
    files <- readdir ;;
    let backupFiles := filter (fun f => isBackupName f = true) files in
    if (length backupFiles <=? ExcelConfig.maxBackups)%nat then ret tt
    else
      filesWithStats <- statAll backupFiles ;;
      let sorted := jsSort (fun a b => Some (fmtime a - fmtime b)) filesWithStats in
      let filesToDelete := take (length sorted - ExcelConfig.maxBackups) sorted in
      forOf filesToDelete unlink)
    (fun error => emit (ConsoleError "Error cleaning old backups:") ;; ret tt).

(** [fs.copyFile(filePath, backupPath)]: the copy is a new file, or
    replaces the one of that name, and its modification time is the time
    of the copy. *)
Definition copyToBackup (now : Z) (name : string) : M unit :=
  f <- gets storeFile ;;
  match f with
  | Some wb =>
      modify (fun w => set_backups (<[name := {| mtime := now; content := wb |}]> (backups w)) w)
  | None => throw (ENOENT storePath)
  end.

(** [createBackup()]: the path of the backup, or [null] when there is no
    store file yet. *)
Definition createBackup (now : Z) : M (option string) :=
  tryCatch (
    f <- gets storeFile ;;
    match f with
    | None => ret None
    | Some _ =>
        let backupFileName := backupFileName now in
        let backupPath := path_join ExcelConfig.backupDir backupFileName in
        copyToBackup now backupFileName ;;
        cleanOldBackups ;;
        ret (Some backupPath)
    end)
    (fun error => emit (ConsoleError "Backup failed:") ;; throw error).

(** One entry of what [listBackups] returns: [{ name, path, created }];
    the size fields are left out. *)
Record backupInfo := { bname : string; bpath : string; created : Z }.

(** [listBackups()]: the backup files, newest first; an empty list when
    anything fails. *)
Definition listBackups : M (list backupInfo) :=
  tryCatch (
    files <- readdir ;;
    let backupFiles := filter (fun f => isBackupName f = true) files in
    stats <- statAll backupFiles ;;
    let backupsWithStats :=
      (fun file => {| bname := fname file; bpath := fpath file; created := fmtime file |})
        <$> stats in
    ret (jsSort (fun a b => Some (created b - created a)) backupsWithStats))
    (fun error => emit (ConsoleError "Error listing backups:") ;; ret []).

(** [getLastBackupTime()]. *)
Definition getLastBackupTime : M (option Z) :=
  tryCatch (
    backups <- listBackups ;;
    ret (match backups with
         | b :: _ => Some (created b)
         | [] => None
         end))
    (fun error => ret None).

(** What [restoreFromBackup] comes to: it resolves to
    [{ success: true, message, backupFile }], or rejects with a new error
    whose message quotes the one of the failure it caught. *)
Inductive restoreOutcome : Type :=
  | Restored (backupFile : string)
  | RestoreFailed (cause : error).

Definition corruptedFileName (now : Z) : string :=
  "corrupted_" +:+ Helpers.showInt now +:+ ".xlsx".

(** [restoreFromBackup(backupFileName)] for a plain name, which
    [path.join] puts right below the backup directory (any other name is
    resolved by [path.join] and may lead elsewhere): the backup has to be
    there; the current store file,
    if there is one, is first copied to [corrupted_<now>.xlsx] in the
    backup directory; then the backup is copied over the store file. The
    lock is not taken. *)
Definition restoreFromBackup (now : Z) (backupFileName : string)
    : world -> restoreOutcome * world :=
  fun w =>
    match
      (found <- gets (fun w => backups w !! backupFileName) ;;
       match found with
       | None => throw (ENOENT (path_join ExcelConfig.backupDir backupFileName))
       | Some _ =>
           tryCatch (copyToBackup now (corruptedFileName now)) (fun _ => ret tt) ;;
           source <- gets (fun w => backups w !! backupFileName) ;;
           match source with
           | None => throw (ENOENT (path_join ExcelConfig.backupDir backupFileName))
           | Some b =>
               modify (set_storeFile (Some (content b))) ;;
               emit StoreWritten
           end
       end) w
    with
    | (Ok _, w') => (Restored backupFileName, w')
    | (Throw error, w') =>
        (RestoreFailed error, set_trace (trace w' ++ [ConsoleError "Restore failed:"]) w')
    end.

End BackupService.

(** ** services/monitor.service.js *)

Module MonitorService.
Section WithRuntime.
Context `{JSRuntime}.

(** What [archiveOldRecords] resolves to; [archivePath] and [cutoffDate]
    are absent from the result that reports nothing to archive. *)
Record archiveResult := {
  archivedCount : nat;
  archivePath : option string;
  cutoffDate : option Z
}.

(** [worksheet.spliceRows(rowNumber, 1)] for a data row: worksheet row
    [rowNumber] is item [rowNumber - 2] of the data rows. *)
Definition spliceRows (rowNumber : nat) (rows : list Row.t) : list Row.t :=
  delete (rowNumber - 2)%nat rows.

(** The row callback of [archiveOldRecords] run over the data rows from
    worksheet row [rowNumber] on: the rows added to the archive sheet and
    the row numbers pushed on [rowsToArchive]. *)
Fixpoint scanRows (cutoffDate : Z) (rowNumber : nat) (rows : list Row.t)
    : list Row.t * list nat :=
  match rows with
  | [] => ([], [])
  | row :: rest =>
      let '(archiveSheet, rowsToArchive) := scanRows cutoffDate (S rowNumber) rest in
      let date := newDate (Row.getCell row 2) in
      if ExcelService.dateLt date (Some cutoffDate)
      then (row :: archiveSheet, rowNumber :: rowsToArchive)
      else (archiveSheet, rowsToArchive)
  end.

(** [for (let i = rowsToArchive.length - 1; i >= 0; i--)
       worksheet.spliceRows(rowsToArchive[i], 1)]. *)
Definition removeArchived (rowsToArchive : list nat) (rows : list Row.t) : list Row.t :=
  foldr spliceRows rows rowsToArchive.

(** [`archive_${timestamp}_${rowsToArchive.length}records.xlsx`], where
    [timestamp] is the day part of [toISOString()], carried as the number
    of the UTC day. *)
Definition archiveFileName (now : Z) (n : nat) : string :=
  "archive_" +:+ Helpers.showInt (utcDay now) +:+ "_" +:+
  Helpers.showInt (Z.of_nat n) +:+ "records.xlsx".

(** [archiveOldRecords(monthsOld)]. *)
Definition archiveOldRecords (now : Z) (monthsOld : Z) : M archiveResult :=
  tryCatch (
    BackupService.createBackup now ;;
    wb <- readFile ;;
    let cutoffDate := subtractMonths now monthsOld in
    let '(archiveSheet, rowsToArchive) := scanRows cutoffDate 2 (submissions wb) in
    if (length rowsToArchive =? 0)%nat then
      ret {| archivedCount := 0; archivePath := None; cutoffDate := None |}
    else
      let name := archiveFileName now (length rowsToArchive) in
      let archivePath := path_join ExcelConfig.archiveDir name in
      modify (fun w => set_archives (<[name := archiveSheet]> (archives w)) w) ;;
      let worksheet := removeArchived rowsToArchive (submissions wb) in
      writeFile {| submissions := worksheet; summary := summary wb |} ;;
      ret {| archivedCount := length rowsToArchive;
             archivePath := Some archivePath;
             cutoffDate := Some cutoffDate |})
    (fun error => emit (ConsoleError "Archive failed:") ;; throw error).

End WithRuntime.
End MonitorService.

(** ** controllers/submission.controller.js *)

Module SubmissionController.
Section WithRuntime.
Context `{JSRuntime}.

(** A request as the handler sees it: the parsed body and what
    [getClientIp(req)] returns for it. *)
Record request := { body : jsobject; clientIp : string }.

(** What the handler answers: 201 with the result of [addSubmission], 400
    with the result of the validation, or 500. *)
Inductive response : Type :=
  | Created (r : ExcelService.addResult)
  | BadRequest (v : ExcelService.validation)
  | ServerError.

(** [createSubmission(req, res)]. The confirmation mail is sent without
    awaiting it and touches neither files nor the response. *)
Definition createSubmission (now : Z) (rnd : Helpers.rand4) (req : request)
    : world -> response * world :=
  fun w =>
    match
      (rejected <-
         (if truthy (prop (body req) "bookingDate") then
            validation <- ExcelService.validateBookingDate now (prop (body req) "bookingDate") ;;
            if negb (ExcelService.valid validation)
            then ret (Some (BadRequest validation)) else ret None
          else ret None) ;;
       match rejected with
       | Some res => ret res
       | None =>
           BackupService.createBackup now ;;
           let submissionData := <["ipAddress" := VStr (clientIp req)]> (body req) in
           result <- ExcelService.addSubmission now rnd submissionData ;;
           ret (Created result)
       end) w
    with
    | (Ok res, w') => (res, w')
    | (Throw error, w') =>
        (ServerError, set_trace (trace w' ++ [ConsoleError "Create submission error:"]) w')
    end.

(** A handler runs until it awaits, and other requests are served while
    it waits. [createSubmission] awaits first the validation of the
    booking date (l.12-23), which works without the lock;
    [createSubmission_begin] is the handler up to the end of that check:
    the response it has sent, if it has sent one (the 400 of the check,
    or the 500 of its [catch] block). *)
Definition createSubmission_begin (now : Z) (req : request)
    : world -> option response * world :=
  fun w =>
    match
      (if truthy (prop (body req) "bookingDate") then
         validation <- ExcelService.validateBookingDate now (prop (body req) "bookingDate") ;;
         if negb (ExcelService.valid validation)
         then ret (Some (BadRequest validation)) else ret None
       else ret None) w
    with
    | (Ok rejected, w') => (rejected, w')
    | (Throw error, w') =>
        (Some ServerError,
         set_trace (trace w' ++ [ConsoleError "Create submission error:"]) w')
    end.

(** The handler from there on (l.25-56): the backup, the locked write and
    the answer. *)
Definition createSubmission_finish (now : Z) (rnd : Helpers.rand4) (req : request)
    : world -> response * world :=
  fun w =>
    match
      (BackupService.createBackup now ;;
       let submissionData := <["ipAddress" := VStr (clientIp req)]> (body req) in
       result <- ExcelService.addSubmission now rnd submissionData ;;
       ret (Created result)) w
    with
    | (Ok res, w') => (res, w')
    | (Throw error, w') =>
        (ServerError, set_trace (trace w' ++ [ConsoleError "Create submission error:"]) w')
    end.

(** What the update and delete handlers answer: 200 with the result of
    the service, 404 when the failure reads [Submission not found], 500
    for any other failure. *)
Inductive changeResponse (A : Type) : Type :=
  | Changed (result : A)
  | NotFound
  | ChangeFailed.

(** [updateSubmission(req, res)], for [req.params.id] and [req.body]. *)
Definition updateSubmission (now : Z) (id : string) (updates : jsobject)
    : world -> changeResponse Row.t * world :=
  fun w =>
    match (BackupService.createBackup now ;;
           ExcelService.updateSubmission id updates) w with
    | (Ok result, w') => (Changed _ result, w')
    | (Throw error, w') =>
        let w' := set_trace (trace w' ++ [ConsoleError "Update submission error:"]) w' in
        match error with
        | SubmissionNotFound => (NotFound _, w')
        | _ => (ChangeFailed _, w')
        end
    end.

(** [deleteSubmission(req, res)], for [req.params.id]. *)
Definition deleteSubmission (now : Z) (id : string)
    : world -> changeResponse unit * world :=
  fun w =>
    match (BackupService.createBackup now ;;
           ExcelService.deleteSubmission now id) w with
    | (Ok result, w') => (Changed _ result, w')
    | (Throw error, w') =>
        let w' := set_trace (trace w' ++ [ConsoleError "Delete submission error:"]) w' in
        match error with
        | SubmissionNotFound => (NotFound _, w')
        | _ => (ChangeFailed _, w')
        end
    end.

End WithRuntime.
Arguments Changed {A} _.
Arguments NotFound {A}.
Arguments ChangeFailed {A}.
End SubmissionController.

(** ** utils/helpers.js: input helpers *)

Module InputHelpers.

(** A string as the sequence of its UTF-16 code units; what
    [sanitizeInput] is given is a string or some other value. *)
Inductive input : Type :=
  | InString (units : list N)
  | InOther (v : value).

(** The code units that [trim] strips: white space and line terminators. *)
Definition isWhiteSpace (c : N) : bool :=
  existsb (N.eqb c)
    [9; 10; 11; 12; 13; 32; 160; 5760; 8232; 8233; 8239; 8287; 12288; 65279]%N
  || ((8192 <=? c)%N && (c <=? 8202)%N).

Fixpoint trimStart (s : list N) : list N :=
  match s with
  | [] => []
  | c :: r => if isWhiteSpace c then trimStart r else s
  end.

(** [s.trim()]. *)
Definition trim (s : list N) : list N :=
  reverse (trimStart (reverse (trimStart s))).

(** [<] or [>]. *)
Definition isAngle (c : N) : bool := (c =? 60)%N || (c =? 62)%N.

(** [sanitizeInput(input)]. *)
Definition sanitizeInput (given : input) : input :=
  match given with
  | InOther v => InOther v
  | InString s =>
      InString (take 1000 (filter (fun c => isAngle c = false) (trim s)))
  end.

Definition isDigit (c : N) : bool := (48 <=? c)%N && (c <=? 57)%N.

(** [isValidMobile(mobile)] on a string: [/^[6-9]\d{9}$/]. *)
Definition isValidMobile (mobile : list N) : bool :=
  match mobile with
  | c :: rest =>
      (54 <=? c)%N && (c <=? 57)%N && (length rest =? 9)%nat && forallb isDigit rest
  | [] => false
  end.

(** What [getClientIp] reads of a request: the [x-forwarded-for] header,
    [req.connection?.remoteAddress] and [req.socket?.remoteAddress]. *)
Record ipSource := {
  forwardedFor : option string;
  connectionAddress : option string;
  socketAddress : option string
}.

(** [s.split(',')[0]]. *)
Fixpoint firstSegment (s : string) : string :=
  match s with
  | EmptyString => EmptyString
  | String c r => if Ascii.eqb c "," then EmptyString else String c (firstSegment r)
  end.

(** [a || b] where [a] is a string or [undefined]. *)
Definition orElse (a : option string) (b : string) : string :=
  match a with
  | Some s => if String.eqb s EmptyString then b else s
  | None => b
  end.

(** [getClientIp(req)]. *)
Definition getClientIp (req : ipSource) : string :=
  orElse (option_map firstSegment (forwardedFor req))
    (orElse (connectionAddress req)
       (orElse (socketAddress req) "unknown")).

(** The relative index of [slice]: a negative index counts from the end,
    and the result stays within the array. *)
Definition sliceIndex (len i : Z) : Z :=
  if i <? 0 then Z.max (len + i) 0 else Z.min i len.

(** [items.slice(start, end)]. *)
Definition slice {A} (items : list A) (start stop : Z) : list A :=
  let len := Z.of_nat (length items) in
  let from := sliceIndex len start in
  let to := sliceIndex len stop in
  take (Z.to_nat (to - from)) (drop (Z.to_nat from) items).

(** [Math.ceil(a / b)] for integers; none when [b] is zero and the
    quotient is no finite number. *)
Definition ceilDiv (a b : Z) : option Z :=
  if b =? 0 then None else Some (- ((- a) / b)).

Record pagination := {
  pg_total : Z;
  pg_page : Z;
  pg_limit : Z;
  pg_pages : option Z;
  pg_hasNext : bool;
  pg_hasPrev : bool
}.

Record paginated (A : Type) := { pg_data : list A; pg_pagination : pagination }.
Arguments pg_data {A} _.
Arguments pg_pagination {A} _.

(** [paginate(items, page, limit)] for integer [page] and [limit]. *)
Definition paginate {A} (items : list A) (page limit : Z) : paginated A :=
  let startIndex := (page - 1) * limit in
  let endIndex := startIndex + limit in
  let paginatedItems := slice items startIndex endIndex in
  {| pg_data := paginatedItems;
     pg_pagination :=
       {| pg_total := Z.of_nat (length items);
          pg_page := page;
          pg_limit := limit;
          pg_pages := ceilDiv (Z.of_nat (length items)) limit;
          pg_hasNext := endIndex <? Z.of_nat (length items);
          pg_hasPrev := 1 <? page |} |}.

End InputHelpers.

(** ** Runs of several calls *)

Section Runs.
Context `{JSRuntime}.

(** One call of [addSubmission]: the clock and the random bytes it reads,
    and its argument. *)
Record addCall := { ac_now : Z; ac_rnd : Helpers.rand4; ac_data : jsobject }.

(** The calls run one after the other; the ids of those that resolved. *)
Fixpoint addSubmissions (calls : list addCall) (w : world) : list string * world :=
  match calls with
  | [] => ([], w)
  | c :: rest =>
      match ExcelService.addSubmission (ac_now c) (ac_rnd c) (ac_data c) w with
      | (Ok r, w') =>
          let '(ids, w'') := addSubmissions rest w' in
          (ExcelService.newId r :: ids, w'')
      | (Throw _, w') => addSubmissions rest w'
      end
  end.

(** One request to [createSubmission] with the clock and random bytes
    read while it is served. *)
Record createCall := {
  cc_now : Z; cc_rnd : Helpers.rand4; cc_req : SubmissionController.request
}.

(** The requests served strictly one after the other: each is answered
    before the next is taken up. Requests that arrive while another is
    awaited are not served this way; see [createSubmissionsOverlapped]. *)
Fixpoint createSubmissions (calls : list createCall) (w : world) : world :=
  match calls with
  | [] => w
  | c :: rest =>
      createSubmissions rest
        (SubmissionController.createSubmission (cc_now c) (cc_rnd c) (cc_req c) w).2
  end.

(** Two requests in flight at once: the second is taken up while the
    first awaits the check of its booking date, so that both checks are
    over before either request goes on to its backup and its write; then
    the first runs to its answer, and the second after it. *)
Definition createSubmissionsOverlapped (c1 c2 : createCall) (w : world)
    : SubmissionController.response * SubmissionController.response * world :=
  let '(checked1, w) :=
    SubmissionController.createSubmission_begin (cc_now c1) (cc_req c1) w in
  let '(checked2, w) :=
    SubmissionController.createSubmission_begin (cc_now c2) (cc_req c2) w in
  let '(res1, w) :=
    match checked1 with
    | Some res => (res, w)
    | None => SubmissionController.createSubmission_finish
                (cc_now c1) (cc_rnd c1) (cc_req c1) w
    end in
  let '(res2, w) :=
    match checked2 with
    | Some res => (res, w)
    | None => SubmissionController.createSubmission_finish
                (cc_now c2) (cc_rnd c2) (cc_req c2) w
    end in
  (res1, res2, w).

End Runs.

(** The format of an id: [VRT-], the decimal time value, a dash and eight
    upper-case hexadecimal digits. *)
Definition wellFormedId (id : string) : Prop :=
  exists (ms : Z) (hex : string),
    id = "VRT-" +:+ Helpers.showInt ms +:+ "-" +:+ hex /\
    String.length hex = 8%nat /\
    Helpers.string_forall Helpers.isUpperHex hex = true.

(** ** What the specification counts *)

Section Capacity.
Context `{JSRuntime}.

(** A live record counts for day [d]: it has a booking date, its status
    is not [archived], and the date falls on the UTC calendar day [d]. *)
Definition countsOn (d : Z) (row : Row.t) : bool :=
  truthy (Row.bookingDate row) &&
  negb (strict_eq_str (Row.status row) "archived") &&
  match newDate (Row.bookingDate row) with
  | Some t => utcDay t =? d
  | None => false
  end.

Definition bookingsOn (d : Z) (rows : list Row.t) : nat :=
  length (filter (fun row => countsOn d row = true) rows).

(** The records of the live store; none while there is no store file. *)
Definition liveRows (w : world) : list Row.t :=
  match storeFile w with
  | Some wb => submissions wb
  | None => []
  end.

(** No day holds more bookings than [maxBookingsPerDay]. *)
Definition withinCapacity (w : world) : Prop :=
  forall d : Z, (bookingsOn d (liveRows w) <= ExcelConfig.maxBookingsPerDay)%nat.

End Capacity.

(** Every live row that counts towards a day carries a valid date, so
    that counting the bookings of a day never throws. *)
Definition datesValid `{JSRuntime} (rows : list Row.t) : Prop :=
  Forall (fun row => truthy (Row.bookingDate row) = true ->
                     is_Some (newDate (Row.bookingDate row))) rows.

(** ** What the specification says of an update *)

Section Updates.
Context `{JSRuntime}.

(** The fields [updateSubmission] may overwrite, each with its cell. *)
Definition updatableFields : list (string * nat) :=
  [("status", 9); ("bookingDate", 3); ("name", 4); ("upiNumber", 5);
   ("whatsappNumber", 6); ("ayambilShalaName", 7); ("city", 8)]%nat.

(** What is stored for a supplied value: a booking date goes through
    [new Date], every other field is stored as it is. *)
Definition writtenValue (k : string) (v : value) : value :=
  if String.eqb k "bookingDate" then VDate (newDate v) else v.

(** The row with the id asked for. *)
Definition matchesId (id : string) (row : Row.t) : bool :=
  strict_eq_str (Row.getCell row 1) id.

(** A row after [updateSubmission id updates]. *)
Definition updateRow (id : string) (updates : jsobject) (row : Row.t) : Row.t :=
  if matchesId id row then ExcelService.applyUpdates updates row else row.

(** [row'] is [row] after a partial update by [updates] aimed at [id]:
    a row with another id is the same row; id, submission date and IP
    address stay; a field that [updates] does not supply stays; in a row
    with that id, an updatable field supplied with a truthy value holds
    that value. *)
Definition partialUpdateOf (id : string) (updates : jsobject) (row row' : Row.t) : Prop :=
  (matchesId id row = false -> row' = row) /\
  Row.id row' = Row.id row /\
  Row.submissionDate row' = Row.submissionDate row /\
  Row.ipAddress row' = Row.ipAddress row /\
  (forall k n, (k, n) ∈ ExcelConfig.columns -> updates !! k = None ->
     Row.getCell row' n = Row.getCell row n) /\
  (matchesId id row = true ->
   forall k n, (k, n) ∈ updatableFields -> truthy (prop updates k) = true ->
     Row.getCell row' n = writtenValue k (prop updates k)).

(** [row'] is [row] after an update that skipped every falsy value: a
    field supplied with a falsy value keeps its cell, and a cell that
    differs from before holds a truthy value. *)
Definition falsyIgnored (updates : jsobject) (row row' : Row.t) : Prop :=
  (forall k n, (k, n) ∈ ExcelConfig.columns -> truthy (prop updates k) = false ->
     Row.getCell row' n = Row.getCell row n) /\
  (forall n, Row.getCell row' n <> Row.getCell row n ->
     truthy (Row.getCell row' n) = true).

End Updates.

(** ** What the specification says of the backup directory *)

(** The backup files of a directory, as [cleanOldBackups] selects them. *)
Definition backupNames (dir : gmap string backupFile) : list string :=
  filter (fun f => BackupService.isBackupName f = true) (map_to_list dir).*1.

Definition backupCount (dir : gmap string backupFile) : nat :=
  length (backupNames dir).

(** [createBackup] called once per clock reading, one call after the other. *)
Fixpoint createBackups (clock : list Z) (w : world) : world :=
  match clock with
  | [] => w
  | now :: rest => createBackups rest (BackupService.createBackup now w).2
  end.

(** ** What the specification says of archival *)

Section Archival.
Context `{JSRuntime}.

(** The date [dateOf row] is strictly before the cutoff. *)
Definition before (cutoff : Z) (dateOf : Row.t -> value) (row : Row.t) : bool :=
  ExcelService.dateLt (newDate (dateOf row)) (Some cutoff).

(** The archival partition as the specification words it, for the date
    column [dateOf]: after [archiveOldRecords(m)] every record in the
    archive file it wrote is dated strictly before the cutoff, no live
    record is, and every record dated on or after the cutoff, or not
    dated, is still live. *)
Definition archivalPartition (dateOf : Row.t -> value) (now m : Z) (w : world) : Prop :=
  let cutoff := subtractMonths now m in
  let out := MonitorService.archiveOldRecords now m w in
  (forall res name rows row,
     out.1 = Ok res ->
     MonitorService.archivePath res = Some (path_join ExcelConfig.archiveDir name) ->
     archives out.2 !! name = Some rows -> row ∈ rows ->
     before cutoff dateOf row = true) /\
  (forall row, row ∈ liveRows out.2 -> before cutoff dateOf row = false) /\
  (forall row, row ∈ liveRows w -> before cutoff dateOf row = false ->
     row ∈ liveRows out.2).

End Archival.

(** ** What the specification says of the lock *)

(** An operation that never acquires the advisory lock: whatever the
    world, the events it adds hold no [LockAcquired]. *)
Definition neverLocks {A} (m : M A) : Prop :=
  forall w, exists evs, trace (m w).2 = trace w ++ evs /\ LockAcquired ∉ evs.

(** An operation that reads the store file under the lock: with the lock
    free and the file in place it acquires the lock, reads, and releases. *)
Definition readsUnderLock {A} (m : M A) : Prop :=
  forall w wb, lockBusy w = false -> storeFile w = Some wb ->
    trace (m w).2 = trace w ++ [LockAcquired; StoreRead; LockReleased].

(** An operation that, the store file in place, gives up, having done
    nothing, while another process holds the lock. *)
Definition waitsForLock {A} (m : M A) : Prop :=
  forall w wb, storeFile w = Some wb -> lockBusy w = true ->
    m w = (Throw LockedError, w).

(** An operation that, the store file missing, rejects with [ENOENT]
    having taken no lock and done nothing. *)
Definition failsWithoutStore {A} (m : M A) : Prop :=
  forall w, storeFile w = None -> m w = (Throw (ENOENT storePath), w).

(** ** Notions used in the proofs *)

(** [m] never changes the part of the world that [f] reads. *)
Definition preserves {A X} (f : world -> X) (m : M A) : Prop :=
  forall w, f (m w).2 = f w.

(** [f] does not read the trace. *)
Definition traceBlind {X} (f : world -> X) : Prop :=
  forall t w, f (set_trace t w) = f w.

(** [f] does not read the backup directory. *)
Definition backupsBlind {X} (f : world -> X) : Prop :=
  forall b w, f (set_backups b w) = f w.

(** The comparator [(a, b) => a.key - b.key] and the order it sorts into. *)
Definition byKey {A} (key : A -> Z) (a b : A) : option Z := Some (key a - key b).
Definition keyLe {A} (key : A -> Z) (a b : A) : Prop := key a <= key b.

(** The entry of [filesWithStats] for a file of the directory. *)
Definition statOf (dir : gmap string backupFile) (f : string)
    : BackupService.fileWithStats :=
  {| BackupService.fname := f; BackupService.fpath := path_join ExcelConfig.backupDir f;
     BackupService.fmtime := match dir !! f with Some b => mtime b | None => 0 end |}.

(** The directory without the files named. *)
Definition withoutFiles (names : list string) (dir : gmap string backupFile)
    : gmap string backupFile :=
  foldl (fun d f => delete f d) dir names.

(** The files [cleanOldBackups] picks for deletion in a directory that
    holds more than [maxBackups] backups. *)
Definition filesToDelete (dir : gmap string backupFile)
    : list BackupService.fileWithStats :=
  let sorted := jsSort (byKey BackupService.fmtime) (statOf dir <$> backupNames dir) in
  take (length sorted - ExcelConfig.maxBackups) sorted.

(** The row that a request adds to the store once it is let through. *)
Definition createdRow `{JSRuntime} (now : Z) (rnd : Helpers.rand4)
    (req : SubmissionController.request) : Row.t :=
  ExcelService.rowOfValues (ExcelService.submissionData (Helpers.generateSubmissionId now rnd) now
                 (<["ipAddress" := VStr (SubmissionController.clientIp req)]>
                    (SubmissionController.body req))).

(** ** Notions used in the further properties *)

Section FurtherNotions.
Context `{JSRuntime}.

(** The time a row was submitted, zero when cell 2 holds no valid date. *)
Definition submittedAt (row : Row.t) : Z :=
  default 0 (newDate (Row.submissionDate row)).

(** A cell that [searchSubmissions] can test: a string or an empty cell. *)
Definition textOrEmpty (v : value) : Prop :=
  match v with
  | VStr _ | VNull | VUndefined => True
  | _ => False
  end.

(** A row all of whose searched cells are strings or empty. *)
Definition searchable (row : Row.t) : Prop :=
  textOrEmpty (Row.name row) /\ textOrEmpty (Row.upiNumber row) /\
  textOrEmpty (Row.whatsappNumber row) /\ textOrEmpty (Row.ayambilShalaName row) /\
  textOrEmpty (Row.city row) /\ textOrEmpty (Row.id row).

(** A row whose status is one of the three the application knows. *)
Definition knownStatus (row : Row.t) : Prop :=
  Row.status row = VStr "pending" \/ Row.status row = VStr "reviewed" \/
  Row.status row = VStr "archived".

(** The local calendar day of a time value, as its number. *)
Definition localDay (t : Z) : Z := (t + tzOffset) / msPerDay.

(** A live record counts for day [d] in a range: it counts for [d] and
    its booking date lies between [s] and [e], both included. *)
Definition countsWithin (s e d : Z) (row : Row.t) : bool :=
  countsOn d row &&
  match newDate (Row.bookingDate row) with
  | Some t => (s <=? t) && (t <=? e)
  | None => false
  end.

Definition bookingsWithin (s e d : Z) (rows : list Row.t) : nat :=
  length (filter (fun row => countsWithin s e d row = true) rows).

(** A row that [getBookingCountForDate] cannot count: it is live and has a
    booking date that is no date. *)
Definition unreadableBooking (row : Row.t) : Prop :=
  truthy (Row.bookingDate row) = true /\
  strict_eq_str (Row.status row) "archived" = false /\
  newDate (Row.bookingDate row) = None.

(** The entry of [listBackups] for a file of the directory. *)
Definition infoOf (dir : gmap string backupFile) (f : string) : BackupService.backupInfo :=
  {| BackupService.bname := f;
     BackupService.bpath := path_join ExcelConfig.backupDir f;
     BackupService.created := match dir !! f with Some b => mtime b | None => 0 end |}.

(** Some call that [cleanOldBackups] makes fails: [readdir]; or, with more
    than [maxBackups] backup files in the directory, [stat] on one of
    them or [unlink] on one of the files picked for deletion. *)
Definition pruningFails (w : world) : Prop :=
  readdirFails (faults w) = true \/
  ((ExcelConfig.maxBackups < backupCount (backups w))%nat /\
   (Exists (fun f => f ∈ statFails (faults w)) (backupNames (backups w)) \/
    Exists (fun f => BackupService.fname f ∈ unlinkFails (faults w))
      (filesToDelete (backups w)))).

(** Some call that [listBackups] makes fails: [readdir], or [stat] on one
    of the backup files. *)
Definition listingFails (w : world) : Prop :=
  readdirFails (faults w) = true \/
  Exists (fun f => f ∈ statFails (faults w)) (backupNames (backups w)).

(** A time value from which local midnight of its day and each of the
    ninety days that [getNextAvailableDate] may try are still time values
    a [Date] can hold: at least a day after the earliest and ninety days
    before the latest. *)
Definition calendarRange (t : Z) : Prop :=
  - maxTime + msPerDay <= t /\ t + 90 * msPerDay <= maxTime.

(** Every backup file of the directory was last written before [now]. *)
Definition backupsOlderThan (now : Z) (dir : gmap string backupFile) : Prop :=
  forall name f, dir !! name = Some f -> BackupService.isBackupName name = true ->
                 mtime f < now.

(** The Summary sheet, when the store has one, counts the data rows. *)
Definition summaryCounts (w : world) : Prop :=
  match storeFile w with
  | Some wb =>
      match summary wb with
      | Some sh => total sh = Z.of_nat (length (submissions wb))
      | None => True
      end
  | None => True
  end.

(** A string that [sanitizeInput] has nothing to do to: no white space at
    either end, no angle bracket, at most 1000 code units. *)
Definition tidy (s : list N) : Prop :=
  (forall c, head s = Some c -> InputHelpers.isWhiteSpace c = false) /\
  (forall c, last s = Some c -> InputHelpers.isWhiteSpace c = false) /\
  Forall (fun c => InputHelpers.isAngle c = false) s /\
  (length s <= 1000)%nat.

(** Pages 1 to [n] of [paginate], one after the other. *)
Definition firstPages {A} (items : list A) (limit : Z) (n : nat) : list A :=
  flat_map (fun p => InputHelpers.pg_data (InputHelpers.paginate items (Z.of_nat p) limit))
    (seq 1 n).

End FurtherNotions.

(** ** Sample inputs *)

(** A server whose local time is [tz] milliseconds ahead of UTC, that
    reads the one date text [2030-01-15] (midnight UTC of that day, day
    21929 since the epoch) and takes months of thirty days. *)
Definition sampleRuntime (tz : Z) : JSRuntime :=
  {| tzOffset := tz;
     Date_parse := fun s =>
       if String.eqb s "2030-01-15" then Some 1894665600000 else None;
     subtractMonths := fun t m => t - m * 30 * msPerDay |}.
(** A server on UTC, and one on India Standard Time (UTC+5:30). *)
Definition utcRuntime : JSRuntime := sampleRuntime 0.
Definition istRuntime : JSRuntime := sampleRuntime 19800000.

Definition noFaults : fsFaults :=
  {| readdirFails := false; statFails := ∅; unlinkFails := ∅ |}.

(** The store right after [initializeFile]: a header, no data row, a
    Summary sheet counting zero. *)
Definition freshWorkbook : workbook :=
  {| submissions := []; summary := Some {| total := 0; lastUpdated := 0 |} |}.

Definition freshWorld : world :=
  {| storeFile := Some freshWorkbook; backups := ∅; archives := ∅;
     lockBusy := false; faults := noFaults; trace := [] |}.

Definition sampleRnd : Helpers.rand4 :=
  Helpers.Rand4 Byte.x3a Byte.x0f Byte.xc4 Byte.x91.

(** A request to book 15 January 2030, served on 14 November 2023. *)
Definition sampleRequest : SubmissionController.request :=
  {| SubmissionController.body :=
       {[ "bookingDate" := VStr "2030-01-15"; "name" := VStr "Asha";
          "upiNumber" := VStr "9876543210"; "whatsappNumber" := VStr "9876543210";
          "ayambilShalaName" := VStr "Shala"; "city" := VStr "Surat" ]};
     SubmissionController.clientIp := "203.0.113.7" |}.

Definition sampleCreate (n : Z) : createCall :=
  {| cc_now := 1700000000000 + n; cc_rnd := sampleRnd; cc_req := sampleRequest |}.

(** A store with two submissions. *)
Definition sampleRow (id city : string) (submitted : Z) (booked : Z) : Row.t :=
  Row.mk (VStr id) (VDate (Some submitted)) (VDate (Some booked)) (VStr "Asha")
    (VStr "9876543210") (VStr "9876543210") (VStr "Shala") (VStr city)
    (VStr "pending") (VStr "203.0.113.7").

Definition sampleBook : workbook :=
  {| submissions :=
       [sampleRow "VRT-1650000000000-0000AAAA" "Surat" 1650000000000 1894665600000;
        sampleRow "VRT-1699000000000-0000BBBB" "Rajkot" 1699000000000 1700006400000];
     summary := Some {| total := 2; lastUpdated := 1699000000000 |} |}.

Definition sampleStore : world :=
  {| storeFile := Some sampleBook; backups := ∅; archives := ∅;
     lockBusy := false; faults := noFaults; trace := [] |}.

(** A backup directory with one backup for each of [n] successive
    seconds from 14 November 2023, 22:13:20 UTC on. *)
Definition sampleBackups (n : nat) : gmap string backupFile :=
  list_to_map
    ((fun i : nat =>
        let t := 1700000000000 + Z.of_nat i * 1000 in
        (BackupService.backupFileName t, {| mtime := t; content := freshWorkbook |}))
     <$> seq 0 n).

(** A directory two files over the cap, on a host without failures. *)
Definition crowdedWorld : world :=
  {| storeFile := Some freshWorkbook; backups := sampleBackups 32; archives := ∅;
     lockBusy := false; faults := noFaults; trace := [] |}.

(** A directory at the cap whose oldest backup cannot be deleted. *)
Definition stuckWorld : world :=
  {| storeFile := Some freshWorkbook; backups := sampleBackups 30; archives := ∅;
     lockBusy := false;
     faults := {| readdirFails := false; statFails := ∅;
                  unlinkFails := {[ BackupService.backupFileName 1700000000000 ]} |};
     trace := [] |}.

(** A store one of whose three rows has a booking date that reads as no
    date. *)
Definition unreadableRow : Row.t :=
  Row.mk (VStr "VRT-1699000000001-0000CCCC") (VDate (Some 1699000000001))
    (VStr "soon") (VStr "Asha") (VStr "9876543210") (VStr "9876543210")
    (VStr "Shala") (VStr "Surat") (VStr "pending") (VStr "203.0.113.7").

Definition brokenBook : workbook :=
  {| submissions := submissions sampleBook ++ [unreadableRow];
     summary := Some {| total := 3; lastUpdated := 1699000000001 |} |}.

Definition brokenStore : world :=
  {| storeFile := Some brokenBook; backups := ∅; archives := ∅;
     lockBusy := false; faults := noFaults; trace := [] |}.

(** A store whose one row has a number in its name cell. *)
Definition numberNameRow : Row.t :=
  Row.mk (VStr "VRT-1699000000002-0000DDDD") (VDate (Some 1699000000002))
    VNull (VNum 42) (VStr "9876543210") (VStr "9876543210")
    (VStr "Shala") (VStr "Surat") (VStr "pending") (VStr "203.0.113.7").

Definition numberNameStore : world :=
  {| storeFile := Some {| submissions := [numberNameRow];
                          summary := Some {| total := 1; lastUpdated := 1699000000002 |} |};
     backups := ∅; archives := ∅;
     lockBusy := false; faults := noFaults; trace := [] |}.

(** A store of two submissions with three backups of an empty store. *)
Definition restorableWorld : world :=
  {| storeFile := Some sampleBook; backups := sampleBackups 3; archives := ∅;
     lockBusy := false; faults := noFaults; trace := [] |}.

(** Three backups, the status of the second of which cannot be read. *)
Definition unreadableDirectory : world :=
  {| storeFile := Some freshWorkbook; backups := sampleBackups 3; archives := ∅;
     lockBusy := false;
     faults := {| readdirFails := false;
                  statFails := {[ BackupService.backupFileName 1700000001000 ]};
                  unlinkFails := ∅ |};
     trace := [] |}.

(** A store in which two rows carry the same id, with other rows between
    and after them, and whose Summary sheet counts zero. *)
Definition duplicateBook : workbook :=
  {| submissions :=
       [sampleRow "VRT-DUP" "Surat" 1650000000000 1894665600000;
        sampleRow "VRT-1699000000000-0000BBBB" "Rajkot" 1699000000000 1700006400000;
        sampleRow "VRT-DUP" "Bhuj" 1699000000005 1700006400000;
        sampleRow "VRT-1699000000009-0000EEEE" "Vapi" 1699000000009 1700006400000];
     summary := Some {| total := 0; lastUpdated := 1699000000009 |} |}.

Definition duplicateStore : world :=
  {| storeFile := Some duplicateBook; backups := ∅; archives := ∅;
     lockBusy := false; faults := noFaults; trace := [] |}.

(** A directory at the cap on a host without failures, beside a store of
    two submissions. *)
Definition fullWorld : world :=
  {| storeFile := Some sampleBook; backups := sampleBackups 30; archives := ∅;
     lockBusy := false; faults := noFaults; trace := [] |}.

(** A store that holds two bookings for 15 January 2030, one short of
    the cap. *)
Definition nearlyFullWorld : world :=
  @createSubmissions utcRuntime [sampleCreate 0; sampleCreate 1] freshWorld.

(** * Properties *)

(** ** Submission ids *)

Section IdFacts.
Import Helpers.

Lemma append_length (a b : string) :
  String.length (a +:+ b) = (String.length a + String.length b)%nat.
Proof. induction a as [|c a IH]; simpl; [reflexivity | now rewrite IH]. Qed.

Lemma append_inj_length (a a' b b' : string) :
  String.length a = String.length a' ->
  a +:+ b = a' +:+ b' -> a = a' /\ b = b'.
Proof.
  revert a'. induction a as [|c a IH]; intros [|c' a'] Hlen Heq;
    simpl in *; try discriminate.
  - now split.
  - injection Heq as -> Heq. injection Hlen as Hlen.
    destruct (IH _ Hlen Heq) as [-> ->]. now split.
Qed.

Lemma string_map_append f (a b : string) :
  string_map f (a +:+ b) = string_map f a +:+ string_map f b.
Proof. induction a as [|c a IH]; simpl; [reflexivity | now rewrite IH]. Qed.

Lemma string_map_length f (a : string) :
  String.length (string_map f a) = String.length a.
Proof. induction a as [|c a IH]; simpl; [reflexivity | now rewrite IH]. Qed.

Lemma decodeByte_hexByte (b : Byte.byte) :
  match toUpperCase (hexByte b) with
  | String hi (String lo EmptyString) => decodeByte hi lo = Some b
  | _ => False
  end.
Proof. destruct b; vm_compute; reflexivity. Qed.

Lemma hexByte_upper_inj (b b' : Byte.byte) :
  toUpperCase (hexByte b) = toUpperCase (hexByte b') -> b = b'.
Proof.
  intros E. pose proof (decodeByte_hexByte b) as H.
  pose proof (decodeByte_hexByte b') as H'. rewrite E in H.
  destruct (toUpperCase (hexByte b')) as [|hi [|lo [|]]]; try contradiction.
  congruence.
Qed.

Lemma hexByte_upper_length (b : Byte.byte) :
  String.length (toUpperCase (hexByte b)) = 2%nat.
Proof. reflexivity. Qed.

Lemma string_forall_append p (a b : string) :
  string_forall p (a +:+ b) = string_forall p a && string_forall p b.
Proof.
  induction a as [|c a IH]; simpl; [reflexivity|].
  now rewrite IH, andb_assoc.
Qed.

Lemma hexByte_upper_digits (b : Byte.byte) :
  string_forall isUpperHex (toUpperCase (hexByte b)) = true.
Proof. destruct b; reflexivity. Qed.

Lemma randomPart_eq (rnd : rand4) :
  randomPart rnd =
  toUpperCase (hexByte (r0 rnd)) +:+ toUpperCase (hexByte (r1 rnd)) +:+
  toUpperCase (hexByte (r2 rnd)) +:+ toUpperCase (hexByte (r3 rnd)).
Proof. reflexivity. Qed.

Lemma randomPart_length (rnd : rand4) : String.length (randomPart rnd) = 8%nat.
Proof. reflexivity. Qed.

Lemma randomPart_digits (rnd : rand4) :
  string_forall isUpperHex (randomPart rnd) = true.
Proof.
  rewrite randomPart_eq, !string_forall_append, !hexByte_upper_digits.
  reflexivity.
Qed.

Lemma randomPart_inj (r r' : rand4) : randomPart r = randomPart r' -> r = r'.
Proof.
  rewrite !randomPart_eq. intros E.
  apply append_inj_length in E as [E0 E]; [|reflexivity].
  apply append_inj_length in E as [E1 E]; [|reflexivity].
  apply append_inj_length in E as [E2 E3]; [|reflexivity].
  apply hexByte_upper_inj in E0, E1, E2, E3.
  destruct r, r'; simpl in *; congruence.
Qed.

Lemma showInt_inj (n m : Z) : showInt n = showInt m -> n = m.
Proof.
  unfold showInt. intros E. apply DecimalZ.to_int_inj.
  assert (Hn : forall z, Z.to_int z <> Decimal.Pos Decimal.Nil /\
                         Z.to_int z <> Decimal.Neg Decimal.Nil).
  { intros [|p|p]; simpl; split; try discriminate;
      intros [= Hp]; now apply DecimalPos.Unsigned.to_uint_nonnil in Hp. }
  assert (Some (Z.to_int n) = Some (Z.to_int m)) as [= ->]; [|reflexivity].
  rewrite <- (NilZero.isi (Z.to_int n)), <- (NilZero.isi (Z.to_int m));
    try apply Hn. now rewrite E.
Qed.

Lemma generateSubmissionId_shape (now : Z) (rnd : rand4) :
  generateSubmissionId now rnd = "VRT-" +:+ showInt now +:+ "-" +:+ randomPart rnd.
Proof. reflexivity. Qed.

Lemma generateSubmissionId_inj now rnd now' rnd' :
  generateSubmissionId now rnd = generateSubmissionId now' rnd' ->
  now = now' /\ rnd = rnd'.
Proof.
  rewrite !generateSubmissionId_shape. intros E.
  apply append_inj_length in E as [_ E]; [|reflexivity].
  assert (L : String.length (showInt now) = String.length (showInt now')).
  { apply (f_equal String.length) in E.
    rewrite !append_length, !randomPart_length in E. simpl in E. lia. }
  apply append_inj_length in E as [E1 E]; [|exact L].
  apply append_inj_length in E as [_ E]; [|reflexivity].
  split; [now apply showInt_inj | now apply randomPart_inj].
Qed.

End IdFacts.

(** ** Running the operations *)

Ltac unfold_js :=
  unfold withFileLock, readFile, writeFile, emit, modify, gets, bind, ret,
    throw, tryCatch, liftR in *.

Section AddFacts.
Context `{JSRuntime}.
Import ExcelService.

Lemma addSubmission_newId now rnd data w r w' :
  addSubmission now rnd data w = (Ok r, w') ->
  newId r = Helpers.generateSubmissionId now rnd.
Proof.
  unfold addSubmission. unfold_js.
  destruct (storeFile w) eqn:Hs; [|discriminate].
  destruct (lockBusy w); [discriminate|]. simpl. rewrite Hs. simpl.
  now intros [= <- _].
Qed.

Lemma addSubmissions_ids calls w :
  (addSubmissions calls w).1 `sublist_of`
  (fun c => Helpers.generateSubmissionId (ac_now c) (ac_rnd c)) <$> calls.
Proof.
  revert w. induction calls as [|c rest IH]; intros w; simpl; [constructor|].
  destruct (addSubmission _ _ _ w) as [[r|e] w'] eqn:E.
  - apply addSubmission_newId in E. specialize (IH w').
    destruct (addSubmissions rest w') as [ids w'']. simpl in *.
    rewrite E. now constructor.
  - now constructor.
Qed.

End AddFacts.

Section IdClaims.
Context `{JSRuntime}.

Lemma generateSubmissionId_wellFormed now rnd :
  wellFormedId (Helpers.generateSubmissionId now rnd).
Proof.
  exists now, (Helpers.randomPart rnd). split; [reflexivity|].
  split; [apply randomPart_length | apply randomPart_digits].
Qed.

(** C2 (as amended). The ids returned by a sequence of [addSubmission]
    calls have the format [VRT-<unix-ms>-<8 upper-case hex digits>], and
    they are pairwise distinct whenever no two calls read both the same
    millisecond and the same four random bytes. *)
Theorem addSubmission_ids_distinct_when_draws_differ (calls : list addCall) (w : world) :
  NoDup ((fun c => (ac_now c, ac_rnd c)) <$> calls) ->
  NoDup (addSubmissions calls w).1 /\
  Forall wellFormedId (addSubmissions calls w).1.
Proof.
  intros Hnd.
  pose proof (addSubmissions_ids calls w) as Hsub.
  split.
  - eapply sublist_NoDup; [|exact Hsub].
    change (NoDup (((fun p : Z * Helpers.rand4 => Helpers.generateSubmissionId p.1 p.2)
                    ∘ (fun c => (ac_now c, ac_rnd c))) <$> calls)).
    rewrite list_fmap_compose.
    apply NoDup_fmap_2_strong; [|exact Hnd].
    intros [n r] [n' r'] _ _ E. simpl in E.
    apply generateSubmissionId_inj in E as [-> ->]. reflexivity.
  - apply Forall_forall. intros id Hin.
    apply (sublist_subseteq _ _ Hsub), list_elem_of_fmap in Hin as [c [-> _]].
    apply generateSubmissionId_wellFormed.
Qed.

End IdClaims.

(** C2 as stated fails: two calls that read the same millisecond and draw
    the same random bytes return the same id. *)
Lemma addSubmission_ids_can_repeat :
  let c := {| ac_now := 1700000000000; ac_rnd := sampleRnd; ac_data := ∅ |} in
  ~ NoDup (@addSubmissions utcRuntime [c; c] freshWorld).1.
Proof.
  intros c Hnd.
  assert (E : (@addSubmissions utcRuntime [c; c] freshWorld).1 =
              ["VRT-1700000000000-3A0FC491"; "VRT-1700000000000-3A0FC491"])
    by (vm_compute; reflexivity).
  rewrite E in Hnd. apply NoDup_cons in Hnd as [Hnotin _].
  apply Hnotin. left.
Qed.

Lemma addSubmission_ids_distinct_witness :
  let c1 := {| ac_now := 1700000000000; ac_rnd := sampleRnd; ac_data := ∅ |} in
  let c2 := {| ac_now := 1700000000001; ac_rnd := sampleRnd; ac_data := ∅ |} in
  NoDup (@addSubmissions utcRuntime [c1; c2] freshWorld).1 /\
  Forall wellFormedId (@addSubmissions utcRuntime [c1; c2] freshWorld).1.
Proof.
  intros c1 c2.
  apply (@addSubmission_ids_distinct_when_draws_differ utcRuntime [c1; c2] freshWorld).
  apply NoDup_cons. split.
  - intros Hin. apply list_elem_of_In in Hin. simpl in Hin.
    destruct Hin as [Heq | []]. discriminate Heq.
  - apply NoDup_cons. split; [apply not_elem_of_nil | apply NoDup_nil; exact I].
Defined.

(** ** What an operation leaves alone *)

Lemma traceBlind_storeFile : traceBlind storeFile.
Proof. intros t w. reflexivity. Qed.
Lemma traceBlind_archives : traceBlind archives.
Proof. intros t w. reflexivity. Qed.
Lemma traceBlind_backups : traceBlind backups.
Proof. intros t w. reflexivity. Qed.
Lemma traceBlind_lockBusy : traceBlind lockBusy.
Proof. intros t w. reflexivity. Qed.
Lemma traceBlind_faults : traceBlind faults.
Proof. intros t w. reflexivity. Qed.
Lemma backupsBlind_storeFile : backupsBlind storeFile.
Proof. intros b w. reflexivity. Qed.
Lemma backupsBlind_archives : backupsBlind archives.
Proof. intros b w. reflexivity. Qed.
Lemma backupsBlind_lockBusy : backupsBlind lockBusy.
Proof. intros b w. reflexivity. Qed.
Lemma backupsBlind_faults : backupsBlind faults.
Proof. intros b w. reflexivity. Qed.

Create HintDb frame.
#[local] Hint Resolve traceBlind_storeFile traceBlind_archives traceBlind_backups
  traceBlind_lockBusy traceBlind_faults backupsBlind_storeFile
  backupsBlind_archives backupsBlind_lockBusy backupsBlind_faults : frame.

Section Frame.
Context {X : Type} (f : world -> X).

Lemma preserves_ret {A} (a : A) : preserves f (ret a).
Proof. intros w. reflexivity. Qed.

Lemma preserves_throw {A} e : preserves f (@throw A e).
Proof. intros w. reflexivity. Qed.

Lemma preserves_liftR {A} (r : result A) : preserves f (liftR r).
Proof. intros w. reflexivity. Qed.

Lemma preserves_gets {A} (g : world -> A) : preserves f (gets g).
Proof. intros w. reflexivity. Qed.

Lemma preserves_bind {A B} (m : M A) (k : A -> M B) :
  preserves f m -> (forall a, preserves f (k a)) -> preserves f (bind m k).
Proof.
  intros Hm Hk w. unfold bind. specialize (Hm w).
  destruct (m w) as [[a|e] w1]; simpl in *; [|exact Hm].
  rewrite Hk. exact Hm.
Qed.

Lemma preserves_tryCatch {A} (m : M A) (h : error -> M A) :
  preserves f m -> (forall e, preserves f (h e)) -> preserves f (tryCatch m h).
Proof.
  intros Hm Hh w. unfold tryCatch. specialize (Hm w).
  destruct (m w) as [[a|e] w1]; simpl in *; [exact Hm|].
  rewrite Hh. exact Hm.
Qed.

Lemma preserves_emit e : traceBlind f -> preserves f (emit e).
Proof. intros Hf w. apply Hf. Qed.

Lemma preserves_readFile : traceBlind f -> preserves f readFile.
Proof.
  intros Hf. unfold readFile. apply preserves_bind; [apply preserves_gets|].
  intros [wb|]; [|apply preserves_throw].
  apply preserves_bind; [now apply preserves_emit|]. intros _. apply preserves_ret.
Qed.

Lemma preserves_withFileLock {A} (operation : M A) :
  traceBlind f -> preserves f operation -> preserves f (withFileLock operation).
Proof.
  intros Hf Hop w. unfold withFileLock.
  destruct (storeFile w); [|reflexivity].
  destruct (lockBusy w); [reflexivity|].
  pose proof (preserves_bind (emit LockAcquired) (fun _ => operation)
                (preserves_emit _ Hf) (fun _ => Hop) w) as Hb.
  destruct ((emit LockAcquired;; operation) w) as [r w1]. simpl in *.
  rewrite Hf. exact Hb.
Qed.

Lemma preserves_forOf {A} (xs : list A) (body : A -> M unit) :
  (forall x, preserves f (body x)) -> preserves f (forOf xs body).
Proof.
  intros Hb. induction xs as [|x r IH]; simpl; [apply preserves_ret|].
  apply preserves_bind; [apply Hb | intros _; exact IH].
Qed.

End Frame.

#[local] Hint Resolve preserves_ret preserves_throw preserves_liftR preserves_gets
  preserves_emit preserves_readFile preserves_withFileLock : frame.

(** Splits the goal along the binds, handlers and branches of an operation. *)
Ltac frame_step :=
  first
    [ apply preserves_bind; [|intros ?]
    | apply preserves_tryCatch; [|intros ?]
    | match goal with
      | |- preserves _ (match ?x with _ => _ end) => destruct x
      end
    | solve [auto with frame] ].
Ltac frame := repeat frame_step.

Section ReadSide.
Context `{JSRuntime} {X : Type} (f : world -> X) (Hf : traceBlind f).
Import ExcelService.

Lemma preserves_getBookingCountForDate date : preserves f (getBookingCountForDate date).
Proof. unfold getBookingCountForDate. frame. Qed.

Lemma preserves_isDateAvailable date : preserves f (isDateAvailable date).
Proof.
  unfold isDateAvailable. apply preserves_bind.
  - apply preserves_getBookingCountForDate.
  - intros c. apply preserves_ret.
Qed.

Lemma preserves_searchFrom start i n : preserves f (searchFrom start i n).
Proof.
  revert i. induction n as [|n IH]; intros i; simpl; [apply preserves_ret|].
  apply preserves_bind; [apply preserves_isDateAvailable|]. intros a.
  destruct (available a); [frame | apply IH].
Qed.

Lemma preserves_getNextAvailableDate d n : preserves f (getNextAvailableDate d n).
Proof. apply preserves_searchFrom. Qed.

Lemma preserves_validateBookingDate now d : preserves f (validateBookingDate now d).
Proof.
  unfold validateBookingDate. destruct (dateLt _ _); [apply preserves_ret|].
  apply preserves_bind; [apply preserves_isDateAvailable|]. intros a.
  destruct (negb (available a)); [|apply preserves_ret].
  apply preserves_bind; [apply preserves_getNextAvailableDate|].
  intros nd. apply preserves_ret.
Qed.

Lemma preserves_getAllSubmissions filters : preserves f (getAllSubmissions filters).
Proof.
  unfold getAllSubmissions. apply preserves_withFileLock; [exact Hf|]. frame.
Qed.

End ReadSide.

Section BackupFrame.
Context {X : Type} (f : world -> X) (Hf : traceBlind f) (Hb : backupsBlind f).
Import BackupService.

Lemma preserves_readdir : preserves f readdir.
Proof. intros w. unfold readdir. destruct (readdirFails _); reflexivity. Qed.

Lemma preserves_stat name : preserves f (stat name).
Proof.
  intros w. unfold stat. destruct (decide _); [reflexivity|].
  destruct (backups w !! name); reflexivity.
Qed.

Lemma preserves_statAll names : preserves f (statAll names).
Proof.
  induction names as [|n r IH]; simpl; [apply preserves_ret|].
  apply preserves_bind; [apply preserves_stat|]. intros m.
  apply preserves_bind; [exact IH|]. intros rest. apply preserves_ret.
Qed.

Lemma preserves_unlink file : preserves f (unlink file).
Proof.
  intros w. unfold unlink. destruct (decide _); [reflexivity|].
  destruct (backups w !! fname file); [apply Hb | reflexivity].
Qed.

Lemma preserves_cleanOldBackups : preserves f cleanOldBackups.
Proof.
  unfold cleanOldBackups. apply preserves_tryCatch.
  - apply preserves_bind; [apply preserves_readdir|]. intros files.
    destruct (_ <=? _)%nat; [apply preserves_ret|].
    apply preserves_bind; [apply preserves_statAll|]. intros stats.
    apply preserves_forOf, preserves_unlink.
  - intros e. frame.
Qed.

Lemma preserves_copyToBackup now name : preserves f (copyToBackup now name).
Proof.
  unfold copyToBackup. apply preserves_bind; [apply preserves_gets|].
  intros [wb|]; [|apply preserves_throw]. intros w. apply Hb.
Qed.

Lemma preserves_createBackup now : preserves f (createBackup now).
Proof.
  unfold createBackup. apply preserves_tryCatch; [|intros e; frame].
  apply preserves_bind; [apply preserves_gets|]. intros [wb|]; [|apply preserves_ret].
  apply preserves_bind; [apply preserves_copyToBackup|]. intros _.
  apply preserves_bind; [apply preserves_cleanOldBackups|]. intros _.
  apply preserves_ret.
Qed.

End BackupFrame.

(** ** The booking count and the creation of a submission *)

Lemma bind_Ok_inv {A B} (m : M A) (k : A -> M B) w b w' :
  bind m k w = (Ok b, w') ->
  exists a w1, m w = (Ok a, w1) /\ k a w1 = (Ok b, w').
Proof.
  unfold bind. destruct (m w) as [[a|e] w1]; [|discriminate].
  intros E. exists a, w1. split; [reflexivity | exact E].
Qed.

Section Booking.
Context `{JSRuntime}.
Import ExcelService.

Lemma bookingsOn_cons d row rows :
  bookingsOn d (row :: rows) =
  ((if countsOn d row then 1 else 0) + bookingsOn d rows)%nat.
Proof.
  unfold bookingsOn. rewrite filter_cons.
  destruct (decide (countsOn d row = true)) as [E|E].
  - rewrite E. reflexivity.
  - apply not_true_is_false in E. rewrite E. reflexivity.
Qed.

Lemma bookingsOn_app d rows rows' :
  bookingsOn d (rows ++ rows') = (bookingsOn d rows + bookingsOn d rows')%nat.
Proof. unfold bookingsOn. rewrite filter_app, length_app. reflexivity. Qed.

Lemma countRows_bookingsOn d rows c n :
  countRows d rows c = Ok n -> n = (c + bookingsOn d rows)%nat.
Proof.
  revert c. induction rows as [|row rest IH]; intros c; simpl.
  - intros [= <-]. unfold bookingsOn. simpl. lia.
  - rewrite bookingsOn_cons. unfold countsOn, isoDay.
    change (Row.getCell row 3) with (Row.bookingDate row).
    change (Row.getCell row 9) with (Row.status row).
    destruct (truthy (Row.bookingDate row) &&
              negb (strict_eq_str (Row.status row) "archived")); simpl.
    + destruct (newDate (Row.bookingDate row)) as [t|]; [|discriminate].
      intros E. apply IH in E. destruct (utcDay t =? d); lia.
    + intros E. apply IH in E. lia.
Qed.

Lemma getBookingCountForDate_Ok date w n w' :
  getBookingCountForDate date w = (Ok n, w') ->
  exists t, newDate date = Some t /\ n = bookingsOn (utcDay t) (liveRows w).
Proof.
  unfold getBookingCountForDate, isoDay, liveRows, readFile. unfold_js.
  destruct (newDate date) as [t|]; simpl; [|discriminate].
  destruct (storeFile w) as [wb|]; simpl; [|discriminate].
  destruct (countRows _ _ _) as [c|e] eqn:E; [|discriminate].
  intros [= <- _]. exists t. split; [reflexivity|].
  apply countRows_bookingsOn in E. exact E.
Qed.

Lemma isDateAvailable_Ok date w a w' :
  isDateAvailable date w = (Ok a, w') ->
  exists t, newDate date = Some t /\
            count a = bookingsOn (utcDay t) (liveRows w) /\
            available a = (count a <? ExcelConfig.maxBookingsPerDay)%nat.
Proof.
  unfold isDateAvailable. intros E.
  apply bind_Ok_inv in E as (n & w1 & E & Er).
  apply getBookingCountForDate_Ok in E as (t & Ht & ->).
  injection Er as <- _. exists t. simpl. auto.
Qed.

(** A booking date is accepted only while its day has room. *)
Lemma validateBookingDate_valid now date w v w' :
  validateBookingDate now date w = (Ok v, w') ->
  valid v = true ->
  exists t, newDate date = Some t /\
            (bookingsOn (utcDay t) (liveRows w) < ExcelConfig.maxBookingsPerDay)%nat.
Proof.
  unfold validateBookingDate. destruct (dateLt _ _).
  { intros [= <- _]. discriminate. }
  intros E Hv. apply bind_Ok_inv in E as (a & w1 & Ea & E).
  apply isDateAvailable_Ok in Ea as (t & Ht & Hc & Hav).
  destruct (available a) eqn:Eav; simpl in E.
  - exists t. split; [exact Ht|]. rewrite <- Hc.
    symmetry in Hav. apply Nat.ltb_lt in Hav. exact Hav.
  - apply bind_Ok_inv in E as (nd & w2 & _ & E). injection E as <- _.
    discriminate.
Qed.

(** What [addSubmission] does to the store file. *)
Lemma addSubmission_store now rnd data w :
  match addSubmission now rnd data w with
  | (Ok r, w') =>
      exists wb, storeFile w = Some wb /\
        liveRows w' = submissions wb ++
          [rowOfValues (submissionData (Helpers.generateSubmissionId now rnd) now data)]
  | (Throw _, w') => storeFile w' = storeFile w
  end.
Proof.
  unfold addSubmission, liveRows. unfold_js.
  destruct (storeFile w) as [wb|] eqn:E; [|exact E].
  destruct (lockBusy w); [exact E|]. simpl. rewrite E. simpl.
  exists wb. split; reflexivity.
Qed.

End Booking.

Section CreateSubmission.
Context `{JSRuntime}.
Import ExcelService SubmissionController.

Lemma createSubmission_write now rnd req w :
  match
    (BackupService.createBackup now ;;
     result <- addSubmission now rnd (<["ipAddress" := VStr (clientIp req)]> (body req)) ;;
     ret (Created result)) w
  with
  | (Ok res, w') =>
      exists r wb, res = Created r /\ storeFile w = Some wb /\
        liveRows w' = submissions wb ++ [createdRow now rnd req]
  | (Throw _, w') => storeFile w' = storeFile w
  end.
Proof.
  unfold bind at 1.
  pose proof (preserves_createBackup storeFile traceBlind_storeFile
                backupsBlind_storeFile now w) as Hb.
  destruct (BackupService.createBackup now w) as [[p|e] w1]; simpl in Hb; [|exact Hb].
  unfold bind, ret.
  pose proof (addSubmission_store now rnd
                (<["ipAddress" := VStr (clientIp req)]> (body req)) w1) as Ha.
  destruct (addSubmission _ _ _ w1) as [[r|e] w2].
  - destruct Ha as (wb & Hwb & Hrows). exists r, wb.
    split; [reflexivity|]. split; [congruence | exact Hrows].
  - congruence.
Qed.

(** One request either leaves the store file as it was and is not answered
    with 201, or appends one row; a row with a booking date is appended
    only if the check before it found room on its day. *)
Lemma createSubmission_step now rnd req w :
  let '(res, w') := createSubmission now rnd req w in
  (storeFile w' = storeFile w /\ forall r, res <> Created r) \/
  (exists r wb, res = Created r /\ storeFile w = Some wb /\
     liveRows w' = submissions wb ++ [createdRow now rnd req] /\
     (truthy (prop (body req) "bookingDate") = true ->
      exists t, newDate (prop (body req) "bookingDate") = Some t /\
        (bookingsOn (utcDay t) (submissions wb) < ExcelConfig.maxBookingsPerDay)%nat)).
Proof.
  unfold createSubmission.
  pose proof (createSubmission_write now rnd req) as Hw.
  set (rest := (BackupService.createBackup now ;; _)) in *.
  destruct (truthy (prop (body req) "bookingDate")) eqn:Etr.
  - unfold bind at 1. unfold bind at 1.
    pose proof (preserves_validateBookingDate storeFile traceBlind_storeFile
                  now (prop (body req) "bookingDate") w) as Hv.
    destruct (validateBookingDate _ _ w) as [[v|e] w1] eqn:Ev; simpl in Hv.
    + destruct (valid v) eqn:Evalid; simpl.
      * specialize (Hw w1). destruct (rest w1) as [[res|e] w2].
        -- right. destruct Hw as (r & wb & -> & Hwb & Hrows).
           exists r, wb. split; [reflexivity|]. split; [congruence|].
           split; [exact Hrows|]. intros _.
           apply validateBookingDate_valid in Ev as (t & Ht & Hlt); [|exact Evalid].
           exists t. split; [exact Ht|].
           unfold liveRows in Hlt. rewrite <- Hv, Hwb in Hlt. exact Hlt.
        -- left. simpl. split; [congruence | discriminate].
      * left. split; [exact Hv | discriminate].
    + left. simpl. split; [exact Hv | discriminate].
  - unfold bind at 1. simpl. specialize (Hw w).
    destruct (rest w) as [[res|e] w2].
    + right. destruct Hw as (r & wb & -> & Hwb & Hrows).
      exists r, wb. split; [reflexivity|]. split; [exact Hwb|].
      split; [exact Hrows | discriminate].
    + left. simpl. split; [exact Hw | discriminate].
Qed.

Lemma createdRow_countsOn now rnd req d :
  countsOn d (createdRow now rnd req) = true ->
  truthy (prop (body req) "bookingDate") = true /\
  exists t, newDate (prop (body req) "bookingDate") = Some t /\ utcDay t = d.
Proof.
  unfold countsOn, createdRow, rowOfValues, submissionData. simpl.
  assert (E : prop (<["ipAddress" := VStr (clientIp req)]> (body req)) "bookingDate"
              = prop (body req) "bookingDate").
  { unfold prop. rewrite lookup_insert_ne; [reflexivity | discriminate]. }
  rewrite E. destruct (truthy (prop (body req) "bookingDate")); simpl.
  - destruct (newDate (prop (body req) "bookingDate")) as [t|]; simpl.
    + intros Hd. split; [reflexivity|]. exists t. split; [reflexivity|].
      apply Z.eqb_eq. exact Hd.
    + discriminate.
  - discriminate.
Qed.

Lemma createSubmission_withinCapacity now rnd req w :
  withinCapacity w -> withinCapacity (createSubmission now rnd req w).2.
Proof.
  intros Hcap. pose proof (createSubmission_step now rnd req w) as Hs.
  destruct (createSubmission now rnd req w) as [res w']. simpl.
  destruct Hs as [[Hst _] | (r & wb & _ & Hwb & Hrows & Hroom)].
  - intros d. unfold liveRows. rewrite Hst. apply Hcap.
  - intros d. rewrite Hrows, bookingsOn_app, bookingsOn_cons.
    specialize (Hcap d). unfold liveRows in Hcap. rewrite Hwb in Hcap.
    destruct (countsOn d (createdRow now rnd req)) eqn:Ec.
    + apply createdRow_countsOn in Ec as (Htr & t & Ht & <-).
      destruct (Hroom Htr) as (t' & Ht' & Hlt).
      assert (t' = t) as -> by congruence.
      unfold bookingsOn at 2. simpl. lia.
    + unfold bookingsOn at 2. simpl. lia.
Qed.

Lemma createSubmissions_withinCapacity calls w :
  withinCapacity w -> withinCapacity (createSubmissions calls w).
Proof.
  revert w. induction calls as [|c rest IH]; intros w Hcap; simpl; [exact Hcap|].
  apply IH, createSubmission_withinCapacity, Hcap.
Qed.

(** A request for a day that is already full is turned away and the store
    file stays as it is. *)
Lemma createSubmission_full now rnd req w t :
  truthy (prop (body req) "bookingDate") = true ->
  newDate (prop (body req) "bookingDate") = Some t ->
  (ExcelConfig.maxBookingsPerDay <= bookingsOn (utcDay t) (liveRows w))%nat ->
  storeFile (createSubmission now rnd req w).2 = storeFile w /\
  forall r, (createSubmission now rnd req w).1 <> Created r.
Proof.
  intros Htr Ht Hfull. pose proof (createSubmission_step now rnd req w) as Hs.
  destruct (createSubmission now rnd req w) as [res w']. simpl.
  destruct Hs as [Hs | (r & wb & _ & Hwb & _ & Hroom)]; [exact Hs|].
  destruct (Hroom Htr) as (t' & Ht' & Hlt).
  assert (t' = t) as -> by congruence.
  unfold liveRows in Hfull. rewrite Hwb in Hfull. lia.
Qed.

End CreateSubmission.

Section CapacityClaim.
Context `{JSRuntime}.
Import SubmissionController.

(** Requests served strictly one after the other keep the cap: starting
    from a store in which no day holds more than [maxBookingsPerDay] live
    non-archived bookings (the freshly initialised store is one), the same
    holds after any such run of [createSubmission]; and a request whose
    booking day already holds [maxBookingsPerDay] such bookings is not
    answered with 201 and leaves the store file as it was. Requests in
    flight together are another matter: see
    [overlapping_requests_exceed_daily_cap]. *)
Theorem daily_cap_never_exceeded (calls : list createCall) (w : world) :
  withinCapacity w ->
  withinCapacity (createSubmissions calls w) /\
  (forall now rnd req t,
     truthy (prop (body req) "bookingDate") = true ->
     newDate (prop (body req) "bookingDate") = Some t ->
     (ExcelConfig.maxBookingsPerDay <= bookingsOn (utcDay t) (liveRows w))%nat ->
     storeFile (createSubmission now rnd req w).2 = storeFile w /\
     forall r, (createSubmission now rnd req w).1 <> Created r).
Proof.
  intros Hcap. split.
  - apply createSubmissions_withinCapacity, Hcap.
  - intros now rnd req t. apply createSubmission_full.
Qed.

End CapacityClaim.

(** Four requests for the same day on a fresh store: three rows are
    stored, the fourth request is turned away. *)
Example four_requests_three_rows :
  length (liveRows (@createSubmissions utcRuntime
            [sampleCreate 0; sampleCreate 1; sampleCreate 2; sampleCreate 3]
            freshWorld)) = 3%nat /\
  @bookingsOn utcRuntime 21929
    (liveRows (@createSubmissions utcRuntime
            [sampleCreate 0; sampleCreate 1; sampleCreate 2; sampleCreate 3]
            freshWorld)) = 3%nat.
Proof. vm_compute. split; reflexivity. Qed.

Lemma daily_cap_witness :
  @withinCapacity utcRuntime freshWorld /\
  @withinCapacity utcRuntime
    (@createSubmissions utcRuntime
       [sampleCreate 0; sampleCreate 1; sampleCreate 2; sampleCreate 3] freshWorld).
Proof.
  assert (H0 : @withinCapacity utcRuntime freshWorld).
  { intros d. unfold bookingsOn, ExcelConfig.maxBookingsPerDay. simpl. lia. }
  split; [exact H0|].
  exact (proj1 (@daily_cap_never_exceeded utcRuntime
                  [sampleCreate 0; sampleCreate 1; sampleCreate 2; sampleCreate 3]
                  freshWorld H0)).
Defined.

(** Two requests whose availability checks both run before either of
    them writes: each check finds room and both rows are stored. *)
Example overlapping_requests_exceed_cap :
  let date := VStr "2030-01-15" in
  let data : jsobject := <["ipAddress" := VStr "203.0.113.7"]>
                           (SubmissionController.body sampleRequest) in
  let w0 := @createSubmissions utcRuntime [sampleCreate 0; sampleCreate 1] freshWorld in
  let check1 := @ExcelService.validateBookingDate utcRuntime 1700000000002 date w0 in
  let check2 := @ExcelService.validateBookingDate utcRuntime 1700000000003 date check1.2 in
  let w1 := (@ExcelService.addSubmission utcRuntime 1700000000002 sampleRnd data
               (BackupService.createBackup 1700000000002 check2.2).2).2 in
  let w2 := (@ExcelService.addSubmission utcRuntime 1700000000003 sampleRnd data
               (BackupService.createBackup 1700000000003 w1).2).2 in
  check1.1 = Ok (ExcelService.Valid 2 1) /\
  check2.1 = Ok (ExcelService.Valid 2 1) /\
  @bookingsOn utcRuntime 21929 (liveRows w2) = 4%nat.
Proof. vm_compute. repeat split; reflexivity. Qed.

(** ** Updates *)

(** Membership, and its absence, in a list written out in full. *)
Ltac list_mem :=
  solve [repeat first [apply list_elem_of_here | apply list_elem_of_further]].
Ltac list_not_mem :=
  let Hx := fresh "Hx" in
  simpl; intros Hx;
  repeat (apply elem_of_cons in Hx as [Hx | Hx]; [discriminate|]);
  now apply elem_of_nil in Hx.

Section UpdateFacts.
Context `{JSRuntime}.
Import ExcelService.

Lemma updateEachRow_rows id updates rows acc :
  (updateEachRow id updates rows acc).1 = updateRow id updates <$> rows.
Proof.
  revert acc. induction rows as [|row rest IH]; intros acc; simpl; [reflexivity|].
  unfold updateRow at 1, matchesId. simpl.
  destruct (strict_eq_str (Row.id row) id).
  - specialize (IH (Some (applyUpdates updates row))).
    destruct (updateEachRow _ _ rest _) as [rest' u]. simpl in *. now rewrite IH.
  - specialize (IH acc).
    destruct (updateEachRow _ _ rest _) as [rest' u]. simpl in *. now rewrite IH.
Qed.

Lemma updateEachRow_found id updates rows acc :
  (updateEachRow id updates rows acc).2 = None <->
  acc = None /\ existsb (matchesId id) rows = false.
Proof.
  revert acc. induction rows as [|row rest IH]; intros acc; simpl.
  - split; [intros ->; now split | now intros [-> _]].
  - unfold matchesId at 1. simpl.
    destruct (strict_eq_str (Row.id row) id); simpl.
    + specialize (IH (Some (applyUpdates updates row))).
      destruct (updateEachRow _ _ rest _) as [rest' u]. simpl in *.
      split; [intros E; apply IH in E as [E _]; discriminate | intros [_ E]; discriminate].
    + specialize (IH acc).
      destruct (updateEachRow _ _ rest _) as [rest' u]. simpl in *. exact IH.
Qed.

(** What [updateSubmission] does when the lock is free and the store file
    is there. *)
Lemma updateSubmission_run id updates w wb :
  lockBusy w = false -> storeFile w = Some wb ->
  if existsb (matchesId id) (submissions wb) then
    exists data w',
      updateSubmission id updates w = (Ok data, w') /\
      storeFile w' = Some {| submissions := updateRow id updates <$> submissions wb;
                             summary := summary wb |}
  else
    exists w', updateSubmission id updates w = (Throw SubmissionNotFound, w') /\
               storeFile w' = storeFile w.
Proof.
  intros Hl Hs. unfold updateSubmission. unfold_js. rewrite Hl. simpl.
  rewrite Hs. simpl.
  pose proof (updateEachRow_rows id updates (submissions wb) None) as Hr.
  pose proof (updateEachRow_found id updates (submissions wb) None) as Hf.
  destruct (updateEachRow id updates (submissions wb) None) as [rows' u]. simpl in *.
  destruct (existsb (matchesId id) (submissions wb)).
  - destruct u as [data|].
    + eexists data, _. split; [reflexivity|]. simpl. now rewrite Hr.
    + destruct Hf as [Hf _]. specialize (Hf eq_refl) as [_ Hf]. discriminate.
  - destruct u as [data|].
    + destruct Hf as [_ Hf]. specialize (Hf (conj eq_refl eq_refl)). discriminate.
    + eexists. split; [reflexivity|]. simpl. exact Hs.
Qed.

(** Cell by cell, what the guarded assignments leave in a matching row. *)
Lemma applyUpdates_cell updates row n :
  Row.getCell (applyUpdates updates row) n =
  match n with
  | 9 => if truthy (prop updates "status")
         then prop updates "status" else Row.getCell row 9
  | 3 => if truthy (prop updates "bookingDate")
         then VDate (newDate (prop updates "bookingDate")) else Row.getCell row 3
  | 4 => if truthy (prop updates "name")
         then prop updates "name" else Row.getCell row 4
  | 5 => if truthy (prop updates "upiNumber")
         then prop updates "upiNumber" else Row.getCell row 5
  | 6 => if truthy (prop updates "whatsappNumber")
         then prop updates "whatsappNumber" else Row.getCell row 6
  | 7 => if truthy (prop updates "ayambilShalaName")
         then prop updates "ayambilShalaName" else Row.getCell row 7
  | 8 => if truthy (prop updates "city")
         then prop updates "city" else Row.getCell row 8
  | _ => Row.getCell row n
  end%nat.
Proof.
  unfold applyUpdates.
  destruct (truthy (prop updates "status"));
  destruct (truthy (prop updates "bookingDate"));
  destruct (truthy (prop updates "name"));
  destruct (truthy (prop updates "upiNumber"));
  destruct (truthy (prop updates "whatsappNumber"));
  destruct (truthy (prop updates "ayambilShalaName"));
  destruct (truthy (prop updates "city"));
  do 11 (destruct n as [|n]; [reflexivity|]); reflexivity.
Qed.

(** An updatable field takes the supplied value when that value is truthy
    and keeps its own otherwise. *)
Lemma applyUpdates_updatable updates row k n :
  (k, n) ∈ updatableFields ->
  Row.getCell (applyUpdates updates row) n =
  if truthy (prop updates k) then writtenValue k (prop updates k)
  else Row.getCell row n.
Proof.
  intros Hin. rewrite applyUpdates_cell.
  unfold updatableFields in Hin.
  repeat (apply elem_of_cons in Hin as [[= -> ->] | Hin]; [reflexivity|]).
  now apply elem_of_nil in Hin.
Qed.

(** A column that is not an updatable field keeps its cell. *)
Lemma applyUpdates_other updates row n :
  n ∉ updatableFields.*2 ->
  Row.getCell (applyUpdates updates row) n = Row.getCell row n.
Proof.
  intros Hn. rewrite applyUpdates_cell.
  do 11 (destruct n as [|n];
         [first [reflexivity | exfalso; apply Hn; simpl; list_mem]|]).
  reflexivity.
Qed.

(** Every column is either an updatable field under its own name or is
    never written. *)
Lemma columns_updatable k n :
  (k, n) ∈ ExcelConfig.columns ->
  (k, n) ∈ updatableFields \/ n ∉ updatableFields.*2.
Proof.
  unfold ExcelConfig.columns, updatableFields. intros Hin.
  repeat (apply elem_of_cons in Hin as [[= -> ->] | Hin];
          [first [left; list_mem | right; list_not_mem]|]).
  now apply elem_of_nil in Hin.
Qed.

(** A field whose supplied value is falsy, or that is not supplied, keeps
    its cell. *)
Lemma applyUpdates_falsy updates row k n :
  (k, n) ∈ ExcelConfig.columns ->
  truthy (prop updates k) = false ->
  Row.getCell (applyUpdates updates row) n = Row.getCell row n.
Proof.
  intros Hin Hf. destruct (columns_updatable k n Hin) as [Hu | Hu].
  - rewrite (applyUpdates_updatable _ _ k n Hu), Hf. reflexivity.
  - now apply applyUpdates_other.
Qed.

(** A cell that changed holds a truthy value. *)
Lemma applyUpdates_changed_truthy updates row n :
  Row.getCell (applyUpdates updates row) n <> Row.getCell row n ->
  truthy (Row.getCell (applyUpdates updates row) n) = true.
Proof.
  rewrite applyUpdates_cell.
  do 11 (destruct n as [|n];
         [first [ now intros [] |
                  match goal with
                  | |- context [truthy ?x] => destruct (truthy x) eqn:E
                  end; [intros _; first [exact E | reflexivity] | now intros []] ]|]).
  now intros [].
Qed.

End UpdateFacts.

Section UpdateClaims.
Context `{JSRuntime}.
Import ExcelService.

Lemma updateRow_partial id updates row :
  partialUpdateOf id updates row (updateRow id updates row).
Proof.
  unfold partialUpdateOf, updateRow.
  destruct (matchesId id row) eqn:Em.
  - split; [discriminate|].
    split; [exact (applyUpdates_other updates row 1 ltac:(list_not_mem))|].
    split; [exact (applyUpdates_other updates row 2 ltac:(list_not_mem))|].
    split; [exact (applyUpdates_other updates row 10 ltac:(list_not_mem))|].
    split.
    + intros k n Hin Hk. apply (applyUpdates_falsy updates row k n Hin).
      unfold prop. rewrite Hk. reflexivity.
    + intros _ k n Hin Ht. rewrite (applyUpdates_updatable updates row k n Hin), Ht.
      reflexivity.
  - repeat split; try reflexivity. discriminate.
Qed.

Lemma updateRow_falsy id updates row :
  falsyIgnored updates row (updateRow id updates row).
Proof.
  unfold falsyIgnored, updateRow. destruct (matchesId id row).
  - split; [intros k n; apply applyUpdates_falsy | apply applyUpdates_changed_truthy].
  - split; [reflexivity | now intros n []].
Qed.

(** C3. With the lock free and the store file in place,
    [updateSubmission id updates] on an id that some row carries rewrites
    the file so that each row is a partial update of what it was: rows
    with another id, and in every row the id, the submission date, the IP
    address and each field not supplied, are as before, and supplied
    truthy values are stored; the Summary sheet is as before. On an id
    that no row carries it rejects with 'Submission not found' and the
    store file is as before. *)
Theorem updateSubmission_partial_update id (updates : jsobject) w wb :
  lockBusy w = false -> storeFile w = Some wb ->
  (existsb (matchesId id) (submissions wb) = true ->
   exists data w' wb',
     updateSubmission id updates w = (Ok data, w') /\
     storeFile w' = Some wb' /\ summary wb' = summary wb /\
     Forall2 (partialUpdateOf id updates) (submissions wb) (submissions wb')) /\
  (existsb (matchesId id) (submissions wb) = false ->
   exists w', updateSubmission id updates w = (Throw SubmissionNotFound, w') /\
              storeFile w' = storeFile w).
Proof.
  intros Hl Hs. pose proof (updateSubmission_run id updates w wb Hl Hs) as Hrun.
  split; intros Hex; rewrite Hex in Hrun.
  - destruct Hrun as (data & w' & Hrun & Hst).
    eexists data, w', _. split; [exact Hrun|]. split; [exact Hst|].
    split; [reflexivity|]. simpl.
    apply Forall2_fmap_r, Forall_Forall2_diag, Forall_forall.
    intros row _. apply updateRow_partial.
  - exact Hrun.
Qed.

(** C9. With the lock free and the store file in place,
    [updateSubmission] on an id that some row carries skips every supplied
    field whose value is falsy (the empty string, [null], [0], [false],
    [undefined]): that cell keeps its value, and every cell that did
    change holds a truthy value, so no cell is ever cleared. *)
Theorem updateSubmission_ignores_falsy id (updates : jsobject) w wb :
  lockBusy w = false -> storeFile w = Some wb ->
  existsb (matchesId id) (submissions wb) = true ->
  exists data w' wb',
    updateSubmission id updates w = (Ok data, w') /\
    storeFile w' = Some wb' /\
    Forall2 (falsyIgnored updates) (submissions wb) (submissions wb').
Proof.
  intros Hl Hs Hex. pose proof (updateSubmission_run id updates w wb Hl Hs) as Hrun.
  rewrite Hex in Hrun. destruct Hrun as (data & w' & Hrun & Hst).
  eexists data, w', _. split; [exact Hrun|]. split; [exact Hst|]. simpl.
  apply Forall2_fmap_r, Forall_Forall2_diag, Forall_forall.
  intros row _. apply updateRow_falsy.
Qed.

End UpdateClaims.

Lemma updateSubmission_partial_update_witness :
  let id := "VRT-1699000000000-0000BBBB" in
  let updates : jsobject := {[ "city" := VStr "Vadodara" ]} in
  lockBusy sampleStore = false /\ storeFile sampleStore = Some sampleBook /\
  existsb (matchesId id) (submissions sampleBook) = true /\
  exists data w' wb',
    @ExcelService.updateSubmission utcRuntime id updates sampleStore = (Ok data, w') /\
    storeFile w' = Some wb' /\ summary wb' = summary sampleBook /\
    Forall2 (@partialUpdateOf utcRuntime id updates)
      (submissions sampleBook) (submissions wb').
Proof.
  intros id updates.
  split; [reflexivity|]. split; [reflexivity|]. split; [reflexivity|].
  exact (proj1 (@updateSubmission_partial_update utcRuntime id updates
                  sampleStore sampleBook eq_refl eq_refl) eq_refl).
Defined.

Lemma updateSubmission_ignores_falsy_witness :
  let id := "VRT-1699000000000-0000BBBB" in
  let updates : jsobject := {[ "city" := VStr EmptyString; "name" := VNull ]} in
  lockBusy sampleStore = false /\ storeFile sampleStore = Some sampleBook /\
  existsb (matchesId id) (submissions sampleBook) = true /\
  exists data w' wb',
    @ExcelService.updateSubmission utcRuntime id updates sampleStore = (Ok data, w') /\
    storeFile w' = Some wb' /\
    Forall2 (falsyIgnored updates) (submissions sampleBook) (submissions wb').
Proof.
  intros id updates.
  split; [reflexivity|]. split; [reflexivity|]. split; [reflexivity|].
  exact (@updateSubmission_ignores_falsy utcRuntime id updates
           sampleStore sampleBook eq_refl eq_refl eq_refl).
Defined.

(** Clearing a city with an empty string changes nothing; a new city is
    stored and the other row stays. *)
Example update_city_examples :
  (@ExcelService.updateSubmission utcRuntime "VRT-1699000000000-0000BBBB"
     {[ "city" := VStr EmptyString ]} sampleStore).1 =
    Ok (sampleRow "VRT-1699000000000-0000BBBB" "Rajkot" 1699000000000 1700006400000) /\
  liveRows (@ExcelService.updateSubmission utcRuntime "VRT-1699000000000-0000BBBB"
     {[ "city" := VStr "Vadodara" ]} sampleStore).2 =
    [sampleRow "VRT-1650000000000-0000AAAA" "Surat" 1650000000000 1894665600000;
     sampleRow "VRT-1699000000000-0000BBBB" "Vadodara" 1699000000000 1700006400000].
Proof. vm_compute. split; reflexivity. Qed.

(** ** Sorting *)

Section SortFacts.
Context {A : Type} (cmp : A -> A -> option Z).

Lemma sortInsert_Permutation x l : sortInsert cmp x l ≡ₚ x :: l.
Proof.
  induction l as [|y r IH]; simpl; [reflexivity|].
  destruct (cmp x y) as [d|]; [|reflexivity].
  destruct (0 <? d); [|reflexivity].
  rewrite IH. apply Permutation_swap.
Qed.

Lemma jsSort_Permutation l : jsSort cmp l ≡ₚ l.
Proof.
  unfold jsSort. induction l as [|x r IH]; simpl; [reflexivity|].
  rewrite sortInsert_Permutation, IH. reflexivity.
Qed.

Lemma jsSort_length l : length (jsSort cmp l) = length l.
Proof. apply Permutation_length, jsSort_Permutation. Qed.

End SortFacts.

Section SortByKey.
Context {A : Type} (key : A -> Z).

Lemma sortInsert_sorted x l :
  StronglySorted (keyLe key) l -> StronglySorted (keyLe key) (sortInsert (byKey key) x l).
Proof.
  induction 1 as [|y r Hr IH Hy]; simpl.
  - repeat constructor.
  - destruct (0 <? key x - key y) eqn:E.
    + apply Z.ltb_lt in E. constructor; [exact IH|].
      rewrite sortInsert_Permutation. constructor; [unfold keyLe; lia | exact Hy].
    + apply Z.ltb_ge in E. constructor; [now constructor|].
      constructor; [unfold keyLe; lia|].
      eapply Forall_impl; [exact Hy|]. unfold keyLe. intros z Hz. simpl in Hz. lia.
Qed.

Lemma jsSort_sorted l : StronglySorted (keyLe key) (jsSort (byKey key) l).
Proof.
  unfold jsSort. induction l as [|x r IH]; simpl; [constructor|].
  now apply sortInsert_sorted.
Qed.

(** In a sorted array nothing of the first [k] items is above anything
    of the rest. *)
Lemma sorted_take_drop l k x y :
  StronglySorted (keyLe key) l -> x ∈ take k l -> y ∈ drop k l -> key x <= key y.
Proof.
  intros Hs Hx Hy. rewrite <- (take_drop k l) in Hs.
  exact (StronglySorted_app_1_elem_of _ _ _ _ _ Hs Hx Hy).
Qed.

End SortByKey.

(** ** The backup directory *)

Section BackupFacts.
Import BackupService.

Lemma elem_of_dirNames (dir : gmap string backupFile) x :
  x ∈ (map_to_list dir).*1 <-> is_Some (dir !! x).
Proof.
  rewrite list_elem_of_fmap. split.
  - intros [[k v] [-> Hin]]. apply elem_of_map_to_list in Hin. simpl. eauto.
  - intros [v Hv]. exists (x, v). split; [reflexivity|].
    now apply elem_of_map_to_list.
Qed.

Lemma elem_of_backupNames (dir : gmap string backupFile) x :
  x ∈ backupNames dir <-> isBackupName x = true /\ is_Some (dir !! x).
Proof. unfold backupNames. rewrite list_elem_of_filter, elem_of_dirNames. reflexivity. Qed.

Lemma NoDup_backupNames (dir : gmap string backupFile) : NoDup (backupNames dir).
Proof. apply NoDup_filter, NoDup_fst_map_to_list. Qed.

Lemma statAll_ok names w :
  statFails (faults w) = ∅ ->
  (forall f, f ∈ names -> is_Some (backups w !! f)) ->
  statAll names w = (Ok (statOf (backups w) <$> names), w).
Proof.
  intros Hf. induction names as [|f r IH]; intros Hin; simpl; [reflexivity|].
  unfold bind, stat. rewrite Hf.
  destruct (decide (f ∈ (∅ : gset string))) as [Hemp|_]; [now apply not_elem_of_empty in Hemp|].
  destruct (Hin f) as [b Hb]; [left|].
  rewrite Hb, IH; [|intros g Hg; apply Hin; now right].
  unfold ret, statOf. rewrite Hb. reflexivity.
Qed.

Lemma lookup_withoutFiles names (dir : gmap string backupFile) x :
  withoutFiles names dir !! x = if decide (x ∈ names) then None else dir !! x.
Proof.
  unfold withoutFiles. revert dir.
  induction names as [|f r IH]; intros dir; simpl.
  - destruct (decide (x ∈ [])) as [Hin|_]; [now apply elem_of_nil in Hin | reflexivity].
  - rewrite IH. destruct (decide (x ∈ r)) as [Hr|Hr].
    + destruct (decide (x ∈ f :: r)) as [_|Hn]; [reflexivity|].
      exfalso. apply Hn. now right.
    + destruct (decide (x = f)) as [->|Hne].
      * rewrite lookup_delete_eq.
        destruct (decide (f ∈ f :: r)) as [_|Hn]; [reflexivity|].
        exfalso. apply Hn. left.
      * rewrite lookup_delete_ne by congruence.
        destruct (decide (x ∈ f :: r)) as [Hin|_]; [|reflexivity].
        apply elem_of_cons in Hin as [?|?]; contradiction.
Qed.

Lemma forOf_unlink_ok files w :
  unlinkFails (faults w) = ∅ ->
  NoDup (fname <$> files) ->
  (forall f, f ∈ files -> is_Some (backups w !! fname f)) ->
  forOf files unlink w =
  (Ok tt, set_backups (withoutFiles (fname <$> files) (backups w)) w).
Proof.
  intros Hf. revert w Hf.
  induction files as [|f r IH]; intros w Hf Hnd Hin; simpl.
  - destruct w; reflexivity.
  - unfold bind, unlink at 1. rewrite Hf.
    destruct (decide (fname f ∈ (∅ : gset string))) as [Hemp|_];
      [now apply not_elem_of_empty in Hemp|].
    destruct (Hin f) as [b Hb]; [left|]. rewrite Hb.
    apply NoDup_cons in Hnd as [Hnotin Hnd].
    rewrite IH; [reflexivity | exact Hf | exact Hnd |].
    intros g Hg. simpl. rewrite lookup_delete_ne.
    + apply Hin. now right.
    + intros E. apply Hnotin. rewrite E. apply list_elem_of_fmap. eauto.
Qed.

End BackupFacts.

Section Retention.
Import BackupService.

Lemma fname_statOf dir (names : list string) :
  fname <$> (statOf dir <$> names) = names.
Proof.
  induction names as [|n r IH]; csimpl; [reflexivity|].
  now rewrite IH.
Qed.

Lemma sorted_names dir :
  fname <$> jsSort (byKey fmtime) (statOf dir <$> backupNames dir) ≡ₚ backupNames dir.
Proof. rewrite jsSort_Permutation, fname_statOf. reflexivity. Qed.

Lemma filesToDelete_names_sub dir x :
  x ∈ fname <$> filesToDelete dir -> x ∈ backupNames dir.
Proof.
  intros Hx. rewrite <- sorted_names.
  eapply sublist_subseteq; [|exact Hx].
  unfold filesToDelete. apply fmap_sublist, sublist_take.
Qed.

Lemma filesToDelete_NoDup dir : NoDup (fname <$> filesToDelete dir).
Proof.
  eapply sublist_NoDup; [|apply fmap_sublist, sublist_take].
  rewrite sorted_names. apply NoDup_backupNames.
Qed.

Lemma filesToDelete_length dir :
  length (filesToDelete dir) = (backupCount dir - ExcelConfig.maxBackups)%nat.
Proof.
  unfold filesToDelete. rewrite length_take, jsSort_length, length_fmap.
  unfold backupCount. lia.
Qed.

Lemma cleanOldBackups_run w :
  faults w = noFaults ->
  cleanOldBackups w =
  if (backupCount (backups w) <=? ExcelConfig.maxBackups)%nat then (Ok tt, w)
  else (Ok tt, set_backups
                 (withoutFiles (fname <$> filesToDelete (backups w)) (backups w)) w).
Proof.
  intros Hf. unfold cleanOldBackups, tryCatch. unfold bind at 1. unfold readdir.
  rewrite Hf. simpl readdirFails. cbv iota.
  change (filter _ (map_to_list (backups w)).*1) with (backupNames (backups w)).
  fold (backupCount (backups w)).
  destruct (backupCount (backups w) <=? ExcelConfig.maxBackups)%nat; [reflexivity|].
  unfold bind. rewrite statAll_ok.
  - fold (filesToDelete (backups w)). rewrite forOf_unlink_ok; [reflexivity | | |].
    + now rewrite Hf.
    + apply filesToDelete_NoDup.
    + intros f Hin.
      assert (Hn : fname f ∈ backupNames (backups w)).
      { apply filesToDelete_names_sub, list_elem_of_fmap. eauto. }
      apply elem_of_backupNames in Hn as [_ Hn]. exact Hn.
  - now rewrite Hf.
  - intros f Hin. apply elem_of_backupNames in Hin as [_ Hin]. exact Hin.
Qed.

Lemma backupCount_withoutFiles names dir :
  NoDup names -> (forall x, x ∈ names -> x ∈ backupNames dir) ->
  (backupCount (withoutFiles names dir) + length names)%nat = backupCount dir.
Proof.
  intros Hnd Hsub. unfold backupCount.
  rewrite <- length_app. apply Permutation_length, NoDup_Permutation.
  - apply NoDup_app. split; [apply NoDup_backupNames|]. split; [|exact Hnd].
    intros x Hx Hx'. apply elem_of_backupNames in Hx as [_ [b Hb]].
    rewrite lookup_withoutFiles in Hb.
    destruct (decide (x ∈ names)); [discriminate | contradiction].
  - apply NoDup_backupNames.
  - intros x. rewrite elem_of_app, !elem_of_backupNames, lookup_withoutFiles.
    destruct (decide (x ∈ names)) as [Hin|Hin].
    + split.
      * intros [[_ [b Hb]] | _]; [discriminate|].
        apply elem_of_backupNames. now apply Hsub.
      * intros _. now right.
    + split; [intros [Hx | Hx]; [exact Hx | contradiction] | intros Hx; now left].
Qed.

End Retention.

Section BackupClaims.
Import BackupService.

(** [cleanOldBackups] resolves whatever happens inside it, and what it
    caught it wrote to the console. *)
Lemma cleanOldBackups_resolves w :
  exists w', cleanOldBackups w = (Ok tt, w') /\
    (trace w' = trace w \/
     trace w' = trace w ++ [ConsoleError "Error cleaning old backups:"]).
Proof.
  unfold cleanOldBackups, tryCatch.
  match goal with |- context [?body w] => set (m := body) end.
  assert (Hm : preserves trace m).
  { subst m. apply preserves_bind; [apply preserves_readdir|]. intros files.
    destruct (_ <=? _)%nat; [apply preserves_ret|].
    apply preserves_bind; [apply preserves_statAll|]. intros stats.
    apply preserves_forOf. intros f. apply preserves_unlink. intros b w0. reflexivity. }
  specialize (Hm w). destruct (m w) as [[[]|e] w1]; simpl in Hm.
  - exists w1. split; [reflexivity|]. now left.
  - eexists. split; [reflexivity|]. right. simpl. now rewrite Hm.
Qed.

(** The store file in place, [createBackup] copies it under the name of
    the current second, prunes, and resolves to the path of the copy. *)
Lemma createBackup_run now w wb :
  storeFile w = Some wb ->
  createBackup now w =
  (Ok (Some (path_join ExcelConfig.backupDir (backupFileName now))),
   (cleanOldBackups
      (set_backups (<[backupFileName now := {| mtime := now; content := wb |}]> (backups w)) w)).2).
Proof.
  intros Hs. unfold createBackup, tryCatch, copyToBackup. unfold_js. rewrite Hs. simpl.
  rewrite Hs. simpl.
  match goal with |- context [cleanOldBackups ?w1] =>
    destruct (cleanOldBackups_resolves w1) as (w' & -> & _) end.
  reflexivity.
Qed.

Lemma cleanOldBackups_count w :
  faults w = noFaults ->
  backupCount (backups (cleanOldBackups w).2) =
  Nat.min ExcelConfig.maxBackups (backupCount (backups w)).
Proof.
  intros Hf. rewrite (cleanOldBackups_run w Hf).
  destruct (backupCount (backups w) <=? ExcelConfig.maxBackups)%nat eqn:E.
  - apply Nat.leb_le in E. cbn [snd]. lia.
  - apply Nat.leb_gt in E. cbn [snd backups set_backups].
    pose proof (backupCount_withoutFiles (fname <$> filesToDelete (backups w)) (backups w)
                  (filesToDelete_NoDup _) (filesToDelete_names_sub _)) as Hc.
    rewrite length_fmap, filesToDelete_length in Hc. lia.
Qed.

Lemma createBackup_count now w wb :
  faults w = noFaults -> storeFile w = Some wb ->
  backupCount (backups (createBackup now w).2) =
  Nat.min ExcelConfig.maxBackups
    (backupCount (<[backupFileName now := {| mtime := now; content := wb |}]> (backups w))).
Proof.
  intros Hf Hs. rewrite (createBackup_run now w wb Hs). cbn [snd].
  rewrite cleanOldBackups_count; [reflexivity | exact Hf].
Qed.

Lemma createBackups_bounded clock w wb :
  faults w = noFaults -> storeFile w = Some wb ->
  (backupCount (backups w) <= ExcelConfig.maxBackups)%nat ->
  (backupCount (backups (createBackups clock w)) <= ExcelConfig.maxBackups)%nat.
Proof.
  revert w. induction clock as [|now rest IH]; intros w Hf Hs Hc; simpl; [exact Hc|].
  apply IH.
  - rewrite <- Hf. apply (preserves_createBackup faults); auto with frame.
  - rewrite <- Hs. apply (preserves_createBackup storeFile); auto with frame.
  - rewrite (createBackup_count now w wb Hf Hs). lia.
Qed.

Lemma cleanOldBackups_subset w name f :
  faults w = noFaults ->
  backups (cleanOldBackups w).2 !! name = Some f -> backups w !! name = Some f.
Proof.
  intros Hf. rewrite (cleanOldBackups_run w Hf).
  destruct (_ <=? _)%nat; cbn [snd backups set_backups]; [trivial|].
  rewrite lookup_withoutFiles. now destruct (decide _).
Qed.

Lemma substring_all (b : string) : String.substring 0 (String.length b) b = b.
Proof. induction b as [|c b IH]; simpl; [reflexivity | now rewrite IH]. Qed.

Lemma endsWith_append (a b : string) : endsWith (a +:+ b) b = true.
Proof.
  unfold endsWith. rewrite append_length.
  replace (String.length b <=? String.length a + String.length b)%nat with true
    by (symmetry; apply Nat.leb_le; lia).
  replace (String.length a + String.length b - String.length b)%nat
    with (String.length a) by lia.
  induction a as [|c a IH]; simpl.
  - rewrite substring_all. apply String.eqb_refl.
  - exact IH.
Qed.

Lemma isBackupName_backupFileName now : isBackupName (backupFileName now) = true.
Proof.
  unfold isBackupName, backupFileName. apply andb_true_intro. split.
  - unfold startsWith. simpl. destruct (timestamp now); reflexivity.
  - change ("submissions_backup_" +:+ timestamp now +:+ ".xlsx")
      with (("submissions_backup_" +:+ timestamp now) +:+ ".xlsx").
    apply endsWith_append.
Qed.

(** Backups taken in different seconds have different names. *)
Lemma backupFileName_inj t t' :
  backupFileName t = backupFileName t' -> t / 1000 = t' / 1000.
Proof.
  unfold backupFileName, timestamp. intros E.
  apply append_inj_length in E as [_ E]; [|reflexivity].
  assert (L : String.length (Helpers.showInt (t / 1000)) =
              String.length (Helpers.showInt (t' / 1000))).
  { apply (f_equal String.length) in E. rewrite !append_length in E. simpl in E. lia. }
  apply append_inj_length in E as [E _]; [|exact L].
  now apply showInt_inj.
Qed.

Lemma backupCount_insert_fresh (dir : gmap string backupFile) name f :
  dir !! name = None -> isBackupName name = true ->
  backupCount (<[name := f]> dir) = S (backupCount dir).
Proof.
  intros Hfresh Hb. unfold backupCount, backupNames.
  rewrite map_to_list_insert by exact Hfresh. cbn [fmap list_fmap fst].
  rewrite filter_cons, decide_True by exact Hb. reflexivity.
Qed.

(** From a directory that holds none of their files, backups taken in
    pairwise different seconds add up until the cap is reached. *)
Lemma createBackups_count clock : forall w wb,
  faults w = noFaults -> storeFile w = Some wb ->
  (backupCount (backups w) <= ExcelConfig.maxBackups)%nat ->
  NoDup ((fun t => t / 1000) <$> clock) ->
  (forall t, t ∈ clock -> backups w !! backupFileName t = None) ->
  backupCount (backups (createBackups clock w)) =
  Nat.min ExcelConfig.maxBackups (backupCount (backups w) + length clock).
Proof.
  induction clock as [|now rest IH]; intros w wb Hf Hs Hle Hnd Hfresh;
    cbn [createBackups length].
  - lia.
  - apply NoDup_cons in Hnd as [Hnotin Hnd].
    assert (Hc1 : backupCount (backups (createBackup now w).2) =
                  Nat.min ExcelConfig.maxBackups (S (backupCount (backups w)))).
    { rewrite (createBackup_count now w wb Hf Hs).
      rewrite backupCount_insert_fresh;
        [reflexivity | apply Hfresh; left | apply isBackupName_backupFileName]. }
    assert (Hf1 : faults (createBackup now w).2 = noFaults).
    { rewrite <- Hf. apply (preserves_createBackup faults); auto with frame. }
    assert (Hs1 : storeFile (createBackup now w).2 = Some wb).
    { rewrite <- Hs. apply (preserves_createBackup storeFile); auto with frame. }
    rewrite (IH _ wb Hf1 Hs1 ltac:(lia) Hnd).
    + rewrite Hc1. lia.
    + intros t Ht.
      destruct (backups (createBackup now w).2 !! backupFileName t) as [f|] eqn:E;
        [|reflexivity].
      exfalso. rewrite (createBackup_run now w wb Hs) in E. cbn [snd] in E.
      apply cleanOldBackups_subset in E; [|exact Hf]. cbn [backups set_backups] in E.
      destruct (decide (backupFileName now = backupFileName t)) as [En|En].
      * apply backupFileName_inj in En. apply Hnotin.
        apply list_elem_of_fmap. exists t. split; [exact En | exact Ht].
      * rewrite lookup_insert_ne in E by exact En.
        rewrite Hfresh in E; [discriminate | now right].
Qed.

End BackupClaims.

(** The two oldest of the 32 sample backups go, the newest are kept. *)
Example crowded_directory_pruned :
  let dir := backups (BackupService.cleanOldBackups crowdedWorld).2 in
  backupCount dir = 30%nat /\
  dir !! BackupService.backupFileName 1700000000000 = None /\
  dir !! BackupService.backupFileName 1700000001000 = None /\
  dir !! BackupService.backupFileName 1700000002000 =
    Some {| mtime := 1700000002000; content := freshWorkbook |} /\
  dir !! BackupService.backupFileName 1700000031000 =
    Some {| mtime := 1700000031000; content := freshWorkbook |}.
Proof. vm_compute. repeat split; reflexivity. Qed.

(** Thirty-two backups taken one second apart in an empty directory:
    thirty remain, the first two are gone. *)
Example thirty_two_backups_thirty_remain :
  let clock := (fun i : nat => 1700000000000 + Z.of_nat i * 1000) <$> seq 0 32 in
  let dir := backups (createBackups clock freshWorld) in
  backupCount dir = 30%nat /\
  dir !! BackupService.backupFileName 1700000000000 = None /\
  dir !! BackupService.backupFileName 1700000001000 = None /\
  dir !! BackupService.backupFileName 1700000002000 =
    Some {| mtime := 1700000002000; content := freshWorkbook |} /\
  dir !! BackupService.backupFileName 1700000031000 =
    Some {| mtime := 1700000031000; content := freshWorkbook |}.
Proof. vm_compute. repeat split; reflexivity. Qed.

Section FaultyHost.
Import BackupService.

Lemma statAll_fails names : forall w,
  Exists (fun f => f ∈ statFails (faults w)) names ->
  (forall f, f ∈ names -> is_Some (backups w !! f)) ->
  exists e, statAll names w = (Throw e, w).
Proof.
  induction names as [|f r IH]; intros w Hex Hin; [inversion Hex|].
  cbn [statAll]. unfold bind, stat.
  destruct (decide (f ∈ statFails (faults w))) as [Hf|Hf]; [eexists; reflexivity|].
  destruct (Hin f) as [b Hb]; [left|]. rewrite Hb.
  apply Exists_cons in Hex as [Hex|Hex]; [contradiction|].
  destruct (IH w Hex) as [e He]; [intros g Hg; apply Hin; now right|].
  rewrite He. eexists. reflexivity.
Qed.

Lemma statAll_succeeds names : forall w,
  Forall (fun f => f ∉ statFails (faults w)) names ->
  (forall f, f ∈ names -> is_Some (backups w !! f)) ->
  statAll names w = (Ok (statOf (backups w) <$> names), w).
Proof.
  induction names as [|f r IH]; intros w Hall Hin; [reflexivity|].
  apply Forall_cons in Hall as [Hf Hall]. rewrite fmap_cons. cbn [statAll].
  unfold bind, stat.
  destruct (decide (f ∈ statFails (faults w))) as [Hf'|_]; [contradiction|].
  destruct (Hin f) as [b Hb]; [left|].
  rewrite Hb, IH; [|exact Hall | intros g Hg; apply Hin; now right].
  unfold ret, statOf. rewrite Hb. reflexivity.
Qed.

(** The loop over [filesToDelete] deletes the files in turn and stops at
    the first that cannot be deleted. *)
Lemma forOf_unlink_run files : forall w,
  NoDup (fname <$> files) ->
  (forall f, f ∈ files -> is_Some (backups w !! fname f)) ->
  exists n r,
    forOf files unlink w =
      (r, set_backups (withoutFiles (fname <$> take n files) (backups w)) w) /\
    ((Forall (fun f => fname f ∉ unlinkFails (faults w)) files /\
      r = Ok tt /\ n = length files) \/
     (Exists (fun f => fname f ∈ unlinkFails (faults w)) files /\
      (exists e, r = Throw e) /\ (n < length files)%nat)).
Proof.
  induction files as [|f r IH]; intros w Hnd Hin.
  - exists 0%nat, (Ok tt). split; [destruct w; reflexivity|]. left. auto.
  - cbn [forOf]. unfold bind, unlink at 1.
    destruct (decide (fname f ∈ unlinkFails (faults w))) as [Hf|Hf].
    + exists 0%nat. eexists. split; [destruct w; reflexivity|]. right.
      split; [now left|]. split; [eauto | cbn [length]; lia].
    + destruct (Hin f) as [b Hb]; [left|]. rewrite Hb.
      apply NoDup_cons in Hnd as [Hnotin Hnd].
      destruct (IH (set_backups (delete (fname f) (backups w)) w) Hnd)
        as (n & res & Hrun & Hcase).
      { intros g Hg. cbn [backups set_backups]. rewrite lookup_delete_ne.
        - apply Hin. now right.
        - intros E. apply Hnotin. rewrite E. apply list_elem_of_fmap. eauto. }
      exists (S n), res. split; [rewrite Hrun; reflexivity|].
      cbn [faults set_backups] in Hcase.
      destruct Hcase as [(Hall & Hres & Hn) | (Hex & Hres & Hn)].
      * left. split; [now constructor|]. split; [exact Hres | cbn [length]; lia].
      * right. split; [now right|]. split; [exact Hres | cbn [length]; lia].
Qed.

Lemma backupNames_present (dir : gmap string backupFile) f :
  f ∈ backupNames dir -> is_Some (dir !! f).
Proof. intros Hin. now apply elem_of_backupNames in Hin as [_ Hin]. Qed.

Lemma backupCount_after_some n dir :
  (n <= length (filesToDelete dir))%nat ->
  (backupCount (withoutFiles (fname <$> take n (filesToDelete dir)) dir) + n)%nat
  = backupCount dir.
Proof.
  intros Hn.
  rewrite <- (backupCount_withoutFiles (fname <$> take n (filesToDelete dir)) dir).
  - now rewrite length_fmap, length_take, Nat.min_l.
  - eapply sublist_NoDup; [apply filesToDelete_NoDup|].
    apply fmap_sublist, sublist_take.
  - intros x Hx. apply filesToDelete_names_sub.
    eapply sublist_subseteq; [|exact Hx]. apply fmap_sublist, sublist_take.
Qed.

(** What [cleanOldBackups] comes to on any host: it resolves; when one of
    its calls fails it has logged the failure, and a directory over the
    cap stays over it; when none fails it logs nothing and leaves the
    newest [maxBackups] backup files at most. *)
Lemma cleanOldBackups_outcome w :
  exists w', cleanOldBackups w = (Ok tt, w') /\
    (pruningFails w ->
       trace w' = trace w ++ [ConsoleError "Error cleaning old backups:"] /\
       ((ExcelConfig.maxBackups < backupCount (backups w))%nat ->
        (ExcelConfig.maxBackups < backupCount (backups w'))%nat)) /\
    (~ pruningFails w ->
       trace w' = trace w /\
       backupCount (backups w') =
         Nat.min ExcelConfig.maxBackups (backupCount (backups w))).
Proof.
  unfold cleanOldBackups, tryCatch. unfold bind at 1. unfold readdir, pruningFails.
  destruct (readdirFails (faults w)) eqn:Hr.
  { unfold_js. eexists. split; [reflexivity|]. split.
    - intros _. split; [reflexivity | auto].
    - intros Hno. exfalso. apply Hno. now left. }
  change (filter _ (map_to_list (backups w)).*1) with (backupNames (backups w)).
  fold (backupCount (backups w)).
  destruct (Nat.leb_spec (backupCount (backups w)) ExcelConfig.maxBackups) as [Hle|Hgt].
  { unfold ret. eexists. split; [reflexivity|]. split.
    - intros [Hf|[Hf _]]; [discriminate | lia].
    - intros _. split; [reflexivity|]. now rewrite Nat.min_r. }
  unfold bind.
  destruct (decide (Exists (fun f => f ∈ statFails (faults w)) (backupNames (backups w))))
    as [Hstat|Hstat].
  { destruct (statAll_fails _ w Hstat (backupNames_present _)) as [e He].
    rewrite He. unfold_js. eexists. split; [reflexivity|]. split.
    - intros _. split; [reflexivity | auto].
    - intros Hno. exfalso. apply Hno. right. split; [exact Hgt | now left]. }
  apply not_Exists_Forall in Hstat; [|intros x; apply _].
  rewrite (statAll_succeeds _ w Hstat (backupNames_present _)).
  change (take _ (jsSort _ _)) with (filesToDelete (backups w)).
  destruct (forOf_unlink_run (filesToDelete (backups w)) w (filesToDelete_NoDup _))
    as (n & r & Hrun & Hcase).
  { intros f Hf. apply backupNames_present, filesToDelete_names_sub, list_elem_of_fmap.
    eauto. }
  rewrite Hrun.
  destruct Hcase as [(Hall & -> & ->) | (Hex & [e ->] & Hn)].
  - eexists. split; [reflexivity|]. cbn [trace backups set_backups]. split.
    + intros [Hf|[_ [Hf|Hf]]]; [discriminate | |].
      * exfalso. rewrite Forall_forall in Hstat. apply Exists_exists in Hf as (x & Hx & Hxf).
        exact (Hstat x Hx Hxf).
      * exfalso. rewrite Forall_forall in Hall. apply Exists_exists in Hf as (x & Hx & Hxf).
        exact (Hall x Hx Hxf).
    + intros _. split; [reflexivity|].
      pose proof (backupCount_after_some (length (filesToDelete (backups w))) (backups w)
                    (Nat.le_refl _)) as Hc.
      rewrite filesToDelete_length in Hc at 2. lia.
  - unfold_js. eexists. split; [reflexivity|]. cbn [trace backups set_backups set_trace].
    split.
    + intros _. split; [reflexivity|]. intros _.
      pose proof (backupCount_after_some n (backups w) ltac:(lia)) as Hc.
      rewrite filesToDelete_length in Hn. lia.
    + intros Hno. exfalso. apply Hno. right. split; [exact Hgt | now right].
Qed.

End FaultyHost.

Section PruningFailure.
Import BackupService.

(** C10. A failure inside [cleanOldBackups] is caught and logged, never
    propagated. On every host [cleanOldBackups] resolves, and it has
    written its message to the console exactly when one of the calls it
    makes ([readdir], [stat], [unlink]) fails. So with the store file in
    place [createBackup] resolves to the path of the copy it made
    whatever fails in pruning; when pruning fails the failure is on the
    console, and a directory that the copy took over [maxBackups] backup
    files is still over it afterwards; when nothing fails nothing is
    logged and [maxBackups] backup files at most remain. *)
Theorem createBackup_resolves_when_pruning_fails now w wb :
  storeFile w = Some wb ->
  (exists w', cleanOldBackups w = (Ok tt, w') /\
     (pruningFails w ->
        trace w' = trace w ++ [ConsoleError "Error cleaning old backups:"]) /\
     (~ pruningFails w -> trace w' = trace w)) /\
  (let copied :=
     set_backups (<[backupFileName now := {| mtime := now; content := wb |}]> (backups w)) w in
   exists w',
     createBackup now w =
       (Ok (Some (path_join ExcelConfig.backupDir (backupFileName now))), w') /\
     (pruningFails copied ->
        trace w' = trace w ++ [ConsoleError "Error cleaning old backups:"] /\
        ((ExcelConfig.maxBackups < backupCount (backups copied))%nat ->
         (ExcelConfig.maxBackups < backupCount (backups w'))%nat)) /\
     (~ pruningFails copied ->
        trace w' = trace w /\
        backupCount (backups w') =
          Nat.min ExcelConfig.maxBackups (backupCount (backups copied)))).
Proof.
  intros Hs. split.
  - destruct (cleanOldBackups_outcome w) as (w' & Hrun & Hfail & Hok).
    exists w'. split; [exact Hrun|]. split.
    + intros Hf. now apply Hfail.
    + intros Hf. now apply Hok.
  - cbv zeta. rewrite (createBackup_run now w wb Hs).
    match goal with |- context [cleanOldBackups ?w0] => set (copied := w0) end.
    destruct (cleanOldBackups_outcome copied) as (w' & Hrun & Hfail & Hok).
    exists w'. rewrite Hrun. split; [reflexivity|]. split; assumption.
Qed.

End PruningFailure.

Lemma pruningFails_stuckWorld_copied :
  pruningFails
    (set_backups
       (<[BackupService.backupFileName 1700000030000 :=
            {| mtime := 1700000030000; content := freshWorkbook |}]> (backups stuckWorld))
       stuckWorld).
Proof.
  unfold pruningFails. apply (bool_decide_unpack _). vm_compute. exact I.
Defined.

Lemma createBackup_resolves_witness :
  storeFile stuckWorld = Some freshWorkbook /\
  exists w', BackupService.createBackup 1700000030000 stuckWorld =
    (Ok (Some (path_join ExcelConfig.backupDir
                 (BackupService.backupFileName 1700000030000))), w') /\
    trace w' = trace stuckWorld ++ [ConsoleError "Error cleaning old backups:"] /\
    (ExcelConfig.maxBackups < backupCount (backups w'))%nat.
Proof.
  split; [reflexivity|].
  destruct (proj2 (createBackup_resolves_when_pruning_fails
                     1700000030000 stuckWorld freshWorkbook eq_refl))
    as (w' & Hrun & Hfail & _).
  destruct (Hfail pruningFails_stuckWorld_copied) as (Hlog & Hover).
  exists w'. split; [exact Hrun|]. split; [exact Hlog|].
  apply Hover. vm_compute. lia.
Defined.

(** ** Archival *)

Section ArchiveFacts.
Context `{JSRuntime}.
Import MonitorService.

Lemma filter_cons_bool {A} (p : A -> bool) (b : bool) x l :
  filter (fun y => p y = b) (x :: l) =
  if Bool.eqb (p x) b then x :: filter (fun y => p y = b) l
  else filter (fun y => p y = b) l.
Proof.
  rewrite filter_cons. destruct (decide (p x = b)) as [E|E].
  - rewrite E, eqb_reflx. reflexivity.
  - destruct (Bool.eqb (p x) b) eqn:Eb; [|reflexivity].
    apply eqb_prop in Eb. contradiction.
Qed.

Lemma scanRows_archive c k rows :
  (scanRows c k rows).1 =
  filter (fun row => before c Row.submissionDate row = true) rows.
Proof.
  revert k. induction rows as [|row rest IH]; intros k; simpl; [reflexivity|].
  specialize (IH (S k)). destruct (scanRows c (S k) rest) as [a idx]. simpl in IH.
  rewrite filter_cons_bool. unfold before at 1.
  destruct (ExcelService.dateLt _ _); simpl; now rewrite IH.
Qed.

Lemma scanRows_count c k rows :
  length (scanRows c k rows).2 =
  length (filter (fun row => before c Row.submissionDate row = true) rows).
Proof.
  revert k. induction rows as [|row rest IH]; intros k; simpl; [reflexivity|].
  specialize (IH (S k)). destruct (scanRows c (S k) rest) as [a idx]. simpl in IH.
  rewrite filter_cons_bool. unfold before at 1.
  destruct (ExcelService.dateLt _ _); simpl; now rewrite IH.
Qed.

(** Splicing the collected row numbers out, last first, leaves the rows
    that were not collected, in their order. *)
Lemma removeArchived_filter c pre rows :
  removeArchived (scanRows c (2 + length pre) rows).2 (pre ++ rows) =
  pre ++ filter (fun row => before c Row.submissionDate row = false) rows.
Proof.
  revert pre. induction rows as [|row rest IH]; intros pre; simpl; [reflexivity|].
  specialize (IH (pre ++ [row])).
  rewrite length_app, Nat.add_1_r, <- !app_assoc in IH. simpl in IH.
  destruct (scanRows c (S (S (S (length pre)))) rest) as [a idx]. simpl in IH.
  rewrite filter_cons_bool. unfold before at 1.
  destruct (ExcelService.dateLt _ _); simpl.
  - unfold removeArchived in *. simpl.
    rewrite IH. unfold spliceRows.
    replace (S (S (length pre)) - 2)%nat with (length pre) by lia.
    apply delete_middle.
  - exact IH.
Qed.

Lemma filter_recent_all c rows :
  filter (fun row => before c Row.submissionDate row = true) rows = [] ->
  filter (fun row => before c Row.submissionDate row = false) rows = rows.
Proof.
  induction rows as [|row rest IH]; [reflexivity|].
  rewrite !filter_cons_bool. destruct (before c Row.submissionDate row); simpl.
  - discriminate.
  - intros Hr. now rewrite IH.
Qed.

(** What [archiveOldRecords] does with the store file in place: the rows
    submitted before the cutoff go to a new archive file and leave the
    store, or, when there is none, nothing but the backup is written. *)
Lemma archiveOldRecords_run now m w wb :
  storeFile w = Some wb ->
  let c := subtractMonths now m in
  let olds := filter (fun row => before c Row.submissionDate row = true) (submissions wb) in
  let name := archiveFileName now (length olds) in
  exists res w',
    archiveOldRecords now m w = (Ok res, w') /\
    archivedCount res = length olds /\
    (length olds = 0%nat ->
       res = {| archivedCount := 0; archivePath := None; cutoffDate := None |} /\
       archives w' = archives w /\ storeFile w' = storeFile w /\
       backups w' = backups (BackupService.createBackup now w).2 /\
       exists evs, trace w' = trace w ++ evs /\ StoreWritten ∉ evs) /\
    (length olds <> 0%nat ->
       archivePath res = Some (path_join ExcelConfig.archiveDir name) /\
       cutoffDate res = Some c /\
       archives w' = <[name := olds]> (archives w) /\
       storeFile w' =
         Some {| submissions :=
                   filter (fun row => before c Row.submissionDate row = false) (submissions wb);
                 summary := summary wb |}).
Proof.
  intros Hs c olds name. unfold archiveOldRecords, tryCatch. unfold bind at 1.
  rewrite (createBackup_run now w wb Hs).
  match goal with |- context [BackupService.cleanOldBackups ?w0] => set (w0' := w0) end.
  destruct (cleanOldBackups_resolves w0') as (w1 & Hclean & Htrace).
  assert (Hs1 : storeFile w1 = Some wb).
  { pose proof (preserves_cleanOldBackups storeFile traceBlind_storeFile
                  backupsBlind_storeFile w0') as Hp.
    rewrite Hclean in Hp. simpl in Hp. now rewrite Hp. }
  assert (Ha1 : archives w1 = archives w).
  { pose proof (preserves_cleanOldBackups archives traceBlind_archives
                  backupsBlind_archives w0') as Hp.
    rewrite Hclean in Hp. simpl in Hp. now rewrite Hp. }
  rewrite Hclean. cbn [snd]. unfold readFile. unfold_js. rewrite Hs1. cbn [fst snd].
  pose proof (scanRows_archive c 2 (submissions wb)) as Harch.
  pose proof (scanRows_count c 2 (submissions wb)) as Hcount.
  pose proof (removeArchived_filter c [] (submissions wb)) as Hrem.
  fold c. simpl in Hrem.
  destruct (scanRows c 2 (submissions wb)) as [a idx]. simpl in Harch, Hcount, Hrem.
  fold olds in Harch, Hcount. subst a. rewrite Hcount, Hrem.
  destruct (length olds =? 0)%nat eqn:E.
  - apply Nat.eqb_eq in E. eexists _, _. split; [reflexivity|].
    split; [simpl; lia|]. split; [|intros Hne; contradiction].
    intros _. split; [reflexivity|]. split; [exact Ha1|].
    split; [simpl; congruence|].
    split; [reflexivity|]. simpl.
    destruct Htrace as [-> | ->].
    + exists [StoreRead]. split; [reflexivity | list_not_mem].
    + exists [ConsoleError "Error cleaning old backups:"; StoreRead].
      split; [now rewrite <- app_assoc | list_not_mem].
  - apply Nat.eqb_neq in E. eexists _, _. split; [reflexivity|].
    split; [reflexivity|]. split; [intros He; contradiction|].
    intros _. simpl. rewrite Ha1. repeat split; reflexivity.
Qed.

End ArchiveFacts.

Section ArchiveClaims.
Context `{JSRuntime}.
Import MonitorService.

Lemma path_join_inj dir f g : path_join dir f = path_join dir g -> f = g.
Proof.
  unfold path_join. intros E.
  apply append_inj_length in E as [_ E]; [|reflexivity].
  now injection E.
Qed.

(** C4 (as amended). With the store file in place, [archiveOldRecords(m)]
    splits the live rows by their submission date (cell 2), not by their
    booking date: the rows submitted strictly before the cutoff are the
    content of the archive file it writes and leave the store; the rows
    submitted on or after the cutoff, or without a valid submission date,
    are the live rows afterwards, unchanged and in their order. *)
Theorem archiveOldRecords_partitions_by_submission_date now m w wb :
  storeFile w = Some wb ->
  archivalPartition Row.submissionDate now m w /\
  exists res w',
    archiveOldRecords now m w = (Ok res, w') /\
    archivedCount res =
      length (filter (fun row => before (subtractMonths now m) Row.submissionDate row = true)
                (submissions wb)) /\
    liveRows w' =
      filter (fun row => before (subtractMonths now m) Row.submissionDate row = false)
        (submissions wb) /\
    (archivedCount res <> 0%nat ->
     exists name,
       archivePath res = Some (path_join ExcelConfig.archiveDir name) /\
       archives w' !! name =
         Some (filter (fun row => before (subtractMonths now m) Row.submissionDate row = true)
                 (submissions wb))).
Proof.
  intros Hs.
  destruct (archiveOldRecords_run now m w wb Hs) as (res & w' & Hrun & Hcount & H0 & Hn).
  set (c := subtractMonths now m) in *.
  set (olds := filter (fun row => before c Row.submissionDate row = true) (submissions wb)) in *.
  assert (Hlive : liveRows w' =
                  filter (fun row => before c Row.submissionDate row = false) (submissions wb)).
  { unfold liveRows. destruct (length olds) eqn:El.
    - destruct (H0 eq_refl) as (_ & _ & -> & _). rewrite Hs.
      symmetry. apply filter_recent_all. fold olds. now apply nil_length_inv.
    - destruct (Hn ltac:(discriminate)) as (_ & _ & _ & ->). reflexivity. }
  split.
  - unfold archivalPartition. fold c. rewrite Hrun. cbn [fst snd]. split; [|split].
    + intros res' name rows row [= <-] Hpath Hlook Hin.
      destruct (Nat.eq_dec (length olds) 0%nat) as [E0|En].
      * destruct (H0 E0) as (-> & _). discriminate.
      * destruct (Hn En) as (Hp & _ & Ha & _).
        assert (Hpath' : path_join ExcelConfig.archiveDir name =
                         path_join ExcelConfig.archiveDir
                           (archiveFileName now (length olds))) by congruence.
        apply path_join_inj in Hpath'. subst name.
        rewrite Ha, lookup_insert_eq in Hlook. injection Hlook as <-.
        apply list_elem_of_filter in Hin as [Hin _]. exact Hin.
    + intros row. rewrite Hlive, list_elem_of_filter. now intros [Hb _].
    + intros row Hin Hb. rewrite Hlive. apply list_elem_of_filter.
      split; [exact Hb|]. unfold liveRows in Hin. now rewrite Hs in Hin.
  - exists res, w'. split; [exact Hrun|]. split; [exact Hcount|].
    split; [exact Hlive|]. intros Hne. rewrite Hcount in Hne.
    destruct (Hn Hne) as (Hp & _ & Ha & _).
    eexists. split; [exact Hp|]. rewrite Ha. apply lookup_insert_eq.
Qed.

(** C7. With the store file in place and no row submitted strictly
    before the cutoff, [archiveOldRecords(m)] resolves to the result that
    counts zero, names no archive and no cutoff; the archive directory and
    the store file are as before and the store file was not written. The
    one thing written is the safety backup taken first: the backup
    directory is as [createBackup] leaves it. *)
Theorem archiveOldRecords_nothing_to_archive now m w wb :
  storeFile w = Some wb ->
  Forall (fun row => before (subtractMonths now m) Row.submissionDate row = false)
    (submissions wb) ->
  exists w',
    archiveOldRecords now m w =
      (Ok {| archivedCount := 0; archivePath := None; cutoffDate := None |}, w') /\
    archives w' = archives w /\
    storeFile w' = storeFile w /\
    backups w' = backups (BackupService.createBackup now w).2 /\
    exists evs, trace w' = trace w ++ evs /\ StoreWritten ∉ evs.
Proof.
  intros Hs Hall.
  destruct (archiveOldRecords_run now m w wb Hs) as (res & w' & Hrun & _ & H0 & _).
  assert (Hnone : length (filter (fun row => before (subtractMonths now m)
                                    Row.submissionDate row = true) (submissions wb)) = 0%nat).
  { clear -Hall. induction Hall as [|row rest Hrow _ IH]; [reflexivity|].
    rewrite filter_cons_bool, Hrow. exact IH. }
  destruct (H0 Hnone) as (-> & Ha & Hst & Hbk & Hev).
  exists w'. repeat split; assumption.
Qed.

End ArchiveClaims.

(** C4 as stated fails: a record submitted in April 2022 for a booking in
    January 2030 is archived in November 2023 with [monthsOld = 6],
    although its booking date is after the cutoff. *)
Lemma archive_ignores_booking_date :
  ~ @archivalPartition utcRuntime Row.bookingDate 1700000000000 6 sampleStore.
Proof.
  intros (Harch & _).
  specialize (Harch
    {| MonitorService.archivedCount := 1;
       MonitorService.archivePath := Some "data/archives/archive_19675_1records.xlsx";
       MonitorService.cutoffDate := Some 1684448000000 |}
    "archive_19675_1records.xlsx"
    [sampleRow "VRT-1650000000000-0000AAAA" "Surat" 1650000000000 1894665600000]
    (sampleRow "VRT-1650000000000-0000AAAA" "Surat" 1650000000000 1894665600000)).
  assert (Hfalse : @before utcRuntime (@subtractMonths utcRuntime 1700000000000 6)
                     Row.bookingDate
                     (sampleRow "VRT-1650000000000-0000AAAA" "Surat"
                        1650000000000 1894665600000) = false)
    by (vm_compute; reflexivity).
  rewrite Harch in Hfalse; [discriminate | | | |].
  - vm_compute. reflexivity.
  - reflexivity.
  - vm_compute. reflexivity.
  - left.
Qed.

Lemma archiveOldRecords_partition_witness :
  storeFile sampleStore = Some sampleBook /\
  @archivalPartition utcRuntime Row.submissionDate 1700000000000 6 sampleStore.
Proof.
  split; [reflexivity|].
  exact (proj1 (@archiveOldRecords_partitions_by_submission_date utcRuntime
                  1700000000000 6 sampleStore sampleBook eq_refl)).
Defined.

Lemma archiveOldRecords_nothing_witness :
  storeFile sampleStore = Some sampleBook /\
  Forall (fun row => @before utcRuntime (@subtractMonths utcRuntime 1700000000000 24)
                       Row.submissionDate row = false) (submissions sampleBook) /\
  exists w',
    @MonitorService.archiveOldRecords utcRuntime 1700000000000 24 sampleStore =
      (Ok {| MonitorService.archivedCount := 0; MonitorService.archivePath := None;
             MonitorService.cutoffDate := None |}, w') /\
    archives w' = archives sampleStore /\
    storeFile w' = storeFile sampleStore /\
    backups w' = backups (BackupService.createBackup 1700000000000 sampleStore).2 /\
    exists evs, trace w' = trace sampleStore ++ evs /\ StoreWritten ∉ evs.
Proof.
  assert (Hall : Forall (fun row => @before utcRuntime
                           (@subtractMonths utcRuntime 1700000000000 24)
                           Row.submissionDate row = false) (submissions sampleBook)).
  { repeat constructor. }
  split; [reflexivity|]. split; [exact Hall|].
  exact (@archiveOldRecords_nothing_to_archive utcRuntime 1700000000000 24
           sampleStore sampleBook eq_refl Hall).
Defined.

(** The sample store after archival in November 2023 with six months. *)
Example archive_sample_store :
  let out := @MonitorService.archiveOldRecords utcRuntime 1700000000000 6 sampleStore in
  liveRows out.2 =
    [sampleRow "VRT-1699000000000-0000BBBB" "Rajkot" 1699000000000 1700006400000] /\
  archives out.2 !! "archive_19675_1records.xlsx" =
    Some [sampleRow "VRT-1650000000000-0000AAAA" "Surat" 1650000000000 1894665600000].
Proof. vm_compute. split; reflexivity. Qed.

(** ** Readers and the lock *)

Section LockFacts.
Context `{JSRuntime}.
Import ExcelService.

Lemma getAllSubmissions_run filters w wb :
  lockBusy w = false -> storeFile w = Some wb ->
  getAllSubmissions filters w =
  (Ok (jsSort newestFirst
         (filter (fun s => matchesFilters filters s = true) (submissions wb))),
   set_trace (trace w ++ [LockAcquired; StoreRead; LockReleased]) w).
Proof.
  intros Hl Hs. unfold getAllSubmissions. unfold_js. rewrite Hl. simpl.
  rewrite Hs. simpl. rewrite <- !app_assoc. reflexivity.
Qed.

Lemma getAllSubmissions_busy filters w wb :
  storeFile w = Some wb -> lockBusy w = true ->
  getAllSubmissions filters w = (Throw LockedError, w).
Proof. intros Hs Hl. unfold getAllSubmissions, withFileLock. now rewrite Hs, Hl. Qed.

Lemma getAllSubmissions_missing filters w :
  storeFile w = None -> getAllSubmissions filters w = (Throw (ENOENT storePath), w).
Proof. intros Hs. unfold getAllSubmissions, withFileLock. now rewrite Hs. Qed.

Lemma readsUnderLock_getAllSubmissions filters : readsUnderLock (getAllSubmissions filters).
Proof. intros w wb Hl Hs. now rewrite (getAllSubmissions_run filters w wb Hl Hs). Qed.

Lemma readsUnderLock_searchSubmissions query : readsUnderLock (searchSubmissions query).
Proof.
  intros w wb Hl Hs. unfold searchSubmissions, bind, liftR.
  rewrite (getAllSubmissions_run _ w wb Hl Hs). reflexivity.
Qed.

Lemma readsUnderLock_getStatistics now : readsUnderLock (getStatistics now).
Proof.
  intros w wb Hl Hs. unfold getStatistics, bind, ret.
  rewrite (getAllSubmissions_run _ w wb Hl Hs). reflexivity.
Qed.

Lemma waitsForLock_searchSubmissions query : waitsForLock (searchSubmissions query).
Proof.
  intros w wb Hs Hl. unfold searchSubmissions, bind.
  now rewrite (getAllSubmissions_busy _ w wb Hs Hl).
Qed.

Lemma waitsForLock_getStatistics now : waitsForLock (getStatistics now).
Proof.
  intros w wb Hs Hl. unfold getStatistics, bind.
  now rewrite (getAllSubmissions_busy _ w wb Hs Hl).
Qed.

Lemma failsWithoutStore_searchSubmissions query :
  failsWithoutStore (searchSubmissions query).
Proof.
  intros w Hs. unfold searchSubmissions, bind.
  now rewrite (getAllSubmissions_missing _ w Hs).
Qed.

Lemma failsWithoutStore_getStatistics now : failsWithoutStore (getStatistics now).
Proof.
  intros w Hs. unfold getStatistics, bind.
  now rewrite (getAllSubmissions_missing _ w Hs).
Qed.

Lemma neverLocks_ret {A} (a : A) : neverLocks (ret a).
Proof. intros w. exists []. split; [now rewrite app_nil_r | apply not_elem_of_nil]. Qed.

Lemma neverLocks_liftR {A} (r : result A) : neverLocks (liftR r).
Proof. intros w. exists []. split; [now rewrite app_nil_r | apply not_elem_of_nil]. Qed.

Lemma neverLocks_bind {A B} (m : M A) (k : A -> M B) :
  neverLocks m -> (forall a, neverLocks (k a)) -> neverLocks (bind m k).
Proof.
  intros Hm Hk w. unfold bind. destruct (Hm w) as (evs & Ht & Hn).
  destruct (m w) as [[a|e] w1]; simpl in *.
  - destruct (Hk a w1) as (evs' & Ht' & Hn'). exists (evs ++ evs').
    split; [now rewrite Ht', Ht, app_assoc|].
    rewrite elem_of_app. now intros [?|?].
  - exists evs. split; assumption.
Qed.

Lemma neverLocks_readFile : neverLocks readFile.
Proof.
  intros w. unfold readFile. unfold_js. destruct (storeFile w); simpl.
  - exists [StoreRead]. split; [reflexivity | list_not_mem].
  - exists []. split; [now rewrite app_nil_r | apply not_elem_of_nil].
Qed.

Lemma neverLocks_getBookingCountForDate date : neverLocks (getBookingCountForDate date).
Proof.
  unfold getBookingCountForDate.
  apply neverLocks_bind; [apply neverLocks_liftR|]. intros d.
  apply neverLocks_bind; [apply neverLocks_readFile|]. intros wb.
  apply neverLocks_liftR.
Qed.

Lemma neverLocks_isDateAvailable date : neverLocks (isDateAvailable date).
Proof.
  unfold isDateAvailable.
  apply neverLocks_bind; [apply neverLocks_getBookingCountForDate|].
  intros c. apply neverLocks_ret.
Qed.

Lemma neverLocks_searchFrom start i n : neverLocks (searchFrom start i n).
Proof.
  revert i. induction n as [|n IH]; intros i; simpl; [apply neverLocks_ret|].
  apply neverLocks_bind; [apply neverLocks_isDateAvailable|]. intros a.
  destruct (available a); [|apply IH].
  apply neverLocks_bind; [apply neverLocks_liftR|]. intros d. apply neverLocks_ret.
Qed.

Lemma neverLocks_validateBookingDate now date : neverLocks (validateBookingDate now date).
Proof.
  unfold validateBookingDate. destruct (dateLt _ _); [apply neverLocks_ret|].
  apply neverLocks_bind; [apply neverLocks_isDateAvailable|]. intros a.
  destruct (negb (available a)); [|apply neverLocks_ret].
  apply neverLocks_bind; [apply neverLocks_searchFrom|]. intros nd.
  apply neverLocks_ret.
Qed.

Lemma neverLocks_getBookingCountsByDateRange startDate endDate :
  neverLocks (getBookingCountsByDateRange startDate endDate).
Proof.
  unfold getBookingCountsByDateRange.
  apply neverLocks_bind; [apply neverLocks_readFile|]. intros wb. apply neverLocks_ret.
Qed.

(** The reads of the service that do not go through [getAllSubmissions]
    never acquire the lock. *)
Lemma booking_reads_never_lock :
  (forall startDate endDate, neverLocks (getBookingCountsByDateRange startDate endDate)) /\
  (forall date, neverLocks (getBookingCountForDate date)) /\
  (forall date, neverLocks (isDateAvailable date)) /\
  (forall start n, neverLocks (getNextAvailableDate start n)) /\
  (forall now date, neverLocks (validateBookingDate now date)).
Proof.
  split; [apply neverLocks_getBookingCountsByDateRange|].
  split; [apply neverLocks_getBookingCountForDate|].
  split; [apply neverLocks_isDateAvailable|].
  split; [intros s n; apply neverLocks_searchFrom|].
  apply neverLocks_validateBookingDate.
Qed.

(** C8 (as amended). The list, search and statistics reads all go
    through [getAllSubmissions], which runs under [withFileLock]. With the
    store file in place and the lock free each of them acquires the lock,
    reads the store file and releases the lock; with the store file in
    place and the lock held by another process each rejects with the lock
    error, having read nothing; and where there is no store file each
    rejects with [ENOENT], no lock taken. *)
Theorem list_search_statistics_take_the_lock :
  (forall filters, readsUnderLock (getAllSubmissions filters) /\
                   waitsForLock (getAllSubmissions filters) /\
                   failsWithoutStore (getAllSubmissions filters)) /\
  (forall query, readsUnderLock (searchSubmissions query) /\
                 waitsForLock (searchSubmissions query) /\
                 failsWithoutStore (searchSubmissions query)) /\
  (forall now, readsUnderLock (getStatistics now) /\
               waitsForLock (getStatistics now) /\
               failsWithoutStore (getStatistics now)).
Proof.
  split; [intros f; split; [apply readsUnderLock_getAllSubmissions|]; split;
          [intros w wb; apply getAllSubmissions_busy
          | intros w; apply getAllSubmissions_missing]|].
  split; [intros q; split; [apply readsUnderLock_searchSubmissions|]; split;
          [apply waitsForLock_searchSubmissions
          | apply failsWithoutStore_searchSubmissions]|].
  intros n; split; [apply readsUnderLock_getStatistics|]; split;
    [apply waitsForLock_getStatistics | apply failsWithoutStore_getStatistics].
Qed.

End LockFacts.

(** C8 as stated fails: listing, searching and the statistics each
    acquire the lock. *)
Lemma read_operations_take_the_lock :
  ~ neverLocks (@ExcelService.getAllSubmissions utcRuntime ∅) /\
  ~ neverLocks (@ExcelService.searchSubmissions utcRuntime "Surat") /\
  ~ neverLocks (@ExcelService.getStatistics utcRuntime 1700000000000).
Proof.
  assert (Hno : forall (A : Type) (m : M A),
             trace (m sampleStore).2 = [LockAcquired; StoreRead; LockReleased] ->
             ~ neverLocks m).
  { intros A m E Hnever. destruct (Hnever sampleStore) as (evs & Ht & Hn).
    rewrite E in Ht. change (trace sampleStore) with (@nil event) in Ht.
    simpl in Ht. subst evs. apply Hn. left. }
  split; [|split]; apply Hno; vm_compute; reflexivity.
Qed.

(** ** The next available date *)

Section NextAvailable.
Context `{JSRuntime}.
Import ExcelService.

Lemma countRows_valid d rows c :
  datesValid rows -> countRows d rows c = Ok (c + bookingsOn d rows)%nat.
Proof.
  intros Hv. revert c. induction Hv as [|row rest Hrow _ IH]; intros c; simpl.
  - unfold bookingsOn. simpl. f_equal. lia.
  - rewrite bookingsOn_cons. unfold countsOn, isoDay.
    destruct (truthy (Row.bookingDate row)) eqn:Et; simpl.
    + destruct (Hrow eq_refl) as [t Ht]. rewrite Ht.
      destruct (strict_eq_str (Row.status row) "archived"); simpl.
      * apply IH.
      * rewrite IH. destruct (utcDay t =? d); f_equal; lia.
    + apply IH.
Qed.

Lemma isDateAvailable_run t w wb :
  storeFile w = Some wb -> datesValid (submissions wb) ->
  isDateAvailable (VDate (Some t)) w =
  (Ok {| available := (bookingsOn (utcDay t) (submissions wb) <?
                       ExcelConfig.maxBookingsPerDay)%nat;
         count := bookingsOn (utcDay t) (submissions wb);
         maxBookings := ExcelConfig.maxBookingsPerDay;
         remaining := Z.of_nat ExcelConfig.maxBookingsPerDay -
                      Z.of_nat (bookingsOn (utcDay t) (submissions wb)) |},
   set_trace (trace w ++ [StoreRead]) w).
Proof.
  intros Hs Hv. unfold isDateAvailable, getBookingCountForDate, isoDay, readFile.
  unfold_js. simpl. rewrite Hs. simpl. rewrite (countRows_valid _ _ 0%nat Hv).
  reflexivity.
Qed.

(** The loop examines the days of [s], [s + 1 day], ... in turn and stops
    at the first that has room. *)
Lemma searchFrom_spec s wb n : forall i w,
  storeFile w = Some wb -> datesValid (submissions wb) ->
  match (searchFrom (Some s) i n w).1 with
  | Ok (Some nd) =>
      exists j, i <= j < i + Z.of_nat n /\
        nd_date nd = utcDay (addDays s j) /\
        nd_count nd = bookingsOn (nd_date nd) (submissions wb) /\
        (nd_count nd < ExcelConfig.maxBookingsPerDay)%nat /\
        forall j', i <= j' < j ->
          (ExcelConfig.maxBookingsPerDay <=
           bookingsOn (utcDay (addDays s j')) (submissions wb))%nat
  | Ok None =>
      forall j, i <= j < i + Z.of_nat n ->
        (ExcelConfig.maxBookingsPerDay <=
         bookingsOn (utcDay (addDays s j)) (submissions wb))%nat
  | Throw _ => False
  end.
Proof.
  induction n as [|n IH]; intros i w Hs Hv.
  - simpl. intros j Hj. lia.
  - cbn [searchFrom]. unfold bind at 1. cbn [option_map].
    rewrite (isDateAvailable_run _ w wb Hs Hv). cbn [available count remaining].
    destruct (_ <? _)%nat eqn:E.
    + apply Nat.ltb_lt in E. simpl. exists i. split; [lia|].
      split; [reflexivity|]. split; [reflexivity|]. split; [exact E|].
      intros j' Hj'. lia.
    + apply Nat.ltb_ge in E. specialize (IH (i + 1) (set_trace (trace w ++ [StoreRead]) w) Hs Hv).
      destruct (searchFrom (Some s) (i + 1) n _) as [[[nd|]|e] w']; cbn [fst] in *.
      * destruct IH as (j & Hj & Hd & Hc & Hlt & Hfull). exists j.
        split; [lia|]. split; [exact Hd|]. split; [exact Hc|]. split; [exact Hlt|].
        intros j' Hj'. destruct (decide (j' = i)) as [->|Hne]; [exact E|].
        apply Hfull. lia.
      * intros j Hj. destruct (decide (j = i)) as [->|Hne]; [exact E|].
        apply IH. lia.
      * exact IH.
Qed.

(** On a server whose local time is UTC, [getNextAvailableDate] does what
    C5 says: it returns the first day from the day of [start] on, within
    the horizon, that has room, or [null] when the whole horizon is full. *)
Lemma getNextAvailableDate_utc start t h w wb :
  tzOffset = 0 ->
  newDate start = Some t -> storeFile w = Some wb -> datesValid (submissions wb) ->
  match (getNextAvailableDate start h w).1 with
  | Ok (Some nd) =>
      utcDay t <= nd_date nd < utcDay t + Z.of_nat h /\
      (bookingsOn (nd_date nd) (submissions wb) < ExcelConfig.maxBookingsPerDay)%nat /\
      forall d, utcDay t <= d < nd_date nd ->
        (ExcelConfig.maxBookingsPerDay <= bookingsOn d (submissions wb))%nat
  | Ok None =>
      forall d, utcDay t <= d < utcDay t + Z.of_nat h ->
        (ExcelConfig.maxBookingsPerDay <= bookingsOn d (submissions wb))%nat
  | Throw _ => False
  end.
Proof.
  intros Htz Ht Hs Hv. unfold getNextAvailableDate. rewrite Ht. cbn [option_map].
  assert (Hday : forall j, utcDay (addDays (setHours0 t) j) = utcDay t + j).
  { intros j. unfold addDays, setHours0, utcDay. rewrite Htz, Z.add_0_r, Z.sub_0_r.
    rewrite <- Z.mul_add_distr_r. apply Z.div_mul. discriminate. }
  pose proof (searchFrom_spec (setHours0 t) wb h 0 w Hs Hv) as Hspec.
  destruct (searchFrom _ 0 h w) as [[[nd|]|e] w']; cbn [fst] in *.
  - destruct Hspec as (j & Hj & Hd & Hc & Hlt & Hfull). rewrite Hday in Hd.
    split; [lia|]. split; [now rewrite <- Hc|].
    intros d Hd'. specialize (Hfull (d - utcDay t) ltac:(lia)).
    rewrite Hday in Hfull. now replace (utcDay t + (d - utcDay t)) with d in Hfull by lia.
  - intros d Hd. specialize (Hspec (d - utcDay t) ltac:(lia)).
    rewrite Hday in Hspec. now replace (utcDay t + (d - utcDay t)) with d in Hspec by lia.
  - exact Hspec.
Qed.

End NextAvailable.

(** C5 fails on a server that is not on UTC. On India Standard Time, with
    an empty store, the search from 15 January 2030 (day 21929) answers
    14 January 2030 (day 21928): [setHours(0, 0, 0, 0)] moves the start to
    local midnight, which is 18:30 UTC of the day before, and
    [toISOString()] then names that UTC day. *)
Theorem getNextAvailableDate_before_start_on_ist :
  (@ExcelService.getNextAvailableDate istRuntime (VStr "2030-01-15") 90 freshWorld).1 =
    Ok (Some {| ExcelService.nd_date := 21928; ExcelService.nd_count := 0;
                ExcelService.nd_remaining := 3 |}) /\
  option_map utcDay (@newDate istRuntime (VStr "2030-01-15")) = Some 21929.
Proof. vm_compute. split; reflexivity. Qed.

(** On the same server, once three requests have booked 15 January 2030,
    a fourth is turned away with 14 January 2030 as the next available
    date. *)
Example full_day_suggests_day_before_on_ist :
  let w := @createSubmissions istRuntime
             [sampleCreate 0; sampleCreate 1; sampleCreate 2] freshWorld in
  @bookingsOn istRuntime 21929 (liveRows w) = 3%nat /\
  (@ExcelService.validateBookingDate istRuntime 1700000000003 (VStr "2030-01-15") w).1 =
    Ok (ExcelService.FullyBooked 3
          (Some {| ExcelService.nd_date := 21928; ExcelService.nd_count := 0;
                   ExcelService.nd_remaining := 3 |})).
Proof. vm_compute. split; reflexivity. Qed.

(** The same call on a server on UTC answers the day asked for. *)
Example getNextAvailableDate_on_utc :
  (@ExcelService.getNextAvailableDate utcRuntime (VStr "2030-01-15") 90 freshWorld).1 =
    Ok (Some {| ExcelService.nd_date := 21929; ExcelService.nd_count := 0;
                ExcelService.nd_remaining := 3 |}).
Proof. vm_compute. reflexivity. Qed.

(** * Further properties of the services *)

(** ** Deleting, and reading back what was added *)

Section DeleteFacts.
Context `{JSRuntime}.
Import ExcelService.

Lemma findRowToDelete_none id k rows acc :
  existsb (matchesId id) rows = false -> findRowToDelete id k rows acc = acc.
Proof.
  revert k acc. induction rows as [|row rest IH]; intros k acc; simpl; [reflexivity|].
  unfold matchesId at 1. simpl. destruct (strict_eq_str (Row.id row) id); simpl.
  - discriminate.
  - apply IH.
Qed.

Lemma findRowToDelete_last id k before row after acc :
  matchesId id row = true -> existsb (matchesId id) after = false ->
  findRowToDelete id k (before ++ row :: after) acc = Some (k + length before)%nat.
Proof.
  intros Hrow Hafter. revert k acc.
  induction before as [|b before IH]; intros k acc; simpl.
  - unfold matchesId in Hrow. simpl in Hrow. rewrite Hrow.
    rewrite findRowToDelete_none by exact Hafter. f_equal. lia.
  - rewrite IH. f_equal. lia.
Qed.

(** X1. With the lock free and the store file in place, [deleteSubmission]
    on an id that no row carries rejects with 'Submission not found'; the
    store file is as before and was not written. *)
Theorem deleteSubmission_unknown_id now id w wb :
  lockBusy w = false -> storeFile w = Some wb ->
  existsb (matchesId id) (submissions wb) = false ->
  exists w', deleteSubmission now id w = (Throw SubmissionNotFound, w') /\
    storeFile w' = storeFile w /\
    trace w' = trace w ++ [LockAcquired; StoreRead; LockReleased].
Proof.
  intros Hl Hs Hno. unfold deleteSubmission. unfold_js. rewrite Hl. simpl.
  rewrite Hs. simpl. rewrite findRowToDelete_none by exact Hno. simpl.
  eexists. split; [reflexivity|]. split; [exact Hs|]. simpl.
  now rewrite <- !app_assoc.
Qed.

(** X2. With the lock free and the store file in place, [deleteSubmission]
    removes exactly one row, the last one that carries the id: the rows
    before and after it stay, in their order, also rows before it with the
    same id; the Summary count goes down by one, but not below zero. *)
Theorem deleteSubmission_removes_last_match now id w wb before row after :
  lockBusy w = false -> storeFile w = Some wb ->
  submissions wb = before ++ row :: after ->
  matchesId id row = true -> existsb (matchesId id) after = false ->
  exists w', deleteSubmission now id w = (Ok tt, w') /\
    storeFile w' =
      Some {| submissions := before ++ after;
              summary := touchSummary now (fun t => Z.max 0 (t - 1)) (summary wb) |}.
Proof.
  intros Hl Hs Hrows Hrow Hafter. unfold deleteSubmission. unfold_js.
  rewrite Hl. simpl. rewrite Hs. simpl. rewrite Hrows.
  rewrite (findRowToDelete_last id 2 before row after None Hrow Hafter). simpl.
  rewrite Nat.sub_0_r, delete_middle. eexists. split; reflexivity.
Qed.

Lemma addSubmission_run now rnd data w wb :
  lockBusy w = false -> storeFile w = Some wb ->
  let id := Helpers.generateSubmissionId now rnd in
  let row := submissionData id now data in
  addSubmission now rnd data w =
  (Ok {| newId := id; data := row |},
   set_trace (trace w ++ [LockAcquired; StoreRead; StoreWritten; LockReleased])
     (set_storeFile
        (Some {| submissions := submissions wb ++ [rowOfValues row];
                 summary := touchSummary now (fun t => t + 1) (summary wb) |}) w)).
Proof.
  intros Hl Hs. unfold addSubmission. unfold_js. rewrite Hl. simpl. rewrite Hs. simpl.
  rewrite <- !app_assoc. reflexivity.
Qed.

Lemma addSubmission_Ok_inv now rnd data w r w' :
  addSubmission now rnd data w = (Ok r, w') ->
  lockBusy w = false /\ exists wb, storeFile w = Some wb.
Proof.
  unfold addSubmission. unfold_js.
  destruct (storeFile w) as [wb|]; [|discriminate].
  destruct (lockBusy w); [discriminate|].
  intros _. split; [reflexivity | now exists wb].
Qed.

(** X4. A submission that was added and is deleted again by the id it
    was given leaves the rows of the store as they were before the two
    calls, whatever ids they carry: the row added is the last one. *)
Theorem delete_after_add_restores_rows now rnd data later w r w1 :
  addSubmission now rnd data w = (Ok r, w1) ->
  exists w2, deleteSubmission later (newId r) w1 = (Ok tt, w2) /\
             liveRows w2 = liveRows w.
Proof.
  intros Hadd. destruct (addSubmission_Ok_inv _ _ _ _ _ _ Hadd) as (Hl & wb & Hs).
  rewrite (addSubmission_run now rnd data w wb Hl Hs) in Hadd.
  injection Hadd as <- <-. cbn [newId].
  set (id := Helpers.generateSubmissionId now rnd).
  set (row := rowOfValues (submissionData id now data)).
  set (wb1 := {| submissions := submissions wb ++ [row];
                 summary := touchSummary now (fun t => t + 1) (summary wb) |}).
  match goal with |- context [deleteSubmission later id ?w0] => set (w1 := w0) end.
  destruct (deleteSubmission_removes_last_match later id w1 wb1 (submissions wb) row [])
    as (w2 & Hdel & Hst).
  - exact Hl.
  - reflexivity.
  - reflexivity.
  - unfold matchesId. simpl. apply String.eqb_refl.
  - reflexivity.
  - exists w2. split; [exact Hdel|]. unfold liveRows. rewrite Hst, Hs. simpl.
    apply app_nil_r.
Qed.

End DeleteFacts.

Lemma deleteSubmission_unknown_id_witness :
  lockBusy sampleStore = false /\ storeFile sampleStore = Some sampleBook /\
  existsb (matchesId "VRT-0-00000000") (submissions sampleBook) = false /\
  exists w', @ExcelService.deleteSubmission 1700000000000 "VRT-0-00000000" sampleStore
             = (Throw SubmissionNotFound, w') /\
    storeFile w' = storeFile sampleStore /\
    trace w' = trace sampleStore ++ [LockAcquired; StoreRead; LockReleased].
Proof.
  split; [reflexivity|]. split; [reflexivity|]. split; [reflexivity|].
  exact (deleteSubmission_unknown_id 1700000000000 "VRT-0-00000000"
           sampleStore sampleBook eq_refl eq_refl eq_refl).
Defined.

Lemma deleteSubmission_removes_last_match_witness :
  lockBusy duplicateStore = false /\ storeFile duplicateStore = Some duplicateBook /\
  exists w', @ExcelService.deleteSubmission 1700000000000 "VRT-DUP" duplicateStore
             = (Ok tt, w') /\
    storeFile w' =
      Some {| submissions :=
                [sampleRow "VRT-DUP" "Surat" 1650000000000 1894665600000;
                 sampleRow "VRT-1699000000000-0000BBBB" "Rajkot" 1699000000000 1700006400000;
                 sampleRow "VRT-1699000000009-0000EEEE" "Vapi" 1699000000009 1700006400000];
              summary := Some {| total := 0; lastUpdated := 1700000000000 |} |}.
Proof.
  split; [reflexivity|]. split; [reflexivity|].
  exact (deleteSubmission_removes_last_match 1700000000000 "VRT-DUP"
           duplicateStore duplicateBook
           [sampleRow "VRT-DUP" "Surat" 1650000000000 1894665600000;
            sampleRow "VRT-1699000000000-0000BBBB" "Rajkot" 1699000000000 1700006400000]
           (sampleRow "VRT-DUP" "Bhuj" 1699000000005 1700006400000)
           [sampleRow "VRT-1699000000009-0000EEEE" "Vapi" 1699000000009 1700006400000]
           eq_refl eq_refl eq_refl eq_refl eq_refl).
Defined.

Lemma delete_after_add_witness :
  exists r w1,
    @ExcelService.addSubmission utcRuntime 1700000000000 sampleRnd ∅ sampleStore = (Ok r, w1) /\
    exists w2, ExcelService.deleteSubmission 1700000000500 (ExcelService.newId r) w1 = (Ok tt, w2) /\
               liveRows w2 = liveRows sampleStore.
Proof.
  eexists _, _. split; [reflexivity|].
  exact (@delete_after_add_restores_rows utcRuntime 1700000000000 sampleRnd ∅
           1700000000500 sampleStore _ _ eq_refl).
Defined.

(** ** Listing, statistics and search *)

Section ListFacts.
Context `{JSRuntime}.
Import ExcelService.

Lemma matchesFilters_empty row : matchesFilters ∅ row = true.
Proof. reflexivity. Qed.

Lemma filter_all_true {A} (f : A -> bool) (l : list A) :
  (forall x, f x = true) -> filter (fun x => f x = true) l = l.
Proof.
  intros Hf. induction l as [|x r IH]; [reflexivity|].
  rewrite filter_cons, decide_True by apply Hf. now rewrite IH.
Qed.

Lemma getAllSubmissions_all w wb :
  lockBusy w = false -> storeFile w = Some wb ->
  getAllSubmissions ∅ w =
  (Ok (jsSort newestFirst (submissions wb)),
   set_trace (trace w ++ [LockAcquired; StoreRead; LockReleased]) w).
Proof.
  intros Hl Hs. rewrite (getAllSubmissions_run ∅ w wb Hl Hs).
  rewrite filter_all_true by apply matchesFilters_empty. reflexivity.
Qed.

Lemma find_unique_Permutation {A} (p : A -> bool) (l l' : list A) a :
  l ≡ₚ l' -> a ∈ l -> p a = true ->
  (forall x, x ∈ l -> p x = true -> x = a) ->
  List.find p l' = Some a.
Proof.
  intros Hp Ha Hpa Huniq. rewrite Hp in Ha.
  assert (Hu : forall x, x ∈ l' -> p x = true -> x = a).
  { intros x Hx. apply Huniq. now rewrite Hp. }
  clear Hp Huniq. induction l' as [|x r IH]; [now apply elem_of_nil in Ha|].
  simpl. destruct (p x) eqn:Ex.
  - f_equal. apply Hu; [left | exact Ex].
  - apply IH.
    + apply elem_of_cons in Ha as [->|Ha]; [congruence | exact Ha].
    + intros y Hy. apply Hu. now right.
Qed.

(** X3. A submission just added is what [getSubmissionById] returns for
    the id that [addSubmission] gave it, provided no stored row carried
    that id already: the row holds that id, the time of the call as its
    submission date, status 'pending', and the supplied fields, with a
    field that was not supplied left empty. *)
Theorem getSubmissionById_after_add now rnd data w r w1 :
  addSubmission now rnd data w = (Ok r, w1) ->
  existsb (matchesId (newId r)) (liveRows w) = false ->
  exists row w2,
    getSubmissionById (newId r) w1 = (Ok (Some row), w2) /\
    row = rowOfValues (ExcelService.data r) /\
    Row.id row = VStr (newId r) /\
    Row.submissionDate row = VDate (Some now) /\
    Row.status row = VStr "pending" /\
    Row.name row = cellOf (prop data "name") /\
    Row.city row = cellOf (prop data "city").
Proof.
  intros Hadd Hfresh.
  destruct (addSubmission_Ok_inv _ _ _ _ _ _ Hadd) as (Hl & wb & Hs).
  rewrite (addSubmission_run now rnd data w wb Hl Hs) in Hadd.
  injection Hadd as <- <-. cbn [newId ExcelService.data].
  set (id := Helpers.generateSubmissionId now rnd).
  set (row := rowOfValues (submissionData id now data)).
  assert (Hfind : List.find (fun s => strict_eq_str (Row.id s) id)
                    (jsSort newestFirst (submissions wb ++ [row])) = Some row).
  { apply (find_unique_Permutation _ (submissions wb ++ [row])).
    - symmetry. apply jsSort_Permutation.
    - apply elem_of_app. right. left.
    - simpl. apply String.eqb_refl.
    - intros x Hx Hpx. apply elem_of_app in Hx as [Hx|Hx].
      + exfalso. unfold liveRows in Hfresh. rewrite Hs in Hfresh.
        cbn [newId] in Hfresh. fold id in Hfresh.
        assert (Hex : existsb (matchesId id) (submissions wb) = true).
        { apply existsb_exists. exists x. split; [now apply list_elem_of_In | exact Hpx]. }
        congruence.
      + apply elem_of_cons in Hx as [->|Hx]; [reflexivity | now apply elem_of_nil in Hx]. }
  unfold getSubmissionById, bind, ret.
  erewrite getAllSubmissions_all; [|exact Hl|reflexivity]. cbn [submissions].
  rewrite Hfind. exists row. eexists. split; [reflexivity|].
  repeat split; reflexivity.
Qed.

End ListFacts.

Lemma getSubmissionById_after_add_witness :
  exists r w1,
    @ExcelService.addSubmission utcRuntime 1700000000000 sampleRnd
      {[ "name" := VStr "Asha" ]} sampleStore = (Ok r, w1) /\
    existsb (matchesId (ExcelService.newId r)) (liveRows sampleStore) = false /\
    exists row w2,
      @ExcelService.getSubmissionById utcRuntime (ExcelService.newId r) w1
        = (Ok (Some row), w2) /\
      Row.name row = VStr "Asha" /\ Row.city row = VNull.
Proof.
  eexists _, _. split; [reflexivity|]. split; [reflexivity|].
  destruct (@getSubmissionById_after_add utcRuntime 1700000000000 sampleRnd
              {[ "name" := VStr "Asha" ]} sampleStore _ _ eq_refl eq_refl)
    as (row & w2 & Hget & _ & _ & _ & _ & Hname & Hcity).
  exists row, w2. split; [exact Hget|]. split; [exact Hname | exact Hcity].
Defined.

Section ListingFacts.
Context `{JSRuntime}.
Import ExcelService.

Lemma sortInsert_ext_in {A} (cmp cmp' : A -> A -> option Z) x (l : list A) :
  (forall b, b ∈ l -> cmp x b = cmp' x b) ->
  sortInsert cmp x l = sortInsert cmp' x l.
Proof.
  induction l as [|y r IH]; intros Hc; simpl; [reflexivity|].
  rewrite <- (Hc y) by left. rewrite IH by (intros b Hb; apply Hc; now right).
  reflexivity.
Qed.

Lemma jsSort_ext_in {A} (cmp cmp' : A -> A -> option Z) (l : list A) :
  (forall a b, a ∈ l -> b ∈ l -> cmp a b = cmp' a b) ->
  jsSort cmp l = jsSort cmp' l.
Proof.
  unfold jsSort. induction l as [|x r IH]; intros Hc; simpl; [reflexivity|].
  rewrite IH by (intros a b Ha Hb; apply Hc; now right).
  apply sortInsert_ext_in. intros b Hb. apply Hc; [left|].
  right. change (b ∈ jsSort cmp' r) in Hb. now rewrite jsSort_Permutation in Hb.
Qed.

Lemma newestFirst_sorted rows :
  Forall (fun row => is_Some (newDate (Row.submissionDate row))) rows ->
  StronglySorted (fun a b => submittedAt b <= submittedAt a) (jsSort newestFirst rows).
Proof.
  intros Hv.
  rewrite (jsSort_ext_in newestFirst (byKey (fun row => - submittedAt row))).
  - pose proof (jsSort_sorted (fun row => - submittedAt row) rows) as Hs.
    induction Hs as [|x l Hl IH Hx]; constructor; [exact IH|].
    eapply Forall_impl; [exact Hx|]. unfold keyLe. intros y Hy. simpl in Hy. lia.
  - intros a b Ha Hb. rewrite Forall_forall in Hv.
    destruct (Hv a Ha) as [ta Hta]. destruct (Hv b Hb) as [tb Htb].
    unfold newestFirst, byKey, submittedAt. rewrite Hta, Htb. simpl. f_equal. lia.
Qed.

Lemma matchesFilters_state filters v row :
  matchesFilters (<["state" := v]> filters) row = matchesFilters filters row.
Proof.
  unfold matchesFilters, prop. rewrite !lookup_insert_ne by discriminate. reflexivity.
Qed.

(** X5. With the lock free and the store file in place, [getAllSubmissions]
    returns exactly the rows that pass the status and city filters, each
    once, and leaves the store file as it was; when every row carries a
    valid submission date they come newest first. A [state] filter, which
    the list and export handlers pass on, has no effect. *)
Theorem getAllSubmissions_lists_matching (filters : jsobject) w wb :
  lockBusy w = false -> storeFile w = Some wb ->
  exists res w',
    getAllSubmissions filters w = (Ok res, w') /\
    res ≡ₚ filter (fun row => matchesFilters filters row = true) (submissions wb) /\
    storeFile w' = storeFile w /\
    (Forall (fun row => is_Some (newDate (Row.submissionDate row))) (submissions wb) ->
     StronglySorted (fun a b => submittedAt b <= submittedAt a) res) /\
    (forall v, getAllSubmissions (<["state" := v]> filters) w = (Ok res, w')).
Proof.
  intros Hl Hs. eexists _, _. split; [apply (getAllSubmissions_run filters w wb Hl Hs)|].
  split; [apply jsSort_Permutation|]. split; [reflexivity|]. split.
  - intros Hv. apply newestFirst_sorted.
    rewrite Forall_forall in *. intros row Hrow. apply Hv.
    now apply list_elem_of_filter in Hrow as [_ Hrow].
  - intros v. rewrite (getAllSubmissions_run _ w wb Hl Hs). do 3 f_equal.
    apply list_filter_iff. intros row. now rewrite matchesFilters_state.
Qed.

Lemma countStatus_Permutation s l l' : l ≡ₚ l' -> countStatus s l = countStatus s l'.
Proof. intros Hp. unfold countStatus. now rewrite Hp. Qed.

Lemma countStatus_cons s row l :
  countStatus s (row :: l) =
  ((if strict_eq_str (Row.status row) s then 1 else 0) + countStatus s l)%nat.
Proof.
  unfold countStatus. rewrite filter_cons.
  destruct (decide (strict_eq_str (Row.status row) s = true)) as [E|E].
  - now rewrite E.
  - apply not_true_is_false in E. now rewrite E.
Qed.

Lemma countStatus_sum rows :
  (countStatus "pending" rows + countStatus "reviewed" rows +
   countStatus "archived" rows <= length rows)%nat /\
  (Forall knownStatus rows ->
   (countStatus "pending" rows + countStatus "reviewed" rows +
    countStatus "archived" rows = length rows)%nat).
Proof.
  induction rows as [|row rest [IHle IHeq]].
  - split; [|intros _]; reflexivity.
  - rewrite !countStatus_cons. cbn [length].
    assert (Hone : ((if strict_eq_str (Row.status row) "pending" then 1 else 0) +
                    (if strict_eq_str (Row.status row) "reviewed" then 1 else 0) +
                    (if strict_eq_str (Row.status row) "archived" then 1 else 0) <= 1)%nat /\
                   (knownStatus row ->
                    ((if strict_eq_str (Row.status row) "pending" then 1 else 0) +
                     (if strict_eq_str (Row.status row) "reviewed" then 1 else 0) +
                     (if strict_eq_str (Row.status row) "archived" then 1 else 0) = 1)%nat)).
    { unfold knownStatus. destruct (Row.status row) as [| |b|n|s|t]; simpl;
        try (split; [lia | intros [E|[E|E]]; discriminate]).
      destruct (String.eqb s "pending") eqn:E1.
      - apply String.eqb_eq in E1. subst s. simpl. split; [lia | intros _; reflexivity].
      - destruct (String.eqb s "reviewed") eqn:E2.
        + apply String.eqb_eq in E2. subst s. simpl. split; [lia | intros _; reflexivity].
        + destruct (String.eqb s "archived") eqn:E3; simpl; [split; [lia | reflexivity]|].
          split; [lia|]. intros [E|[E|E]]; injection E as ->; discriminate. }
    destruct Hone as [Hle Heq]. split; [lia|].
    intros Hk. apply Forall_cons in Hk as [Hrow Hrest].
    specialize (Heq Hrow). specialize (IHeq Hrest). lia.
Qed.

(** X6. With the lock free and the store file in place, [getStatistics]
    counts every stored row once: [total] is the number of rows, [pending],
    [reviewed] and [archived] are the numbers of rows with that status and
    together never exceed [total], nor does [today]; they add up to
    [total] when every row has one of the three statuses. *)
Theorem getStatistics_counts_rows now w wb :
  lockBusy w = false -> storeFile w = Some wb ->
  exists st w',
    getStatistics now w = (Ok st, w') /\
    stat_total st = length (submissions wb) /\
    stat_pending st = countStatus "pending" (submissions wb) /\
    stat_reviewed st = countStatus "reviewed" (submissions wb) /\
    stat_archived st = countStatus "archived" (submissions wb) /\
    (stat_pending st + stat_reviewed st + stat_archived st <= stat_total st)%nat /\
    (stat_today st <= stat_total st)%nat /\
    (Forall knownStatus (submissions wb) ->
     (stat_pending st + stat_reviewed st + stat_archived st = stat_total st)%nat).
Proof.
  intros Hl Hs. unfold getStatistics, bind, ret.
  rewrite (getAllSubmissions_all w wb Hl Hs).
  eexists _, _. split; [reflexivity|]. cbn [stat_total stat_today stat_pending
    stat_reviewed stat_archived].
  rewrite jsSort_length, !(countStatus_Permutation _ _ _ (jsSort_Permutation _ _)).
  destruct (countStatus_sum (submissions wb)) as [Hle Heq].
  split; [reflexivity|]. split; [reflexivity|]. split; [reflexivity|].
  split; [reflexivity|]. split; [exact Hle|]. split; [|exact Heq].
  rewrite <- (jsSort_length newestFirst (submissions wb)). apply length_filter.
Qed.

End ListingFacts.

Section RangeFacts.
Context `{JSRuntime}.
Import ExcelService.

Lemma bookingsWithin_cons s e d row rows :
  bookingsWithin s e d (row :: rows) =
  ((if countsWithin s e d row then 1 else 0) + bookingsWithin s e d rows)%nat.
Proof.
  unfold bookingsWithin. rewrite filter_cons.
  destruct (decide (countsWithin s e d row = true)) as [E|E].
  - now rewrite E.
  - apply not_true_is_false in E. now rewrite E.
Qed.

Lemma countByDay_lookup s e d rows : forall m,
  countByDay (Some s) (Some e) rows m !! d =
  match bookingsWithin s e d rows with
  | O => m !! d
  | S k => Some (default 0%nat (m !! d) + S k)%nat
  end.
Proof.
  induction rows as [|row rest IH]; intros m; [reflexivity|].
  rewrite bookingsWithin_cons. cbn [countByDay].
  change (Row.getCell row 3) with (Row.bookingDate row).
  change (Row.getCell row 9) with (Row.status row).
  unfold countsWithin, countsOn, dateGe, dateLe.
  destruct (truthy (Row.bookingDate row)); cbn [andb]; [|apply IH].
  destruct (newDate (Row.bookingDate row)) as [t|];
    [|rewrite !andb_false_r; cbn [andb]; apply IH].
  destruct (s <=? t); cbn [andb]; [|rewrite !andb_false_r; apply IH].
  destruct (t <=? e); cbn [andb]; [|rewrite !andb_false_r; apply IH].
  destruct (strict_eq_str (Row.status row) "archived"); cbn [andb negb]; [apply IH|].
  rewrite IH. rewrite !andb_true_r.
  destruct (Z.eqb_spec (utcDay t) d) as [->|Hne].
  - rewrite lookup_insert_eq. cbn [default].
    destruct (bookingsWithin s e d rest); simpl; f_equal; lia.
  - rewrite lookup_insert_ne by exact Hne. reflexivity.
Qed.

Lemma utcDay_bounds t : utcDay t * msPerDay <= t < (utcDay t + 1) * msPerDay.
Proof.
  unfold utcDay, msPerDay.
  pose proof (Z.div_mod t 86400000 ltac:(lia)).
  pose proof (Z.mod_pos_bound t 86400000 ltac:(lia)). lia.
Qed.

Lemma countsWithin_inside s e d row :
  s <= d * msPerDay -> (d + 1) * msPerDay - 1 <= e ->
  countsWithin s e d row = countsOn d row.
Proof.
  intros Hs He. unfold countsWithin. destruct (countsOn d row) eqn:Ec; [|reflexivity].
  unfold countsOn in Ec. destruct (newDate (Row.bookingDate row)) as [t|];
    [|now rewrite andb_false_r in Ec].
  apply andb_prop in Ec as [_ Ed]. apply Z.eqb_eq in Ed. subst d.
  pose proof (utcDay_bounds t). cbn [andb].
  apply andb_true_intro. split; apply Z.leb_le; lia.
Qed.

Lemma countsWithin_outside s e d row :
  (d + 1) * msPerDay <= s \/ e < d * msPerDay ->
  countsWithin s e d row = false.
Proof.
  intros Hout. unfold countsWithin. destruct (countsOn d row) eqn:Ec; [|reflexivity].
  unfold countsOn in Ec. destruct (newDate (Row.bookingDate row)) as [t|];
    [|reflexivity].
  apply andb_prop in Ec as [_ Ed]. apply Z.eqb_eq in Ed. subst d.
  pose proof (utcDay_bounds t). cbn [andb].
  apply andb_false_iff. destruct Hout; [left | right]; apply Z.leb_gt; lia.
Qed.

Lemma bookingsWithin_ext s e d rows (f : Row.t -> bool) :
  (forall row, countsWithin s e d row = f row) ->
  bookingsWithin s e d rows = length (filter (fun row => f row = true) rows).
Proof.
  intros Hf. unfold bookingsWithin. f_equal. apply list_filter_iff.
  intros row. now rewrite Hf.
Qed.

(** X7. With the store file in place, [getBookingCountsByDateRange] never
    rejects and changes no file. For a UTC day that lies wholly inside the
    range its count is the number of live bookings of that day, the number
    [getBookingCountForDate] counts; a day wholly outside the range has no
    entry, and no entry is ever zero. *)
Theorem getBookingCountsByDateRange_counts_days (s e : Z) w wb :
  storeFile w = Some wb ->
  exists counts w',
    getBookingCountsByDateRange (Some s) (Some e) w = (Ok counts, w') /\
    storeFile w' = storeFile w /\ backups w' = backups w /\
    (forall d, s <= d * msPerDay -> (d + 1) * msPerDay - 1 <= e ->
       default 0%nat (counts !! d) = bookingsOn d (submissions wb)) /\
    (forall d, (d + 1) * msPerDay <= s \/ e < d * msPerDay -> counts !! d = None) /\
    (forall d, counts !! d <> Some 0%nat).
Proof.
  intros Hs. unfold getBookingCountsByDateRange, readFile. unfold_js. rewrite Hs.
  cbn iota beta. eexists _, _. split; [reflexivity|]. cbn [storeFile backups set_trace].
  split; [exact Hs|]. split; [reflexivity|].
  split; [|split].
  - intros d H1 H2. rewrite countByDay_lookup, lookup_empty.
    rewrite (bookingsWithin_ext s e d _ (countsOn d))
      by (intros row; now apply countsWithin_inside).
    fold (bookingsOn d (submissions wb)).
    destruct (bookingsOn d (submissions wb)); reflexivity.
  - intros d Hout. rewrite countByDay_lookup, lookup_empty.
    rewrite (bookingsWithin_ext s e d _ (fun _ => false))
      by (intros row; now apply countsWithin_outside).
    induction (submissions wb) as [|row rest IH]; [reflexivity|].
    rewrite filter_cons, decide_False by discriminate. exact IH.
  - intros d. rewrite countByDay_lookup, lookup_empty.
    destruct (bookingsWithin s e d (submissions wb)); [discriminate|].
    cbn [default]. intros E. injection E as E. lia.
Qed.

Lemma countRows_unreadable d rows :
  Exists unreadableBooking rows -> forall c,
  countRows d rows c = Throw RangeError.
Proof.
  induction 1 as [row rest (Ht & Hs & Hd) | row rest _ IH]; intros c; cbn [countRows];
    change (Row.getCell row 3) with (Row.bookingDate row);
    change (Row.getCell row 9) with (Row.status row).
  - rewrite Ht, Hs. unfold isoDay. rewrite Hd. reflexivity.
  - destruct (_ && _); [|apply IH].
    unfold isoDay. destruct (newDate (Row.bookingDate row)); [apply IH | reflexivity].
Qed.

Lemma getBookingCountForDate_unreadable date w wb :
  storeFile w = Some wb -> Exists unreadableBooking (submissions wb) ->
  exists w', getBookingCountForDate date w = (Throw RangeError, w') /\
             storeFile w' = storeFile w /\ backups w' = backups w.
Proof.
  intros Hs Hbad. unfold getBookingCountForDate, isoDay, readFile. unfold_js.
  destruct (newDate date) as [t|].
  - cbn iota beta. rewrite Hs. cbn iota beta.
    rewrite (countRows_unreadable _ _ Hbad). eexists. split; [reflexivity|].
    cbn [storeFile backups set_trace]. split; [exact Hs | reflexivity].
  - eexists. split; [reflexivity|]. split; reflexivity.
Qed.

(** X8. One live row whose booking date is no date stops every
    availability check: with such a row in the store, [isDateAvailable]
    rejects with a [RangeError] whatever date it is asked about, and
    changes no file. *)
Theorem isDateAvailable_rejects_on_unreadable_row date w wb :
  storeFile w = Some wb -> Exists unreadableBooking (submissions wb) ->
  exists w', isDateAvailable date w = (Throw RangeError, w') /\
             storeFile w' = storeFile w /\ backups w' = backups w.
Proof.
  intros Hs Hbad.
  destruct (getBookingCountForDate_unreadable date w wb Hs Hbad) as (w' & E & Hw).
  exists w'. split; [|exact Hw]. unfold isDateAvailable, bind. now rewrite E.
Qed.

Lemma setHours0_localDay t : setHours0 t = localDay t * msPerDay - tzOffset.
Proof. reflexivity. Qed.

Lemma setHours0_ltb a b : (setHours0 a <? setHours0 b) = (localDay a <? localDay b).
Proof.
  rewrite !setHours0_localDay. unfold msPerDay.
  destruct (Z.ltb_spec (localDay a) (localDay b));
    [apply Z.ltb_lt | apply Z.ltb_ge]; lia.
Qed.

End RangeFacts.

Section ControllerFacts.
Context `{JSRuntime}.
Import ExcelService SubmissionController.

(** X9. A request whose booking date falls on a local day before today is
    answered 400 with the past-date verdict, and nothing happens besides:
    no backup is taken, no file is read or written, nothing is logged. *)
Theorem createSubmission_rejects_past_date now rnd req w t :
  truthy (prop (body req) "bookingDate") = true ->
  newDate (prop (body req) "bookingDate") = Some t ->
  localDay t < localDay now ->
  createSubmission now rnd req w = (BadRequest PastDate, w).
Proof.
  intros Ht Hd Hlt. unfold createSubmission, validateBookingDate. rewrite Ht, Hd.
  cbn [option_map dateLt]. rewrite setHours0_ltb.
  apply Z.ltb_lt in Hlt. rewrite Hlt. reflexivity.
Qed.

(** X10. While one live row carries a booking date that is no date, no
    request with a booking date of today or later can be served: the
    handler answers 500, takes no backup and leaves the store file as it
    was. *)
Theorem createSubmission_blocked_by_unreadable_row now rnd req w wb t :
  storeFile w = Some wb -> Exists unreadableBooking (submissions wb) ->
  truthy (prop (body req) "bookingDate") = true ->
  newDate (prop (body req) "bookingDate") = Some t ->
  localDay now <= localDay t ->
  exists w', createSubmission now rnd req w = (ServerError, w') /\
             storeFile w' = storeFile w /\ backups w' = backups w.
Proof.
  intros Hs Hbad Ht Hd Hge.
  destruct (getBookingCountForDate_unreadable (prop (body req) "bookingDate") w wb Hs Hbad)
    as (w' & E & Hst & Hbk).
  unfold createSubmission, validateBookingDate. rewrite Ht, Hd.
  cbn [option_map dateLt]. rewrite setHours0_ltb.
  apply Z.ltb_ge in Hge. rewrite Hge.
  unfold isDateAvailable, bind. rewrite E.
  eexists. split; [reflexivity|]. cbn [storeFile backups set_trace]. now split.
Qed.

End ControllerFacts.

Lemma getAllSubmissions_lists_matching_witness :
  lockBusy sampleStore = false /\ storeFile sampleStore = Some sampleBook /\
  exists res w',
    @ExcelService.getAllSubmissions utcRuntime {[ "city" := VStr "Surat" ]} sampleStore
      = (Ok res, w') /\
    res ≡ₚ filter (fun row => ExcelService.matchesFilters
                                {[ "city" := VStr "Surat" ]} row = true)
             (submissions sampleBook).
Proof.
  split; [reflexivity|]. split; [reflexivity|].
  destruct (@getAllSubmissions_lists_matching utcRuntime {[ "city" := VStr "Surat" ]}
              sampleStore sampleBook eq_refl eq_refl)
    as (res & w' & Hget & Hperm & _).
  exists res, w'. split; [exact Hget | exact Hperm].
Defined.

Lemma getStatistics_counts_rows_witness :
  lockBusy sampleStore = false /\ storeFile sampleStore = Some sampleBook /\
  exists st w',
    @ExcelService.getStatistics utcRuntime 1700000000000 sampleStore = (Ok st, w') /\
    ExcelService.stat_total st = length (submissions sampleBook).
Proof.
  split; [reflexivity|]. split; [reflexivity|].
  destruct (@getStatistics_counts_rows utcRuntime 1700000000000 sampleStore sampleBook
              eq_refl eq_refl) as (st & w' & Hget & Htotal & _).
  exists st, w'. split; [exact Hget | exact Htotal].
Defined.

Lemma getBookingCountsByDateRange_counts_days_witness :
  storeFile sampleStore = Some sampleBook /\
  exists counts w',
    @ExcelService.getBookingCountsByDateRange utcRuntime
      (Some 1894665600000) (Some 1897257600000) sampleStore = (Ok counts, w') /\
    default 0%nat (counts !! 21929) = @bookingsOn utcRuntime 21929 (submissions sampleBook).
Proof.
  split; [reflexivity|].
  destruct (@getBookingCountsByDateRange_counts_days utcRuntime
              1894665600000 1897257600000 sampleStore sampleBook eq_refl)
    as (counts & w' & Hget & _ & _ & Hin & _).
  exists counts, w'. split; [exact Hget|].
  apply Hin; unfold msPerDay; lia.
Defined.

Lemma unreadableBooking_brokenBook :
  Exists (@unreadableBooking utcRuntime) (submissions brokenBook).
Proof.
  apply Exists_cons_tl, Exists_cons_tl, Exists_cons_hd. repeat split.
Defined.

Lemma isDateAvailable_rejects_witness :
  storeFile brokenStore = Some brokenBook /\
  Exists (@unreadableBooking utcRuntime) (submissions brokenBook) /\
  exists w', @ExcelService.isDateAvailable utcRuntime (VStr "2030-01-15") brokenStore
             = (Throw RangeError, w').
Proof.
  split; [reflexivity|]. split; [exact unreadableBooking_brokenBook|].
  destruct (@isDateAvailable_rejects_on_unreadable_row utcRuntime (VStr "2030-01-15")
              brokenStore brokenBook eq_refl unreadableBooking_brokenBook)
    as (w' & Hrej & _).
  exists w'. exact Hrej.
Defined.

Lemma createSubmission_rejects_past_date_witness :
  @localDay utcRuntime 1894665600000 < @localDay utcRuntime 1900000000000 /\
  @SubmissionController.createSubmission utcRuntime 1900000000000 sampleRnd
    sampleRequest sampleStore
  = (SubmissionController.BadRequest ExcelService.PastDate, sampleStore).
Proof.
  split; [reflexivity|].
  exact (@createSubmission_rejects_past_date utcRuntime 1900000000000 sampleRnd
           sampleRequest sampleStore 1894665600000 eq_refl eq_refl eq_refl).
Defined.

Lemma createSubmission_blocked_witness :
  @localDay utcRuntime 1700000000000 <= @localDay utcRuntime 1894665600000 /\
  exists w', @SubmissionController.createSubmission utcRuntime 1700000000000 sampleRnd
               sampleRequest brokenStore = (SubmissionController.ServerError, w') /\
             storeFile w' = storeFile brokenStore /\ backups w' = backups brokenStore.
Proof.
  assert (Hle : @localDay utcRuntime 1700000000000 <= @localDay utcRuntime 1894665600000)
    by (vm_compute; discriminate).
  split; [exact Hle|].
  exact (@createSubmission_blocked_by_unreadable_row utcRuntime 1700000000000 sampleRnd
           sampleRequest brokenStore brokenBook 1894665600000 eq_refl
           unreadableBooking_brokenBook eq_refl eq_refl Hle).
Defined.

Section SearchFacts.
Context `{JSRuntime}.
Import ExcelService.

Lemma prefix_refl s : String.prefix s s = true.
Proof.
  induction s as [|c r IH]; [reflexivity|]. simpl.
  destruct (Ascii.ascii_dec c c); [exact IH | contradiction].
Qed.

Lemma includes_refl s : includes s s = true.
Proof.
  destruct s as [|c r]; [reflexivity|]. cbn [includes].
  rewrite prefix_refl. reflexivity.
Qed.

Lemma optIncludes_throw lower v q e : optIncludes lower v q = Throw e -> e = TypeError.
Proof. destruct v; simpl; congruence. Qed.

Lemma optIncludes_text lower v q :
  textOrEmpty v -> exists b, optIncludes lower v q = Ok b.
Proof. destruct v; simpl; intros Ht; try contradiction; eexists; reflexivity. Qed.

Lemma orR_throw a b e : orR a b = Throw e -> a = Throw e \/ b = Throw e.
Proof. destruct a as [[|]|]; simpl; intros E; try discriminate; auto. Qed.

Lemma orR_Ok a b x y : a = Ok x -> b = Ok y -> orR a b = Ok (x || y).
Proof. intros -> ->. destruct x; reflexivity. Qed.

Lemma filterR_resolves {A} (p : A -> result bool) (l : list A) :
  Forall (fun x => exists b, p x = Ok b) l ->
  exists l', filterR p l = Ok l' /\ l' `sublist_of` l /\
             forall x, x ∈ l -> p x = Ok true -> x ∈ l'.
Proof.
  induction 1 as [|x r [b Hb] _ (r' & Hr & Hsub & Hin)].
  - exists []. split; [reflexivity|]. split; [constructor|]. intros x Hx. inversion Hx.
  - cbn [filterR]. rewrite Hb, Hr. eexists. split; [reflexivity|]. split.
    + destruct b; [now apply sublist_skip | now apply sublist_cons].
    + intros y Hy Hp. apply elem_of_cons in Hy as [->|Hy].
      * rewrite Hb in Hp. injection Hp as ->. left.
      * destruct b; [right|]; now apply Hin.
Qed.

Lemma filterR_rejects {A} (p : A -> result bool) (l : list A) e :
  (forall x e', p x = Throw e' -> e' = e) ->
  Exists (fun x => p x = Throw e) l -> filterR p l = Throw e.
Proof.
  intros Honly. induction 1 as [x r Hx | x r _ IH]; cbn [filterR].
  - now rewrite Hx.
  - destruct (p x) as [b|e'] eqn:E; [now rewrite IH|].
    now rewrite (Honly x e' E).
Qed.

(** The test [searchSubmissions] applies to one row. *)
Lemma searchTest_throw query row e :
  orR (optIncludes true (Row.name row) (toLowerCase query))
   (orR (optIncludes false (Row.upiNumber row) query)
   (orR (optIncludes false (Row.whatsappNumber row) query)
   (orR (optIncludes true (Row.ayambilShalaName row) (toLowerCase query))
   (orR (optIncludes true (Row.city row) (toLowerCase query))
        (optIncludes true (Row.id row) (toLowerCase query)))))) = Throw e ->
  e = TypeError.
Proof.
  intros E. repeat (apply orR_throw in E as [E|E]; [now apply optIncludes_throw in E|]).
  now apply optIncludes_throw in E.
Qed.

(** X11. With the lock free, the store file in place and text (or nothing)
    in every searched cell, [searchSubmissions] resolves to rows of the
    full listing in the listing's order, and changes no file. A query that
    equals a row's id up to letter case finds that row. *)
Theorem searchSubmissions_finds_by_id query w wb :
  lockBusy w = false -> storeFile w = Some wb ->
  Forall searchable (submissions wb) ->
  exists res w',
    searchSubmissions query w = (Ok res, w') /\
    res `sublist_of` jsSort newestFirst (submissions wb) /\
    storeFile w' = storeFile w /\
    forall row i, row ∈ submissions wb -> Row.id row = VStr i ->
                  toLowerCase i = toLowerCase query -> row ∈ res.
Proof.
  intros Hl Hs Htext. unfold searchSubmissions, bind.
  rewrite (getAllSubmissions_all w wb Hl Hs).
  match goal with |- context [filterR ?p ?l] =>
    destruct (filterR_resolves p l) as (res & Hres & Hsub & Hin) end.
  { rewrite Forall_forall in *. intros row Hrow.
    rewrite jsSort_Permutation in Hrow.
    destruct (Htext row Hrow) as (H1 & H2 & H3 & H4 & H5 & H6).
    destruct (optIncludes_text true _ (toLowerCase query) H1) as [b1 E1].
    destruct (optIncludes_text false _ query H2) as [b2 E2].
    destruct (optIncludes_text false _ query H3) as [b3 E3].
    destruct (optIncludes_text true _ (toLowerCase query) H4) as [b4 E4].
    destruct (optIncludes_text true _ (toLowerCase query) H5) as [b5 E5].
    destruct (optIncludes_text true _ (toLowerCase query) H6) as [b6 E6].
    eexists. repeat (eapply orR_Ok; [eassumption|]). exact E6. }
  unfold liftR. rewrite Hres. eexists _, _. split; [reflexivity|].
  split; [exact Hsub|]. split; [reflexivity|].
  intros row i Hrow Hid Hq. apply Hin; [now rewrite jsSort_Permutation|].
  rewrite Forall_forall in Htext.
  destruct (Htext row Hrow) as (H1 & H2 & H3 & H4 & H5 & _).
  destruct (optIncludes_text true _ (toLowerCase query) H1) as [b1 E1].
  destruct (optIncludes_text false _ query H2) as [b2 E2].
  destruct (optIncludes_text false _ query H3) as [b3 E3].
  destruct (optIncludes_text true _ (toLowerCase query) H4) as [b4 E4].
  destruct (optIncludes_text true _ (toLowerCase query) H5) as [b5 E5].
  assert (E6 : optIncludes true (Row.id row) (toLowerCase query) = Ok true).
  { rewrite Hid. cbn [optIncludes]. rewrite Hq, includes_refl. reflexivity. }
  rewrite (orR_Ok _ _ b1 (b2 || (b3 || (b4 || (b5 || true)))) E1).
  - now rewrite !orb_true_r.
  - repeat (eapply orR_Ok; [eassumption|]). exact E6.
Qed.

(** X12. A name cell that holds anything but text or nothing, a number or
    a date say, makes every search reject with a [TypeError], whatever the
    query; no file is changed. *)
Theorem searchSubmissions_rejects_on_non_text_name query w wb row :
  lockBusy w = false -> storeFile w = Some wb ->
  row ∈ submissions wb -> ~ textOrEmpty (Row.name row) ->
  exists w', searchSubmissions query w = (Throw TypeError, w') /\
             storeFile w' = storeFile w.
Proof.
  intros Hl Hs Hrow Hname. unfold searchSubmissions, bind.
  rewrite (getAllSubmissions_all w wb Hl Hs). unfold liftR.
  rewrite (filterR_rejects _ _ TypeError).
  - eexists. split; reflexivity.
  - intros x e. apply searchTest_throw.
  - apply Exists_exists. exists row. split; [now rewrite jsSort_Permutation|].
    destruct (Row.name row); simpl in Hname |- *; try reflexivity; now destruct Hname.
Qed.

End SearchFacts.

Lemma searchSubmissions_finds_by_id_witness :
  lockBusy sampleStore = false /\ storeFile sampleStore = Some sampleBook /\
  Forall searchable (submissions sampleBook) /\
  exists res w',
    @ExcelService.searchSubmissions utcRuntime "vrt-1650000000000-0000aaaa" sampleStore
      = (Ok res, w') /\
    sampleRow "VRT-1650000000000-0000AAAA" "Surat" 1650000000000 1894665600000 ∈ res.
Proof.
  assert (Htext : Forall searchable (submissions sampleBook))
    by (repeat constructor).
  split; [reflexivity|]. split; [reflexivity|]. split; [exact Htext|].
  destruct (@searchSubmissions_finds_by_id utcRuntime "vrt-1650000000000-0000aaaa"
              sampleStore sampleBook eq_refl eq_refl Htext)
    as (res & w' & Hrun & _ & _ & Hfound).
  exists res, w'. split; [exact Hrun|].
  apply (Hfound _ "VRT-1650000000000-0000AAAA"); [left | reflexivity | reflexivity].
Defined.

Lemma searchSubmissions_rejects_witness :
  lockBusy numberNameStore = false /\
  numberNameRow ∈ [numberNameRow] /\ ~ textOrEmpty (Row.name numberNameRow) /\
  exists w', @ExcelService.searchSubmissions utcRuntime "Asha" numberNameStore
             = (Throw TypeError, w').
Proof.
  assert (Hin : numberNameRow ∈ [numberNameRow]) by left.
  assert (Hname : ~ textOrEmpty (Row.name numberNameRow)) by (intros []).
  split; [reflexivity|]. split; [exact Hin|]. split; [exact Hname|].
  destruct (@searchSubmissions_rejects_on_non_text_name utcRuntime "Asha"
              numberNameStore _ numberNameRow eq_refl eq_refl Hin Hname)
    as (w' & Hrej & _).
  exists w'. exact Hrej.
Defined.

Section BackupListing.
Import BackupService.

Lemma listBackups_run w :
  faults w = noFaults ->
  listBackups w =
  (Ok (jsSort (fun a b => Some (created b - created a))
         (infoOf (backups w) <$> backupNames (backups w))), w).
Proof.
  intros Hf. unfold listBackups, tryCatch. unfold bind at 1. unfold readdir.
  rewrite Hf. simpl readdirFails. cbv iota.
  change (filter _ (map_to_list (backups w)).*1) with (backupNames (backups w)).
  unfold bind. rewrite statAll_ok.
  - unfold ret. rewrite <- list_fmap_compose. reflexivity.
  - now rewrite Hf.
  - intros f Hin. apply elem_of_backupNames in Hin as [_ Hin]. exact Hin.
Qed.

Lemma statAll_frame names : forall w r w', statAll names w = (r, w') -> w' = w.
Proof.
  induction names as [|f rest IH]; intros w r w'; cbn [statAll].
  - unfold ret. now intros [= _ <-].
  - unfold bind, stat.
    destruct (decide (f ∈ statFails (faults w))); [now intros [= _ <-]|].
    destruct (backups w !! f); [|now intros [= _ <-]].
    destruct (statAll rest w) as [[l|e] w1] eqn:E; apply IH in E; subst w1.
    + unfold ret. now intros [= _ <-].
    + now intros [= _ <-].
Qed.

Lemma newestFirst_backups (l : list backupInfo) :
  StronglySorted (fun a b => created b <= created a)
    (jsSort (fun a b => Some (created b - created a)) l).
Proof.
  rewrite (jsSort_ext_in _ (byKey (fun x => - created x))).
  - pose proof (jsSort_sorted (fun x => - created x) l) as Hs.
    induction Hs as [|x r Hr IH Hx]; constructor; [exact IH|].
    eapply Forall_impl; [exact Hx|]. unfold keyLe. intros y Hy. simpl in Hy. lia.
  - intros a b _ _. unfold byKey. f_equal. lia.
Qed.

Lemma listBackups_outcome w :
  exists l w', listBackups w = (Ok l, w') /\
    (listingFails w ->
       l = [] /\
       w' = set_trace (trace w ++ [ConsoleError "Error listing backups:"]) w) /\
    (~ listingFails w ->
       l = jsSort (fun a b => Some (created b - created a))
             (infoOf (backups w) <$> backupNames (backups w)) /\
       w' = w).
Proof.
  unfold listBackups, tryCatch, listingFails. unfold bind at 1. unfold readdir.
  destruct (readdirFails (faults w)) eqn:Hr.
  { unfold_js. eexists _, _. split; [reflexivity|]. split.
    - intros _. now split.
    - intros Hno. exfalso. apply Hno. now left. }
  change (filter _ (map_to_list (backups w)).*1) with (backupNames (backups w)).
  unfold bind.
  destruct (decide (Exists (fun f => f ∈ statFails (faults w)) (backupNames (backups w))))
    as [Hstat|Hstat].
  - destruct (statAll_fails _ w Hstat (backupNames_present _)) as [e He].
    rewrite He. unfold_js. eexists _, _. split; [reflexivity|]. split.
    + intros _. now split.
    + intros Hno. exfalso. apply Hno. now right.
  - assert (Hall := Hstat). apply not_Exists_Forall in Hall; [|intros x; apply _].
    rewrite (statAll_succeeds _ w Hall (backupNames_present _)).
    unfold ret. rewrite <- list_fmap_compose. eexists _, _. split; [reflexivity|]. split.
    + intros [Hf|Hf]; [discriminate | contradiction].
    + intros _. now split.
Qed.

(** X13. [listBackups] never rejects and changes no file. Exactly when
    one of its calls fails, reading the directory or the status of a
    backup file, it resolves to the empty list and has logged the
    failure. When none fails it logs nothing and lists each backup file
    of the directory once, with its modification time, newest first, and
    lists no other file. *)
Theorem listBackups_lists_backup_files w :
  exists l w', listBackups w = (Ok l, w') /\
    storeFile w' = storeFile w /\ backups w' = backups w /\
    (listingFails w ->
       l = [] /\ trace w' = trace w ++ [ConsoleError "Error listing backups:"]) /\
    (~ listingFails w ->
       w' = w /\
       bname <$> l ≡ₚ backupNames (backups w) /\
       StronglySorted (fun a b => created b <= created a) l /\
       (forall b, b ∈ l -> exists f, backups w !! bname b = Some f /\
                                     created b = mtime f /\
                                     isBackupName (bname b) = true)).
Proof.
  destruct (listBackups_outcome w) as (l & w' & Hrun & Hfail & Hok).
  exists l, w'. split; [exact Hrun|].
  destruct (decide (listingFails w)) as [Hf|Hf].
  - destruct (Hfail Hf) as [-> ->]. split; [reflexivity|]. split; [reflexivity|].
    split; [intros _; now split | intros Hno; contradiction].
  - destruct (Hok Hf) as [-> ->]. split; [reflexivity|]. split; [reflexivity|].
    split; [intros Hyes; contradiction|]. intros _. split; [reflexivity|].
    split; [|split].
    + rewrite jsSort_Permutation, <- list_fmap_compose.
      rewrite (list_fmap_ext _ id _); [now rewrite list_fmap_id|]. reflexivity.
    + apply newestFirst_backups.
    + intros b Hb. rewrite jsSort_Permutation in Hb.
      apply list_elem_of_fmap in Hb as (n & -> & Hn).
      apply elem_of_backupNames in Hn as [Hname [f Hfile]].
      exists f. unfold infoOf. cbn [bname created]. rewrite Hfile. auto.
Qed.

(** X14. On a host without failures [getLastBackupTime] resolves to
    [null] exactly when the directory holds no backup file, and otherwise
    to the modification time of one of the backup files that none of the
    others exceeds. *)
Theorem getLastBackupTime_is_latest w :
  faults w = noFaults ->
  exists last, getLastBackupTime w = (Ok last, w) /\
    match last with
    | None => backupNames (backups w) = []
    | Some t =>
        (exists name f, backups w !! name = Some f /\ isBackupName name = true /\
                        mtime f = t) /\
        (forall name f, backups w !! name = Some f -> isBackupName name = true ->
                        mtime f <= t)
    end.
Proof.
  intros Hf. unfold getLastBackupTime, tryCatch, bind. rewrite (listBackups_run w Hf).
  set (l := jsSort _ _).
  assert (Hperm : l ≡ₚ infoOf (backups w) <$> backupNames (backups w))
    by apply jsSort_Permutation.
  pose proof (newestFirst_backups (infoOf (backups w) <$> backupNames (backups w)))
    as Hsorted. fold l in Hsorted.
  unfold ret. eexists. split; [reflexivity|].
  destruct l as [|b rest].
  - symmetry in Hperm. apply Permutation_nil_r in Hperm.
    now apply fmap_nil_inv in Hperm.
  - assert (Hb : b ∈ infoOf (backups w) <$> backupNames (backups w))
      by (rewrite <- Hperm; left).
    apply list_elem_of_fmap in Hb as (n & -> & Hn).
    apply elem_of_backupNames in Hn as [Hname [f Hfile]]. split.
    + exists n, f. unfold infoOf. cbn [created]. rewrite Hfile. auto.
    + intros name g Hg Hgn.
      assert (Hin : infoOf (backups w) name ∈ infoOf (backups w) n :: rest).
      { rewrite Hperm. apply list_elem_of_fmap. exists name. split; [reflexivity|].
        apply elem_of_backupNames. eauto. }
      apply StronglySorted_inv in Hsorted as [_ Hall].
      apply elem_of_cons in Hin as [Heq|Hin].
      * rewrite <- Heq. unfold infoOf. cbn [created]. rewrite Hg. lia.
      * rewrite Forall_forall in Hall. specialize (Hall _ Hin).
        unfold infoOf in Hall at 1. cbn [created] in Hall. now rewrite Hg in Hall.
Qed.

End BackupListing.

Section RestoreFacts.
Import BackupService.

Lemma filesToDelete_older dir old kept :
  old ∈ fname <$> filesToDelete dir -> kept ∈ backupNames dir ->
  kept ∉ fname <$> filesToDelete dir ->
  fmtime (statOf dir old) <= fmtime (statOf dir kept).
Proof.
  intros Hd Hkept Hk. unfold filesToDelete in *.
  set (sorted := jsSort (byKey fmtime) (statOf dir <$> backupNames dir)) in *.
  set (k := (length sorted - ExcelConfig.maxBackups)%nat) in *.
  assert (Hin : forall s, s ∈ sorted -> s = statOf dir (fname s)).
  { intros s Hs. unfold sorted in Hs. rewrite jsSort_Permutation in Hs.
    apply list_elem_of_fmap in Hs as (n & -> & _). reflexivity. }
  apply list_elem_of_fmap in Hd as (so & -> & Hso).
  assert (Hks : kept ∈ fname <$> sorted) by (unfold sorted; now rewrite sorted_names).
  apply list_elem_of_fmap in Hks as (sk & -> & Hsk).
  assert (Hdrop : sk ∈ drop k sorted).
  { rewrite <- (take_drop k sorted) in Hsk.
    apply elem_of_app in Hsk as [Ht|Hd]; [|exact Hd].
    exfalso. apply Hk, list_elem_of_fmap. eauto. }
  pose proof (sorted_take_drop fmtime sorted k so sk (jsSort_sorted _ _) Hso Hdrop) as Hle.
  rewrite <- (Hin sk Hsk), <- (Hin so); [exact Hle|].
  eapply sublist_subseteq; [apply sublist_take | exact Hso].
Qed.

Lemma filesToDelete_spares_newest (dir : gmap string backupFile) n f :
  dir !! n = Some f -> isBackupName n = true ->
  (forall m g, m <> n -> dir !! m = Some g -> isBackupName m = true ->
               mtime g < mtime f) ->
  n ∉ fname <$> filesToDelete dir.
Proof.
  intros Hn Hname Hnewest Hdel.
  set (del := fname <$> filesToDelete dir) in *.
  assert (Hnb : n ∈ backupNames dir) by (apply elem_of_backupNames; eauto).
  destruct (decide (Forall (fun x => x ∈ del) (backupNames dir))) as [Hall|Hnot].
  - rewrite Forall_forall in Hall.
    pose proof (submseteq_length _ _
      (NoDup_submseteq _ _ (NoDup_backupNames dir) Hall)) as Hlen.
    unfold del in Hlen. rewrite length_fmap, filesToDelete_length in Hlen.
    unfold backupCount in Hlen.
    destruct (backupNames dir); [inversion Hnb|].
    unfold ExcelConfig.maxBackups in Hlen. simpl in Hlen. lia.
  - apply not_Forall_Exists in Hnot; [|intros x; apply _].
    apply Exists_exists in Hnot as (kept & Hkept & Hspared). simpl in Hspared.
    pose proof (filesToDelete_older dir n kept Hdel Hkept Hspared) as Hle.
    apply elem_of_backupNames in Hkept as [Hkn [g Hg]].
    unfold statOf in Hle. cbn [fmtime] in Hle. rewrite Hn, Hg in Hle.
    assert (kept <> n) by (intros ->; contradiction).
    specialize (Hnewest kept g ltac:(assumption) Hg Hkn). lia.
Qed.

Lemma createBackup_keeps now w wb :
  faults w = noFaults -> storeFile w = Some wb ->
  backupsOlderThan now (backups w) ->
  exists w',
    createBackup now w =
      (Ok (Some (path_join ExcelConfig.backupDir (backupFileName now))), w') /\
    backups w' !! backupFileName now = Some {| mtime := now; content := wb |} /\
    storeFile w' = Some wb /\ faults w' = faults w.
Proof.
  intros Hf Hs Hold. rewrite (createBackup_run now w wb Hs).
  eexists. split; [reflexivity|].
  set (new := {| mtime := now; content := wb |}).
  set (w1 := set_backups _ w).
  assert (Hf1 : faults w1 = noFaults) by exact Hf.
  rewrite (cleanOldBackups_run w1 Hf1).
  destruct (_ <=? _)%nat; cbn [snd backups storeFile faults set_backups w1].
  - rewrite lookup_insert_eq. auto.
  - rewrite lookup_withoutFiles.
    destruct (decide _) as [Hdel|_]; [|rewrite lookup_insert_eq; auto].
    exfalso. revert Hdel. apply (filesToDelete_spares_newest _ _ new).
    + apply lookup_insert_eq.
    + apply isBackupName_backupFileName.
    + intros m g Hm Hg Hmn. rewrite lookup_insert_ne in Hg by congruence.
      exact (Hold m g Hg Hmn).
Qed.

Lemma corruptedFileName_not_backup now : isBackupName (corruptedFileName now) = false.
Proof. reflexivity. Qed.

Lemma backupFileName_not_corrupted now later :
  backupFileName now <> corruptedFileName later.
Proof.
  intros E. apply (f_equal isBackupName) in E.
  rewrite isBackupName_backupFileName, corruptedFileName_not_backup in E. discriminate.
Qed.

Lemma restoreFromBackup_run now name w b :
  backups w !! name = Some b -> name <> corruptedFileName now ->
  exists w', restoreFromBackup now name w = (Restored name, w') /\
    storeFile w' = Some (content b) /\
    backups w' =
      match storeFile w with
      | Some wb => <[corruptedFileName now := {| mtime := now; content := wb |}]> (backups w)
      | None => backups w
      end /\
    trace w' = trace w ++ [StoreWritten] /\ archives w' = archives w.
Proof.
  intros Hb Hne. unfold restoreFromBackup, copyToBackup. unfold_js. rewrite Hb.
  destruct (storeFile w) as [wb|]; cbn [fst snd backups set_backups].
  - rewrite lookup_insert_ne by congruence. rewrite Hb.
    eexists. split; [reflexivity|]. repeat split.
  - rewrite Hb. eexists. split; [reflexivity|]. repeat split.
Qed.

(** X15. For a plain file name, one that [path.join] leaves as a single
    segment below the backup directory: [restoreFromBackup] of a file
    that is in the backup directory (and is not the snapshot about to be
    written) makes the store file a copy of it. The store file it
    replaces, if there is one, is first kept as [corrupted_<now>.xlsx] in
    the backup directory, a name that pruning and [listBackups] pass
    over. The store is written without the lock being taken. When no
    file of that name is in the directory the call rejects with [ENOENT]
    as its cause, and nothing but the console changes. *)
Theorem restoreFromBackup_restores now name w :
  plainName name = true ->
  (backups w !! name = None ->
   restoreFromBackup now name w =
   (RestoreFailed (ENOENT (path_join ExcelConfig.backupDir name)),
    set_trace (trace w ++ [ConsoleError "Restore failed:"]) w)) /\
  (forall b, backups w !! name = Some b -> name <> corruptedFileName now ->
   exists w', restoreFromBackup now name w = (Restored name, w') /\
     storeFile w' = Some (content b) /\
     backups w' =
       match storeFile w with
       | Some wb => <[corruptedFileName now := {| mtime := now; content := wb |}]> (backups w)
       | None => backups w
       end /\
     isBackupName (corruptedFileName now) = false /\
     trace w' = trace w ++ [StoreWritten]).
Proof.
  intros _. split.
  - intros Hnone. unfold restoreFromBackup. unfold_js. now rewrite Hnone.
  - intros b Hb Hne.
    destruct (restoreFromBackup_run now name w b Hb Hne) as (w' & E & H1 & H2 & H3 & _).
    exists w'. repeat split; assumption || apply corruptedFileName_not_backup.
Qed.

(** X16. On a host without failures, with every backup file older than
    the clock, [createBackup] leaves its new backup in the directory, a
    copy of the store file; and whatever becomes of the store file
    afterwards, [restoreFromBackup] of that backup brings the store file
    back to what it was when the backup was taken. *)
Theorem backup_then_restore_round_trip now later w wb (changed : option workbook) :
  faults w = noFaults -> storeFile w = Some wb ->
  backupsOlderThan now (backups w) ->
  exists path w1 w2,
    createBackup now w = (Ok (Some path), w1) /\
    backups w1 !! backupFileName now = Some {| mtime := now; content := wb |} /\
    restoreFromBackup later (backupFileName now) (set_storeFile changed w1)
      = (Restored (backupFileName now), w2) /\
    storeFile w2 = Some wb.
Proof.
  intros Hf Hs Hold.
  destruct (createBackup_keeps now w wb Hf Hs Hold) as (w1 & Hrun & Hkept & _).
  destruct (restoreFromBackup_run later (backupFileName now) (set_storeFile changed w1)
              {| mtime := now; content := wb |} Hkept
              (backupFileName_not_corrupted now later))
    as (w2 & Hres & Hstore & _).
  eexists _, w1, w2. split; [exact Hrun|]. split; [exact Hkept|].
  split; [exact Hres | exact Hstore].
Qed.

End RestoreFacts.

Lemma listBackups_lists_backup_files_witness :
  (~ listingFails crowdedWorld /\
   exists l, BackupService.listBackups crowdedWorld = (Ok l, crowdedWorld) /\
             BackupService.bname <$> l ≡ₚ backupNames (backups crowdedWorld)) /\
  (listingFails unreadableDirectory /\
   exists w', BackupService.listBackups unreadableDirectory = (Ok [], w') /\
              trace w' = [ConsoleError "Error listing backups:"]).
Proof.
  assert (Hno : ~ listingFails crowdedWorld).
  { unfold listingFails. apply (bool_decide_unpack _). vm_compute. exact I. }
  assert (Hyes : listingFails unreadableDirectory).
  { unfold listingFails. apply (bool_decide_unpack _). vm_compute. exact I. }
  split.
  - split; [exact Hno|].
    destruct (listBackups_lists_backup_files crowdedWorld)
      as (l & w' & Hrun & _ & _ & _ & Hok).
    destruct (Hok Hno) as (-> & Hperm & _).
    exists l. split; [exact Hrun | exact Hperm].
  - split; [exact Hyes|].
    destruct (listBackups_lists_backup_files unreadableDirectory)
      as (l & w' & Hrun & _ & _ & Hfail & _).
    destruct (Hfail Hyes) as (-> & Hlog).
    exists w'. split; [exact Hrun | exact Hlog].
Defined.

Lemma getLastBackupTime_is_latest_witness :
  faults crowdedWorld = noFaults /\
  exists last, BackupService.getLastBackupTime crowdedWorld = (Ok last, crowdedWorld).
Proof.
  split; [reflexivity|].
  destruct (getLastBackupTime_is_latest crowdedWorld eq_refl) as (last & Hrun & _).
  exists last. exact Hrun.
Defined.

Lemma restoreFromBackup_restores_witness :
  plainName (BackupService.backupFileName 1700000001000) = true /\
  plainName "submissions_backup_1600000000.xlsx" = true /\
  backups restorableWorld !! "submissions_backup_1600000000.xlsx" = None /\
  backups restorableWorld !! BackupService.backupFileName 1700000001000
    = Some {| mtime := 1700000001000; content := freshWorkbook |} /\
  BackupService.backupFileName 1700000001000
    <> BackupService.corruptedFileName 1700000050000 /\
  (exists cause w',
     BackupService.restoreFromBackup 1700000050000
       "submissions_backup_1600000000.xlsx" restorableWorld
     = (BackupService.RestoreFailed cause, w') /\
     storeFile w' = storeFile restorableWorld) /\
  exists w', BackupService.restoreFromBackup 1700000050000
               (BackupService.backupFileName 1700000001000) restorableWorld
             = (BackupService.Restored (BackupService.backupFileName 1700000001000), w') /\
             storeFile w' = Some freshWorkbook.
Proof.
  assert (Hp : plainName (BackupService.backupFileName 1700000001000) = true)
    by (vm_compute; reflexivity).
  assert (Hq : plainName "submissions_backup_1600000000.xlsx" = true)
    by (vm_compute; reflexivity).
  assert (Hn : backups restorableWorld !! "submissions_backup_1600000000.xlsx" = None)
    by (vm_compute; reflexivity).
  assert (Hb : backups restorableWorld !! BackupService.backupFileName 1700000001000
               = Some {| mtime := 1700000001000; content := freshWorkbook |})
    by (vm_compute; reflexivity).
  assert (Hne : BackupService.backupFileName 1700000001000
                <> BackupService.corruptedFileName 1700000050000)
    by (vm_compute; discriminate).
  split; [exact Hp|]. split; [exact Hq|]. split; [exact Hn|].
  split; [exact Hb|]. split; [exact Hne|]. split.
  - destruct (restoreFromBackup_restores 1700000050000
                "submissions_backup_1600000000.xlsx" restorableWorld Hq) as [Hmissing _].
    eexists _, _. split; [exact (Hmissing Hn) | reflexivity].
  - destruct (restoreFromBackup_restores 1700000050000
                (BackupService.backupFileName 1700000001000) restorableWorld Hp)
      as [_ Hrestore].
    destruct (Hrestore _ Hb Hne) as (w' & Hrun & Hstore & _).
    exists w'. split; [exact Hrun | exact Hstore].
Defined.

Lemma backupsOlderThan_restorableWorld :
  backupsOlderThan 1700000010000 (backups restorableWorld).
Proof.
  assert (Hall : map_Forall (fun _ f => mtime f < 1700000010000) (backups restorableWorld)).
  { apply (bool_decide_unpack _). vm_compute. exact I. }
  intros name f Hf _. exact (Hall name f Hf).
Defined.

Lemma backup_then_restore_witness :
  faults restorableWorld = noFaults /\ storeFile restorableWorld = Some sampleBook /\
  backupsOlderThan 1700000010000 (backups restorableWorld) /\
  exists path w1 w2,
    BackupService.createBackup 1700000010000 restorableWorld = (Ok (Some path), w1) /\
    BackupService.restoreFromBackup 1700000050000
      (BackupService.backupFileName 1700000010000) (set_storeFile None w1)
      = (BackupService.Restored (BackupService.backupFileName 1700000010000), w2) /\
    storeFile w2 = Some sampleBook.
Proof.
  split; [reflexivity|]. split; [reflexivity|].
  split; [exact backupsOlderThan_restorableWorld|].
  destruct (backup_then_restore_round_trip 1700000010000 1700000050000 restorableWorld
              sampleBook None eq_refl eq_refl backupsOlderThan_restorableWorld)
    as (path & w1 & w2 & Hrun & _ & Hres & Hstore).
  exists path, w1, w2. split; [exact Hrun|]. split; [exact Hres | exact Hstore].
Defined.

Section SummaryFacts.
Context `{JSRuntime}.
Import ExcelService.

Lemma findRowToDelete_range id rows : forall k acc r,
  findRowToDelete id k rows acc = Some r ->
  acc = Some r \/ (k <= r < k + length rows)%nat.
Proof.
  induction rows as [|row rest IH]; intros k acc r; cbn [findRowToDelete length].
  - auto.
  - intros E. apply IH in E as [E|E]; [|right; lia].
    destruct (strict_eq_str _ _); [|now left].
    injection E as <-. right. lia.
Qed.

Lemma deleteSubmission_Ok_inv now id w u w' :
  deleteSubmission now id w = (Ok u, w') ->
  exists wb i, storeFile w = Some wb /\ (i < length (submissions wb))%nat /\
    storeFile w' =
      Some {| submissions := delete i (submissions wb);
              summary := touchSummary now (fun t => Z.max 0 (t - 1)) (summary wb) |}.
Proof.
  unfold deleteSubmission. unfold_js.
  destruct (storeFile w) as [wb|] eqn:Hs; [|discriminate].
  destruct (lockBusy w); [discriminate|].
  cbn [storeFile set_trace]. rewrite Hs.
  cbn iota beta.
  destruct (findRowToDelete id 2 (submissions wb) None) as [r|] eqn:Hr; [|discriminate].
  cbn. intros E. injection E as _ <-.
  apply findRowToDelete_range in Hr as [Hr|Hr]; [discriminate|].
  exists wb, (r - 2)%nat. split; [reflexivity|]. split; [lia | reflexivity].
Qed.

Lemma updateSubmission_Ok_inv id updates w r w' :
  updateSubmission id updates w = (Ok r, w') ->
  exists wb, storeFile w = Some wb /\
    storeFile w' = Some {| submissions := updateRow id updates <$> submissions wb;
                           summary := summary wb |}.
Proof.
  unfold updateSubmission. unfold_js.
  destruct (storeFile w) as [wb|] eqn:Hs; [|discriminate].
  destruct (lockBusy w); [discriminate|].
  cbn [storeFile set_trace]. rewrite Hs.
  cbn iota beta. pose proof (updateEachRow_rows id updates (submissions wb) None) as Hrows.
  destruct (updateEachRow id updates (submissions wb) None) as [rows [u|]];
    [|discriminate].
  cbn. intros E. injection E as _ <-.
  exists wb. split; [reflexivity|]. cbn in Hrows |- *. now rewrite Hrows.
Qed.

(** X17. The Summary sheet keeps count of the data rows through every
    write of the submissions service: when its total is the number of
    rows before [addSubmission], [deleteSubmission] or [updateSubmission]
    resolves, it is the number of rows afterwards; and the store that
    [initializeFile] creates starts with it. *)
Theorem summary_total_tracks_rows w :
  summaryCounts w ->
  (forall now rnd data r w', addSubmission now rnd data w = (Ok r, w') -> summaryCounts w') /\
  (forall now id u w', deleteSubmission now id w = (Ok u, w') -> summaryCounts w') /\
  (forall id updates r w', updateSubmission id updates w = (Ok r, w') -> summaryCounts w') /\
  (forall now, summaryCounts (initializeFile now w).2 /\
               is_Some (storeFile (initializeFile now w).2) /\
               (is_Some (storeFile w) -> initializeFile now w = (Ok tt, w))).
Proof.
  intros Hinv. unfold summaryCounts in *. repeat split.
  - intros now rnd data r w' E.
    destruct (addSubmission_Ok_inv _ _ _ _ _ _ E) as (Hl & wb & Hs).
    rewrite (addSubmission_run now rnd data w wb Hl Hs) in E. injection E as _ <-.
    rewrite Hs in Hinv. cbn [storeFile set_trace set_storeFile summary submissions].
    destruct (summary wb) as [sh|]; cbn [touchSummary]; [|exact I].
    cbn [total]. rewrite length_app. cbn [length]. lia.
  - intros now id u w' E.
    apply deleteSubmission_Ok_inv in E as (wb & i & Hs & Hi & Hs').
    rewrite Hs in Hinv. rewrite Hs'. cbn [summary submissions].
    destruct (summary wb) as [sh|]; cbn [touchSummary]; [|exact I].
    cbn [total]. rewrite length_delete by (apply lookup_lt_is_Some; lia). lia.
  - intros id updates r w' E.
    apply updateSubmission_Ok_inv in E as (wb & Hs & Hs').
    rewrite Hs in Hinv. rewrite Hs'. cbn [summary submissions].
    destruct (summary wb) as [sh|]; [|exact I]. now rewrite length_fmap.
  - unfold initializeFile. unfold_js.
    destruct (storeFile w) as [wb|] eqn:Hs; cbn; [now rewrite Hs | reflexivity].
  - unfold initializeFile. unfold_js.
    destruct (storeFile w) as [wb|] eqn:Hs; cbn; [rewrite Hs|]; eauto.
  - intros [wb Hs]. unfold initializeFile. unfold_js. now rewrite Hs.
Qed.

End SummaryFacts.

Section ArchiveConservation.
Context `{JSRuntime}.
Import MonitorService.



End ArchiveConservation.

Lemma summary_total_tracks_rows_witness :
  summaryCounts sampleStore /\
  exists r w',
    @ExcelService.addSubmission utcRuntime 1700000000000 sampleRnd
      {[ "name" := VStr "Asha" ]} sampleStore = (Ok r, w') /\
    summaryCounts w'.
Proof.
  assert (Hinv : summaryCounts sampleStore) by reflexivity.
  split; [exact Hinv|].
  destruct (@summary_total_tracks_rows utcRuntime sampleStore Hinv) as (Hadd & _).
  eexists _, _. split; [reflexivity|]. eapply Hadd. reflexivity.
Defined.


Section InputFacts.
Import InputHelpers.

Lemma trimStart_suffix s : exists pre, s = pre ++ trimStart s.
Proof.
  induction s as [|c r [pre IH]]; [now exists []|]. cbn [trimStart].
  destruct (isWhiteSpace c); [|now exists []].
  exists (c :: pre). cbn [app]. now f_equal.
Qed.

Lemma trimStart_head s :
  (forall c, head s = Some c -> isWhiteSpace c = false) -> trimStart s = s.
Proof.
  destruct s as [|c r]; [reflexivity|]. intros Hc. cbn [trimStart].
  now rewrite (Hc c eq_refl).
Qed.

Lemma head_reverse {A} (l : list A) : head (reverse l) = last l.
Proof.
  induction l as [|x r IH] using rev_ind; [reflexivity|].
  now rewrite reverse_snoc, last_snoc.
Qed.

Lemma trim_sublist s : trim s `sublist_of` s.
Proof.
  unfold trim. destruct (trimStart_suffix s) as [pre Hpre].
  destruct (trimStart_suffix (reverse (trimStart s))) as [post Hpost].
  apply (f_equal reverse) in Hpost. rewrite reverse_involutive, reverse_app in Hpost.
  rewrite Hpre at 2. apply sublist_inserts_l. rewrite Hpost at 2.
  now apply sublist_inserts_r.
Qed.

Lemma trim_tidy s :
  (forall c, head s = Some c -> isWhiteSpace c = false) ->
  (forall c, last s = Some c -> isWhiteSpace c = false) -> trim s = s.
Proof.
  intros Hh Hl. unfold trim. rewrite (trimStart_head s Hh).
  rewrite trimStart_head by (intros c; rewrite head_reverse; apply Hl).
  apply reverse_involutive.
Qed.

Lemma sanitizeInput_tidy s : tidy s -> sanitizeInput (InString s) = InString s.
Proof.
  intros (Hh & Hl & Hangle & Hlen). cbn [sanitizeInput]. rewrite (trim_tidy s Hh Hl).
  f_equal. rewrite take_ge.
  - clear Hh Hl Hlen. induction Hangle as [|c r Hc _ IH]; [reflexivity|].
    rewrite filter_cons, decide_True by exact Hc. now rewrite IH.
  - etransitivity; [apply length_filter | exact Hlen].
Qed.

(** X19. [sanitizeInput] gives back anything but a string as it is. Of a
    string it returns a part, in order, that holds neither [<] nor [>] and
    has at most 1000 code units; a string without white space at its
    ends, without angle brackets and of at most 1000 code units comes
    back unchanged. *)
Theorem sanitizeInput_output (given : input) :
  match given with
  | InOther v => sanitizeInput given = InOther v
  | InString s =>
      exists out, sanitizeInput given = InString out /\
        Forall (fun c => isAngle c = false) out /\
        (length out <= 1000)%nat /\
        out `sublist_of` s /\
        (tidy s -> out = s)
  end.
Proof.
  destruct given as [s|v]; [|reflexivity].
  eexists. split; [reflexivity|]. split; [|split; [|split]].
  - apply Forall_take, Forall_forall. intros c Hc.
    now apply list_elem_of_filter in Hc as [Hc _].
  - rewrite length_take. lia.
  - etransitivity; [apply sublist_take|].
    etransitivity; [apply sublist_filter | apply trim_sublist].
  - intros Ht. pose proof (sanitizeInput_tidy s Ht) as E.
    cbn [sanitizeInput] in E. now injection E.
Qed.

Lemma isDigit_plain c : isDigit c = true -> isWhiteSpace c = false /\ isAngle c = false.
Proof.
  unfold isDigit, isWhiteSpace, isAngle. intros Hd.
  apply andb_prop in Hd as [H1 H2]. apply N.leb_le in H1, H2.
  cbn [existsb]. split.
  - repeat (apply orb_false_intro; [try (apply N.eqb_neq; lia)|]);
      try reflexivity.
    apply andb_false_iff. left. apply N.leb_gt. lia.
  - apply orb_false_intro; apply N.eqb_neq; lia.
Qed.

(** X20. A mobile number that [isValidMobile] accepts has ten code units,
    all of them digits, the first from 6 to 9; and [sanitizeInput], which
    the request pipeline applies after validation, returns it unchanged. *)
Theorem isValidMobile_survives_sanitizeInput (mobile : list N) :
  isValidMobile mobile = true ->
  length mobile = 10%nat /\ Forall (fun c => isDigit c = true) mobile /\
  (exists c, head mobile = Some c /\ (54 <= c <= 57)%N) /\
  sanitizeInput (InString mobile) = InString mobile.
Proof.
  destruct mobile as [|c rest]; [discriminate|]. cbn [isValidMobile].
  intros Hv. apply andb_prop in Hv as [Hv Hdigits].
  apply andb_prop in Hv as [Hv Hlen]. apply andb_prop in Hv as [H1 H2].
  apply N.leb_le in H1, H2. apply Nat.eqb_eq in Hlen.
  assert (Hrest : Forall (fun c => isDigit c = true) rest).
  { apply Forall_forall. intros x Hx.
    apply (proj1 (forallb_forall _ _) Hdigits). now apply list_elem_of_In. }
  assert (Hc : isDigit c = true).
  { unfold isDigit. apply andb_true_intro. split; apply N.leb_le; lia. }
  assert (Hall : Forall (fun c => isDigit c = true) (c :: rest)).
  { constructor; [exact Hc | exact Hrest]. }
  split; [cbn [length]; lia|]. split; [exact Hall|].
  split; [exists c; split; [reflexivity | lia]|].
  apply sanitizeInput_tidy. split; [|split; [|split]].
  - intros x [= <-]. now apply isDigit_plain.
  - intros x Hx. apply last_Some_elem_of in Hx.
    rewrite Forall_forall in Hall. now apply isDigit_plain, Hall.
  - eapply Forall_impl; [exact Hall|]. intros x Hx. now apply isDigit_plain.
  - cbn [length]. lia.
Qed.

End InputFacts.

Section RequestFacts.
Import InputHelpers.

Lemma orElse_nonempty a b : b <> EmptyString -> orElse a b <> EmptyString.
Proof.
  intros Hb. destruct a as [s|]; cbn [orElse]; [|exact Hb].
  destruct (String.eqb_spec s EmptyString); assumption.
Qed.

Lemma firstSegment_no_comma s : includes (firstSegment s) "," = false.
Proof.
  induction s as [|c r IH]; [reflexivity|]. cbn [firstSegment].
  destruct (Ascii.eqb_spec c ","%char) as [->|Hc]; [reflexivity|].
  cbn [includes String.prefix]. rewrite IH.
  destruct (Ascii.ascii_dec "," c) as [E|_]; [now symmetry in E | reflexivity].
Qed.

(** X21. [getClientIp] never returns the empty string. When the
    [x-forwarded-for] header has a non-empty first entry that entry is the
    answer, cut before its first comma; when the header and both remote
    addresses are missing or empty the answer is [unknown]. *)
Theorem getClientIp_never_empty (req : ipSource) :
  getClientIp req <> EmptyString /\
  (forall s, forwardedFor req = Some s -> firstSegment s <> EmptyString ->
     getClientIp req = firstSegment s /\ includes (getClientIp req) "," = false) /\
  (orElse (option_map firstSegment (forwardedFor req)) EmptyString = EmptyString ->
   orElse (connectionAddress req) EmptyString = EmptyString ->
   orElse (socketAddress req) EmptyString = EmptyString ->
   getClientIp req = "unknown").
Proof.
  unfold getClientIp. split; [|split].
  - repeat apply orElse_nonempty. discriminate.
  - intros s Hs Hne. rewrite Hs. cbn [option_map orElse].
    destruct (String.eqb_spec (firstSegment s) EmptyString); [contradiction|].
    split; [reflexivity | apply firstSegment_no_comma].
  - destruct (option_map firstSegment (forwardedFor req)) as [a|],
      (connectionAddress req) as [b|], (socketAddress req) as [c|]; cbn [orElse];
      repeat match goal with
             | |- context [String.eqb ?x EmptyString] =>
                 destruct (String.eqb_spec x EmptyString)
             end; intros; subst; try reflexivity; contradiction.
Qed.

Lemma slice_page {A} (items : list A) (page limit : Z) :
  1 <= page -> 1 <= limit ->
  slice items ((page - 1) * limit) ((page - 1) * limit + limit) =
  take (Z.to_nat limit) (drop (Z.to_nat ((page - 1) * limit)) items).
Proof.
  intros Hp Hl. unfold slice, sliceIndex.
  set (len := Z.of_nat (length items)). set (a := (page - 1) * limit).
  assert (Ha : 0 <= a) by (unfold a; nia).
  destruct (Z.ltb_spec a 0); [lia|]. destruct (Z.ltb_spec (a + limit) 0); [lia|].
  destruct (Z.le_gt_cases len a) as [Hout|Hin].
  - rewrite !drop_ge; [now rewrite !take_nil | lia | lia].
  - rewrite (Z.min_l a len) by lia.
    destruct (Z.le_gt_cases (a + limit) len) as [Hfull|Hpart].
    + rewrite Z.min_l by lia. f_equal. lia.
    + rewrite Z.min_r by lia. rewrite !take_ge; [reflexivity | |];
        rewrite length_drop; lia.
Qed.

Lemma firstPages_take {A} (items : list A) (limit : Z) (n : nat) :
  1 <= limit -> firstPages items limit n = take (n * Z.to_nat limit) items.
Proof.
  intros Hl. unfold firstPages. induction n as [|n IH]; [reflexivity|].
  rewrite seq_S, flat_map_app, IH. cbn [flat_map Nat.add paginate pg_data].
  rewrite app_nil_r, slice_page by lia.
  replace (Z.to_nat ((Z.of_nat (S n) - 1) * limit)) with (n * Z.to_nat limit)%nat by nia.
  rewrite take_take_drop. f_equal. lia.
Qed.

(** X22. For a page size of at least one, [paginate] reports as [pages]
    the least number of pages that hold all items: pages 1 to [pages],
    one after the other, are the list itself. A page from 1 on holds at
    most [limit] items, is empty beyond the last page, and [hasNext] is
    true exactly for the pages before the last. *)
Theorem paginate_pages_cover {A} (items : list A) (limit : Z) :
  1 <= limit ->
  exists n : nat,
    (forall page, pg_pages (pg_pagination (paginate items page limit)) = Some (Z.of_nat n)) /\
    firstPages items limit n = items /\
    (forall m : nat, firstPages items limit m = items -> (n <= m)%nat) /\
    (forall page, 1 <= page ->
       (Z.of_nat (length (pg_data (paginate items page limit))) <= limit) /\
       (Z.of_nat n < page -> pg_data (paginate items page limit) = []) /\
       (pg_hasNext (pg_pagination (paginate items page limit)) = true <->
        page < Z.of_nat n)).
Proof.
  intros Hl. set (len := Z.of_nat (length items)).
  assert (Hceil : 0 <= - (- len / limit) /\
                  (- (- len / limit) - 1) * limit < len <= - (- len / limit) * limit).
  { pose proof (Z.div_mod (- len) limit ltac:(lia)).
    pose proof (Z.mod_pos_bound (- len) limit ltac:(lia)). unfold len in *. nia. }
  destruct Hceil as (Hn0 & Hlow & Hup).
  exists (Z.to_nat (- (- len / limit))).
  rewrite Z2Nat.id by exact Hn0. set (n := - (- len / limit)) in *.
  split; [|split; [|split]].
  - intros page. cbn [paginate pg_pagination pg_pages]. unfold ceilDiv.
    destruct (Z.eqb_spec limit 0); [lia | reflexivity].
  - rewrite firstPages_take by exact Hl. apply take_ge. unfold len in *. nia.
  - intros m Hm. rewrite firstPages_take in Hm by exact Hl.
    apply (f_equal length) in Hm. rewrite length_take in Hm. unfold len in *. nia.
  - intros page Hp. cbn [paginate pg_data pg_pagination pg_hasNext].
    rewrite slice_page by lia. split; [|split].
    + rewrite length_take. lia.
    + intros Hbeyond. rewrite drop_ge; [apply take_nil|]. unfold len in *. nia.
    + rewrite Z.ltb_lt. fold len. split; intros Hlt; nia.
Qed.

End RequestFacts.

Lemma isValidMobile_survives_witness :
  InputHelpers.isValidMobile [57; 56; 55; 54; 53; 52; 51; 50; 49; 48]%N = true /\
  InputHelpers.sanitizeInput
    (InputHelpers.InString [57; 56; 55; 54; 53; 52; 51; 50; 49; 48]%N)
  = InputHelpers.InString [57; 56; 55; 54; 53; 52; 51; 50; 49; 48]%N.
Proof.
  split; [reflexivity|].
  exact (proj2 (proj2 (proj2 (isValidMobile_survives_sanitizeInput
           [57; 56; 55; 54; 53; 52; 51; 50; 49; 48]%N eq_refl)))).
Defined.

Lemma paginate_pages_cover_witness :
  1 <= 2 /\
  exists n : nat,
    InputHelpers.pg_pages
      (InputHelpers.pg_pagination (InputHelpers.paginate [10; 20; 30; 40; 50] 1 2))
      = Some (Z.of_nat n) /\
    firstPages [10; 20; 30; 40; 50] 2 n = [10; 20; 30; 40; 50].
Proof.
  assert (Hl : 1 <= 2) by lia.
  split; [exact Hl|].
  destruct (paginate_pages_cover [10; 20; 30; 40; 50] 2 Hl) as (n & Hpages & Hcover & _).
  exists n. split; [apply Hpages | exact Hcover].
Defined.

Section VerdictFacts.
Context `{JSRuntime}.
Import ExcelService.

Lemma isDateAvailable_at date t w wb :
  newDate date = Some t -> storeFile w = Some wb -> datesValid (submissions wb) ->
  isDateAvailable date w =
  (Ok {| available := (bookingsOn (utcDay t) (submissions wb) <?
                       ExcelConfig.maxBookingsPerDay)%nat;
         count := bookingsOn (utcDay t) (submissions wb);
         maxBookings := ExcelConfig.maxBookingsPerDay;
         remaining := Z.of_nat ExcelConfig.maxBookingsPerDay -
                      Z.of_nat (bookingsOn (utcDay t) (submissions wb)) |},
   set_trace (trace w ++ [StoreRead]) w).
Proof.
  intros Hd Hs Hv. unfold isDateAvailable, getBookingCountForDate, isoDay, readFile.
  unfold_js. rewrite Hd. cbn iota beta. rewrite Hs. cbn iota beta.
  rewrite (countRows_valid _ _ 0%nat Hv). reflexivity.
Qed.

(** X23. With the store file in place and a readable date in every live
    row, [validateBookingDate] of a value that [new Date] reads as a
    date, not within a day of the earliest nor within ninety days of the
    latest time a [Date] can hold, always resolves and changes no file.
    Its verdict is the past-date one exactly when the date's local day is
    before today's; otherwise the date is accepted exactly when its UTC
    day holds fewer live bookings than [maxBookingsPerDay], with what
    remains reported, and when it is refused as full any day suggested in
    its place has room. *)
Theorem validateBookingDate_verdict now bookingDate t w wb :
  storeFile w = Some wb -> datesValid (submissions wb) ->
  newDate bookingDate = Some t -> calendarRange t ->
  exists v w',
    validateBookingDate now bookingDate w = (Ok v, w') /\
    storeFile w' = storeFile w /\ backups w' = backups w /\
    match v with
    | PastDate => localDay t < localDay now
    | Valid c r =>
        localDay now <= localDay t /\
        c = bookingsOn (utcDay t) (submissions wb) /\
        (c < ExcelConfig.maxBookingsPerDay)%nat /\
        r = Z.of_nat ExcelConfig.maxBookingsPerDay - Z.of_nat c
    | FullyBooked c next =>
        localDay now <= localDay t /\
        c = bookingsOn (utcDay t) (submissions wb) /\
        (ExcelConfig.maxBookingsPerDay <= c)%nat /\
        match next with
        | Some nd =>
            (bookingsOn (nd_date nd) (submissions wb) < ExcelConfig.maxBookingsPerDay)%nat
        | None => True
        end
    end.
Proof.
  intros Hs Hv Hd _.
  pose proof (preserves_validateBookingDate storeFile traceBlind_storeFile
                now bookingDate w) as Pstore.
  pose proof (preserves_validateBookingDate backups traceBlind_backups
                now bookingDate w) as Pbackups.
  destruct (validateBookingDate now bookingDate w) as [r w'] eqn:E.
  cbn [snd] in Pstore, Pbackups.
  enough (Hr : exists v, r = Ok v /\
            match v with
            | PastDate => localDay t < localDay now
            | Valid c r =>
                localDay now <= localDay t /\
                c = bookingsOn (utcDay t) (submissions wb) /\
                (c < ExcelConfig.maxBookingsPerDay)%nat /\
                r = Z.of_nat ExcelConfig.maxBookingsPerDay - Z.of_nat c
            | FullyBooked c next =>
                localDay now <= localDay t /\
                c = bookingsOn (utcDay t) (submissions wb) /\
                (ExcelConfig.maxBookingsPerDay <= c)%nat /\
                match next with
                | Some nd =>
                    (bookingsOn (nd_date nd) (submissions wb) <
                     ExcelConfig.maxBookingsPerDay)%nat
                | None => True
                end
            end).
  { destruct Hr as (v & -> & Hv'). exists v, w'. auto. }
  unfold validateBookingDate in E. rewrite Hd in E. cbn [option_map dateLt] in E.
  rewrite setHours0_ltb in E.
  destruct (Z.ltb_spec (localDay t) (localDay now)) as [Hpast|Hnot].
  { injection E as <- _. exists PastDate. split; [reflexivity | exact Hpast]. }
  unfold bind at 1 in E. rewrite (isDateAvailable_at bookingDate t w wb Hd Hs Hv) in E.
  cbn [available count remaining] in E.
  destruct (Nat.ltb_spec (bookingsOn (utcDay t) (submissions wb))
              ExcelConfig.maxBookingsPerDay) as [Hroom|Hfull]; cbn [negb] in E.
  { cbv [ret] in E. injection E as <- _. eexists. split; [reflexivity|].
    repeat split; assumption. }
  unfold getNextAvailableDate, bind in E. cbn [newDate option_map] in E.
  set (w1 := set_trace (trace w ++ [StoreRead]) w) in E.
  pose proof (searchFrom_spec (setHours0 (setHours0 t)) wb 90 0 w1 Hs Hv) as Hspec.
  destruct (searchFrom (Some (setHours0 (setHours0 t))) 0 90 w1) as [[[nd|]|e] w2];
    cbn [fst] in Hspec; [| |contradiction].
  - cbv [ret] in E. injection E as <- _. eexists. split; [reflexivity|].
    destruct Hspec as (j & _ & _ & Hcount & Hlt & _). rewrite Hcount in Hlt.
    repeat split; assumption.
  - cbv [ret] in E. injection E as <- _. eexists. split; [reflexivity|].
    repeat split; assumption.
Qed.

End VerdictFacts.

Lemma validateBookingDate_verdict_witness :
  storeFile sampleStore = Some sampleBook /\
  @datesValid utcRuntime (submissions sampleBook) /\
  @newDate utcRuntime (VStr "2030-01-15") = Some 1894665600000 /\
  calendarRange 1894665600000 /\
  exists v w',
    @ExcelService.validateBookingDate utcRuntime 1700000000000 (VStr "2030-01-15")
      sampleStore = (Ok v, w') /\
    storeFile w' = storeFile sampleStore.
Proof.
  assert (Hv : @datesValid utcRuntime (submissions sampleBook)).
  { repeat constructor; intros _; eexists; reflexivity. }
  assert (Hr : calendarRange 1894665600000).
  { unfold calendarRange, maxTime, msPerDay. lia. }
  split; [reflexivity|]. split; [exact Hv|]. split; [reflexivity|]. split; [exact Hr|].
  destruct (@validateBookingDate_verdict utcRuntime 1700000000000 (VStr "2030-01-15")
              1894665600000 sampleStore sampleBook eq_refl Hv eq_refl Hr)
    as (v & w' & Hrun & Hstore & _).
  exists v, w'. split; [exact Hrun | exact Hstore].
Defined.

Section HandlerFacts.
Context `{JSRuntime}.

Lemma deleteSubmission_run now id w wb :
  lockBusy w = false -> storeFile w = Some wb ->
  ExcelService.deleteSubmission now id w =
  match ExcelService.findRowToDelete id 2 (submissions wb) None with
  | None =>
      (Throw SubmissionNotFound,
       set_trace (trace w ++ [LockAcquired; StoreRead; LockReleased]) w)
  | Some rowToDelete =>
      (Ok tt,
       set_trace (trace w ++ [LockAcquired; StoreRead; StoreWritten; LockReleased])
         (set_storeFile
            (Some {| submissions := delete (rowToDelete - 2)%nat (submissions wb);
                     summary := ExcelService.touchSummary now
                                  (fun t => Z.max 0 (t - 1)) (summary wb) |}) w))
  end.
Proof.
  intros Hl Hs. unfold ExcelService.deleteSubmission. unfold_js. rewrite Hl.
  cbn [storeFile set_trace]. rewrite Hs. cbn iota beta.
  destruct (ExcelService.findRowToDelete id 2 (submissions wb) None); cbn;
    now rewrite <- !app_assoc.
Qed.

Lemma createBackup_then now w wb :
  faults w = noFaults -> lockBusy w = false -> storeFile w = Some wb ->
  backupsOlderThan now (backups w) ->
  exists path w1,
    BackupService.createBackup now w = (Ok (Some path), w1) /\
    backups w1 !! BackupService.backupFileName now = Some {| mtime := now; content := wb |} /\
    storeFile w1 = Some wb /\ lockBusy w1 = false.
Proof.
  intros Hf Hl Hs Hold.
  destruct (createBackup_keeps now w wb Hf Hs Hold) as (w1 & Hrun & Hkept & Hstore & _).
  eexists _, w1. split; [exact Hrun|]. split; [exact Hkept|]. split; [exact Hstore|].
  pose proof (preserves_createBackup lockBusy traceBlind_lockBusy backupsBlind_lockBusy
                now w) as Hlock.
  rewrite Hrun in Hlock. cbn [snd] in Hlock. now rewrite Hlock.
Qed.

(** X24. The update and delete handlers take their backup before they
    look for the row: on a host without failures, with the lock free and
    every backup file older than the clock, a request for an id that no
    row carries is answered 404 and leaves the store file as it was, yet
    the backup directory now holds a new backup, a copy of the store. *)
Theorem handlers_back_up_before_unknown_id now id w wb :
  faults w = noFaults -> lockBusy w = false -> storeFile w = Some wb ->
  backupsOlderThan now (backups w) ->
  existsb (matchesId id) (submissions wb) = false ->
  (exists w',
     SubmissionController.deleteSubmission now id w = (SubmissionController.NotFound, w') /\
     storeFile w' = Some wb /\
     backups w' !! BackupService.backupFileName now
       = Some {| mtime := now; content := wb |}) /\
  (forall updates, exists w',
     SubmissionController.updateSubmission now id updates w
       = (SubmissionController.NotFound, w') /\
     storeFile w' = Some wb /\
     backups w' !! BackupService.backupFileName now
       = Some {| mtime := now; content := wb |}).
Proof.
  intros Hf Hl Hs Hold Hno.
  destruct (createBackup_then now w wb Hf Hl Hs Hold)
    as (path & w1 & Hrun & Hkept & Hs1 & Hl1).
  split.
  - unfold SubmissionController.deleteSubmission, bind. rewrite Hrun.
    rewrite (deleteSubmission_run now id w1 wb Hl1 Hs1).
    rewrite findRowToDelete_none by exact Hno.
    eexists. split; [reflexivity|]. cbn [storeFile backups set_trace]. auto.
  - intros updates.
    pose proof (updateSubmission_run id updates w1 wb Hl1 Hs1) as Hupd.
    rewrite Hno in Hupd. destruct Hupd as (w2 & Hupd & Hs2).
    unfold SubmissionController.updateSubmission, bind. rewrite Hrun, Hupd.
    eexists. split; [reflexivity|]. cbn [storeFile backups set_trace].
    split; [now rewrite Hs2|].
    assert (Hb2 : backups w2 = backups w1); [|now rewrite Hb2].
    revert Hupd. unfold ExcelService.updateSubmission. unfold_js. rewrite Hl1.
    cbn [storeFile set_trace]. rewrite Hs1. cbn iota beta.
    destruct (ExcelService.updateEachRow id updates (submissions wb) None) as [rows [u|]];
      cbn; intros E; [discriminate | injection E as <-; reflexivity].
Qed.

(** X25. A deletion through the handler can be undone from the backup it
    took: on a host without failures, with the lock free and every backup
    file older than the clock, the handler removes the last row that
    carries the id, and [restoreFromBackup] of the backup written by that
    very request brings back the store file as it was before. *)
Theorem delete_then_restore_round_trip now later id w wb before row after :
  faults w = noFaults -> lockBusy w = false -> storeFile w = Some wb ->
  backupsOlderThan now (backups w) ->
  submissions wb = before ++ row :: after ->
  matchesId id row = true -> existsb (matchesId id) after = false ->
  exists w1 w2,
    SubmissionController.deleteSubmission now id w = (SubmissionController.Changed tt, w1) /\
    liveRows w1 = before ++ after /\
    BackupService.restoreFromBackup later (BackupService.backupFileName now) w1
      = (BackupService.Restored (BackupService.backupFileName now), w2) /\
    storeFile w2 = Some wb.
Proof.
  intros Hf Hl Hs Hold Hrows Hrow Hafter.
  destruct (createBackup_then now w wb Hf Hl Hs Hold)
    as (path & w1 & Hrun & Hkept & Hs1 & Hl1).
  unfold SubmissionController.deleteSubmission, bind. rewrite Hrun.
  rewrite (deleteSubmission_run now id w1 wb Hl1 Hs1), Hrows.
  rewrite (findRowToDelete_last id 2 before row after None Hrow Hafter).
  cbn iota beta.
  replace (2 + length before - 2)%nat with (length before) by lia.
  rewrite delete_middle.
  match goal with
  | |- context [(SubmissionController.Changed tt, ?w0) = _] => set (wd := w0)
  end.
  destruct (restoreFromBackup_run later (BackupService.backupFileName now) wd
              {| mtime := now; content := wb |} Hkept
              (backupFileName_not_corrupted now later))
    as (w2 & Hres & Hstore & _).
  exists wd, w2. split; [reflexivity|]. split; [reflexivity|].
  split; [exact Hres | exact Hstore].
Qed.

End HandlerFacts.

Lemma handlers_back_up_witness :
  faults restorableWorld = noFaults /\ lockBusy restorableWorld = false /\
  backupsOlderThan 1700000010000 (backups restorableWorld) /\
  existsb (matchesId "VRT-0-00000000") (submissions sampleBook) = false /\
  exists w',
    SubmissionController.deleteSubmission 1700000010000 "VRT-0-00000000" restorableWorld
      = (SubmissionController.NotFound, w') /\
    backups w' !! BackupService.backupFileName 1700000010000
      = Some {| mtime := 1700000010000; content := sampleBook |}.
Proof.
  split; [reflexivity|]. split; [reflexivity|].
  split; [exact backupsOlderThan_restorableWorld|]. split; [reflexivity|].
  destruct (@handlers_back_up_before_unknown_id utcRuntime 1700000010000 "VRT-0-00000000"
              restorableWorld sampleBook eq_refl eq_refl eq_refl
              backupsOlderThan_restorableWorld eq_refl)
    as ((w' & Hrun & _ & Hkept) & _).
  exists w'. split; [exact Hrun | exact Hkept].
Defined.

Lemma delete_then_restore_witness :
  faults restorableWorld = noFaults /\ lockBusy restorableWorld = false /\
  backupsOlderThan 1700000010000 (backups restorableWorld) /\
  exists w1 w2,
    SubmissionController.deleteSubmission 1700000010000 "VRT-1699000000000-0000BBBB"
      restorableWorld = (SubmissionController.Changed tt, w1) /\
    BackupService.restoreFromBackup 1700000050000
      (BackupService.backupFileName 1700000010000) w1
      = (BackupService.Restored (BackupService.backupFileName 1700000010000), w2) /\
    storeFile w2 = Some sampleBook.
Proof.
  split; [reflexivity|]. split; [reflexivity|].
  split; [exact backupsOlderThan_restorableWorld|].
  destruct (delete_then_restore_round_trip 1700000010000 1700000050000
              "VRT-1699000000000-0000BBBB" restorableWorld sampleBook
              [sampleRow "VRT-1650000000000-0000AAAA" "Surat" 1650000000000 1894665600000]
              (sampleRow "VRT-1699000000000-0000BBBB" "Rajkot" 1699000000000 1700006400000)
              [] eq_refl eq_refl eq_refl backupsOlderThan_restorableWorld
              eq_refl eq_refl eq_refl)
    as (w1 & w2 & Hrun & _ & Hres & Hstore).
  exists w1, w2. split; [exact Hrun|]. split; [exact Hres | exact Hstore].
Defined.

Section ComposedFacts.
Context `{JSRuntime}.
Import ExcelService.

Lemma getStatistics_run now w wb :
  lockBusy w = false -> storeFile w = Some wb ->
  exists st w',
    getStatistics now w = (Ok st, w') /\
    stat_total st = length (submissions wb) /\
    stat_pending st = countStatus "pending" (submissions wb) /\
    stat_reviewed st = countStatus "reviewed" (submissions wb) /\
    stat_archived st = countStatus "archived" (submissions wb).
Proof.
  intros Hl Hs. unfold getStatistics, bind, ret.
  rewrite (getAllSubmissions_all w wb Hl Hs).
  eexists _, _. split; [reflexivity|].
  cbn [stat_total stat_pending stat_reviewed stat_archived].
  rewrite jsSort_length, !(countStatus_Permutation _ _ _ (jsSort_Permutation _ _)).
  repeat split.
Qed.

Lemma countStatus_app s l l' :
  countStatus s (l ++ l') = (countStatus s l + countStatus s l')%nat.
Proof. unfold countStatus. now rewrite filter_app, length_app. Qed.

(** X26. Every submission added shows in the statistics as one more
    pending submission: after [addSubmission] resolves, [getStatistics]
    reports a total and a pending count one above those it reported
    before, and the same reviewed and archived counts. *)
Theorem statistics_after_add now rnd data later w r w1 :
  addSubmission now rnd data w = (Ok r, w1) ->
  exists st0 st1 wa wb,
    getStatistics later w = (Ok st0, wa) /\
    getStatistics later w1 = (Ok st1, wb) /\
    stat_total st1 = S (stat_total st0) /\
    stat_pending st1 = S (stat_pending st0) /\
    stat_reviewed st1 = stat_reviewed st0 /\
    stat_archived st1 = stat_archived st0.
Proof.
  intros Hadd. destruct (addSubmission_Ok_inv _ _ _ _ _ _ Hadd) as (Hl & wb0 & Hs).
  rewrite (addSubmission_run now rnd data w wb0 Hl Hs) in Hadd.
  injection Hadd as _ <-.
  destruct (getStatistics_run later w wb0 Hl Hs) as (st0 & wa & E0 & T0 & P0 & R0 & A0).
  match goal with |- context [getStatistics later ?w0] =>
    match w0 with w => fail 1 | _ => set (w1 := w0) end end.
  destruct (getStatistics_run later w1 _ Hl eq_refl) as (st1 & wb & E1 & T1 & P1 & R1 & A1).
  exists st0, st1, wa, wb. split; [exact E0|]. split; [exact E1|].
  cbn [submissions] in T1, P1, R1, A1.
  rewrite countStatus_app, countStatus_cons in P1, R1, A1. rewrite length_app in T1.
  cbn [rowOfValues submissionData Row.status cellOf strict_eq_str length] in T1, P1, R1, A1.
  change (countStatus _ []) with 0%nat in P1, R1, A1.
  rewrite T0, P0, R0, A0, T1, P1, R1, A1. cbn [String.eqb Ascii.eqb Bool.eqb].
  repeat split; lia.
Qed.

Lemma applyUpdates_archive row :
  applyUpdates {[ "status" := VStr "archived" ]} row = Row.setCell row 9 (VStr "archived").
Proof. reflexivity. Qed.

Lemma bookingsOn_archived d id rows :
  bookingsOn d (updateRow id {[ "status" := VStr "archived" ]} <$> rows) =
  bookingsOn d (filter (fun row => matchesId id row = false) rows).
Proof.
  induction rows as [|row rest IH]; [reflexivity|].
  rewrite fmap_cons, filter_cons_bool, bookingsOn_cons, IH. unfold updateRow.
  destruct (matchesId id row); cbn [Bool.eqb].
  - rewrite applyUpdates_archive. unfold countsOn. cbn. now rewrite andb_false_r.
  - now rewrite bookingsOn_cons.
Qed.

(** X27. Cancelling a booking frees its place. After [updateSubmission]
    has set the status of the rows that carry an id to [archived], those
    rows count for no day any more, and the bookings of every day are
    those of the other rows; after [deleteSubmission] has removed a row,
    the day that row counted for holds one booking less and every other
    day as many as before. *)
Theorem cancelling_frees_the_slot id w wb :
  lockBusy w = false -> storeFile w = Some wb ->
  existsb (matchesId id) (submissions wb) = true ->
  (exists r w',
     updateSubmission id {[ "status" := VStr "archived" ]} w = (Ok r, w') /\
     forall d, bookingsOn d (liveRows w') =
               bookingsOn d (filter (fun row => matchesId id row = false) (submissions wb))) /\
  (forall now before row after,
     submissions wb = before ++ row :: after ->
     matchesId id row = true -> existsb (matchesId id) after = false ->
     exists w',
       deleteSubmission now id w = (Ok tt, w') /\
       forall d, (bookingsOn d (liveRows w') + (if countsOn d row then 1 else 0))%nat =
                 bookingsOn d (submissions wb)).
Proof.
  intros Hl Hs Hin. split.
  - pose proof (updateSubmission_run id {[ "status" := VStr "archived" ]} w wb Hl Hs) as Hrun.
    rewrite Hin in Hrun. destruct Hrun as (r & w' & Hrun & Hstore).
    exists r, w'. split; [exact Hrun|]. intros d. unfold liveRows. rewrite Hstore.
    apply bookingsOn_archived.
  - intros now before row after Hrows Hrow Hafter.
    rewrite (deleteSubmission_run now id w wb Hl Hs), Hrows.
    rewrite (findRowToDelete_last id 2 before row after None Hrow Hafter).
    cbn iota beta. replace (2 + length before - 2)%nat with (length before) by lia.
    rewrite delete_middle. eexists. split; [reflexivity|]. intros d.
    unfold liveRows. cbn [storeFile set_trace set_storeFile submissions].
    rewrite !bookingsOn_app, bookingsOn_cons. lia.
Qed.

End ComposedFacts.

Lemma statistics_after_add_witness :
  exists r w1,
    @ExcelService.addSubmission utcRuntime 1700000000000 sampleRnd
      {[ "name" := VStr "Asha" ]} sampleStore = (Ok r, w1) /\
    exists st0 st1 wa wb,
      @ExcelService.getStatistics utcRuntime 1700000001000 sampleStore = (Ok st0, wa) /\
      @ExcelService.getStatistics utcRuntime 1700000001000 w1 = (Ok st1, wb) /\
      ExcelService.stat_total st1 = S (ExcelService.stat_total st0).
Proof.
  eexists _, _. split; [reflexivity|].
  destruct (@statistics_after_add utcRuntime 1700000000000 sampleRnd
              {[ "name" := VStr "Asha" ]} 1700000001000 sampleStore _ _ eq_refl)
    as (st0 & st1 & wa & wb & E0 & E1 & Htotal & _).
  exists st0, st1, wa, wb. split; [exact E0|]. split; [exact E1 | exact Htotal].
Defined.

Lemma cancelling_frees_the_slot_witness :
  lockBusy sampleStore = false /\ storeFile sampleStore = Some sampleBook /\
  existsb (matchesId "VRT-1699000000000-0000BBBB") (submissions sampleBook) = true /\
  exists r w',
    @ExcelService.updateSubmission utcRuntime "VRT-1699000000000-0000BBBB"
      {[ "status" := VStr "archived" ]} sampleStore = (Ok r, w') /\
    @bookingsOn utcRuntime 19676 (liveRows w') = 0%nat.
Proof.
  split; [reflexivity|]. split; [reflexivity|]. split; [reflexivity|].
  destruct (@cancelling_frees_the_slot utcRuntime "VRT-1699000000000-0000BBBB"
              sampleStore sampleBook eq_refl eq_refl eq_refl)
    as ((r & w' & Hrun & Hfree) & _).
  exists r, w'. split; [exact Hrun|]. rewrite Hfree. reflexivity.
Defined.

Section MissingStore.
Context `{JSRuntime}.
Import ExcelService SubmissionController.

(** X28. While there is no store file no submission can be created: the
    handler answers 500, or 400 for a booking date in the past, and
    neither creates the store file nor writes a backup. *)
Theorem createSubmission_without_store now rnd req w :
  storeFile w = None ->
  exists res w',
    createSubmission now rnd req w = (res, w') /\
    (res = ServerError \/ res = BadRequest PastDate) /\
    storeFile w' = None /\ backups w' = backups w /\ archives w' = archives w.
Proof.
  intros Hs. unfold createSubmission.
  destruct (truthy (prop (body req) "bookingDate")).
  - unfold validateBookingDate.
    destruct (dateLt _ _).
    { eexists _, _. split; [reflexivity|]. split; [now right|]. auto. }
    unfold isDateAvailable, getBookingCountForDate, isoDay, readFile. unfold_js.
    destruct (newDate (prop (body req) "bookingDate")) as [t|]; cbn iota beta.
    + rewrite Hs. eexists _, _. split; [reflexivity|]. split; [now left|]. auto.
    + eexists _, _. split; [reflexivity|]. split; [now left|]. auto.
  - unfold BackupService.createBackup, addSubmission, readFile. unfold_js.
    rewrite Hs. cbn iota beta. rewrite Hs. cbn iota beta.
    eexists _, _. split; [reflexivity|]. split; [now left|]. auto.
Qed.

End MissingStore.

Lemma createSubmission_without_store_witness :
  storeFile (set_storeFile None sampleStore) = None /\
  exists res w',
    @SubmissionController.createSubmission utcRuntime 1700000000000 sampleRnd
      sampleRequest (set_storeFile None sampleStore) = (res, w') /\
    storeFile w' = None.
Proof.
  split; [reflexivity|].
  destruct (@createSubmission_without_store utcRuntime 1700000000000 sampleRnd
              sampleRequest (set_storeFile None sampleStore) eq_refl)
    as (res & w' & Hrun & _ & Hstore & _).
  exists res, w'. split; [exact Hrun | exact Hstore].
Defined.

(** ** Which backups a sequence of [createBackup] calls leaves *)

Section RetentionClaim.
Import BackupService.

Lemma seconds_lt a b : a / 1000 < b / 1000 -> a < b.
Proof.
  intros Hlt. destruct (Z.lt_ge_cases a b) as [?|Hge]; [assumption|].
  pose proof (Z.div_le_mono b a 1000 ltac:(lia) Hge). lia.
Qed.

Lemma seconds_NoDup clock :
  StronglySorted (fun a b => a / 1000 < b / 1000) clock ->
  NoDup ((fun t => t / 1000) <$> clock).
Proof.
  induction 1 as [|t rest _ IH Hall]; [constructor|]. rewrite fmap_cons.
  constructor; [|exact IH]. intros Hin.
  apply list_elem_of_fmap in Hin as (t' & E & Hin).
  rewrite Forall_forall in Hall. specialize (Hall t' Hin). lia.
Qed.

Lemma seconds_inj clock t t' :
  StronglySorted (fun a b => a / 1000 < b / 1000) clock ->
  t ∈ clock -> t' ∈ clock -> t / 1000 = t' / 1000 -> t = t'.
Proof.
  induction 1 as [|x rest _ IH Hall]; intros Ht Ht' E; [inversion Ht|].
  rewrite Forall_forall in Hall.
  apply elem_of_cons in Ht as [->|Ht]; apply elem_of_cons in Ht' as [->|Ht'].
  - reflexivity.
  - specialize (Hall t' Ht'). lia.
  - specialize (Hall t Ht). lia.
  - now apply IH.
Qed.

(** One [createBackup] on a host without failures, every backup file
    there older than the clock and none under the new name. *)
Lemma createBackup_step now w wb :
  faults w = noFaults -> storeFile w = Some wb ->
  backups w !! backupFileName now = None ->
  backupsOlderThan now (backups w) ->
  let w1 := (createBackup now w).2 in
  faults w1 = noFaults /\ storeFile w1 = Some wb /\
  backups w1 !! backupFileName now = Some {| mtime := now; content := wb |} /\
  (forall name f, backups w1 !! name = Some f ->
     (name = backupFileName now /\ f = {| mtime := now; content := wb |}) \/
     backups w !! name = Some f) /\
  (forall name f, backups w !! name = Some f -> isBackupName name = false ->
     backups w1 !! name = Some f) /\
  (forall name f, backups w !! name = Some f -> backups w1 !! name = None ->
     forall kept fk, backups w1 !! kept = Some fk -> isBackupName kept = true ->
     mtime f <= mtime fk).
Proof.
  intros Hf Hs Hfresh Hold. cbv zeta.
  destruct (createBackup_keeps now w wb Hf Hs Hold) as (w1 & Hrun & Hkept & Hs1 & Hf1).
  pose proof (createBackup_run now w wb Hs) as Hrun'.
  rewrite Hrun in Hrun'. injection Hrun' as Hw1. rewrite Hrun. cbn [snd].
  set (new := {| mtime := now; content := wb |}) in *.
  set (copied := set_backups (<[backupFileName now := new]> (backups w)) w) in Hw1.
  assert (Hfc : faults copied = noFaults) by exact Hf.
  assert (Hne : forall name f, backups w !! name = Some f -> name <> backupFileName now)
    by (intros name f Hin ->; congruence).
  split; [congruence|]. split; [exact Hs1|]. split; [exact Hkept|].
  split; [|split].
  - intros name f Hin. rewrite Hw1 in Hin.
    apply (cleanOldBackups_subset copied name f Hfc) in Hin.
    cbn [backups set_backups copied] in Hin.
    destruct (decide (name = backupFileName now)) as [->|Hn].
    + rewrite lookup_insert_eq in Hin. left. split; congruence.
    + rewrite lookup_insert_ne in Hin by congruence. now right.
  - intros name f Hin Hnb. rewrite Hw1, (cleanOldBackups_run copied Hfc).
    destruct (_ <=? _)%nat; cbn [snd backups set_backups copied].
    + rewrite lookup_insert_ne; [exact Hin|]. apply not_eq_sym. eauto.
    + rewrite lookup_withoutFiles. destruct (decide _) as [Hd|_].
      * apply filesToDelete_names_sub, elem_of_backupNames in Hd as [Hd _]. congruence.
      * rewrite lookup_insert_ne; [exact Hin|]. apply not_eq_sym. eauto.
  - intros name f Hin Hgone kept fk Hk Hkb.
    rewrite Hw1, (cleanOldBackups_run copied Hfc) in Hgone, Hk.
    assert (Hinc : backups copied !! name = Some f).
    { cbn [backups set_backups copied]. rewrite lookup_insert_ne; [exact Hin|].
      apply not_eq_sym. eauto. }
    destruct (_ <=? _)%nat; cbn [snd] in Hgone, Hk; [congruence|].
    cbn [backups set_backups] in Hgone, Hk. rewrite lookup_withoutFiles in Hgone, Hk.
    destruct (decide (name ∈ _)) as [Hd|_]; [|congruence].
    destruct (decide (kept ∈ _)) as [|Hnk]; [discriminate|].
    assert (Hkn : kept ∈ backupNames (backups copied))
      by (apply elem_of_backupNames; eauto).
    pose proof (filesToDelete_older (backups copied) name kept Hd Hkn Hnk) as Hle.
    unfold statOf in Hle. cbn [fmtime] in Hle. now rewrite Hinc, Hk in Hle.
Qed.

(** Calls of [createBackup] in successive seconds: what the directory
    holds in the end is of what it held and of what was created, and
    whatever of these is gone is at most as recent as every backup that
    is still there. *)
Lemma createBackups_recent clock : forall w wb,
  faults w = noFaults -> storeFile w = Some wb ->
  StronglySorted (fun a b => a / 1000 < b / 1000) clock ->
  (forall t, t ∈ clock -> backups w !! backupFileName t = None) ->
  (forall t, t ∈ clock -> backupsOlderThan t (backups w)) ->
  (forall name f, backups (createBackups clock w) !! name = Some f ->
     backups w !! name = Some f \/
     exists t, t ∈ clock /\ name = backupFileName t /\
               f = {| mtime := t; content := wb |}) /\
  (forall name f, backups w !! name = Some f -> isBackupName name = false ->
     backups (createBackups clock w) !! name = Some f) /\
  (forall name f,
     backups w !! name = Some f \/
     (exists t, t ∈ clock /\ name = backupFileName t /\
                f = {| mtime := t; content := wb |}) ->
     backups (createBackups clock w) !! name = None ->
     forall kept fk,
       backups (createBackups clock w) !! kept = Some fk -> isBackupName kept = true ->
       mtime f <= mtime fk).
Proof.
  induction clock as [|t rest IH]; intros w wb Hf Hs Hsorted Hfresh Hold.
  { cbn [createBackups]. split; [auto|]. split; [auto|].
    intros name f [Hin|(t & Ht & _)] Hgone; [congruence | inversion Ht]. }
  apply StronglySorted_inv in Hsorted as [Hsorted Hlater].
  rewrite Forall_forall in Hlater.
  destruct (createBackup_step t w wb Hf Hs (Hfresh t ltac:(left)) (Hold t ltac:(left)))
    as (Hf1 & Hs1 & Hnew & Hsub & Hother & Hrecent).
  cbn [createBackups]. set (w1 := (createBackup t w).2) in *.
  assert (Hfresh1 : forall t', t' ∈ rest -> backups w1 !! backupFileName t' = None).
  { intros t' Ht'. destruct (backups w1 !! backupFileName t') as [f|] eqn:E; [|reflexivity].
    exfalso. apply Hsub in E as [[E _]|E].
    - apply backupFileName_inj in E. specialize (Hlater t' Ht'). lia.
    - rewrite (Hfresh t') in E by now right. discriminate. }
  assert (Hold1 : forall t', t' ∈ rest -> backupsOlderThan t' (backups w1)).
  { intros t' Ht' name f Hin Hb. apply Hsub in Hin as [[_ ->]|Hin].
    - cbn [mtime]. apply seconds_lt, Hlater, Ht'.
    - apply (Hold t' ltac:(now right) name f Hin Hb). }
  destruct (IH w1 wb Hf1 Hs1 Hsorted Hfresh1 Hold1) as (IH1 & IH2 & IH3).
  split; [|split].
  - intros name f Hin. apply IH1 in Hin as [Hin|(t' & Ht' & Hn & Hfile)].
    + apply Hsub in Hin as [[-> ->]|Hin]; [|now left].
      right. exists t. split; [left | auto].
    + right. exists t'. split; [now right | auto].
  - intros name f Hin Hnb. apply IH2; [|exact Hnb]. now apply Hother.
  - intros name f Hcand Hgone kept fk Hk Hkb.
    assert (Hvia : backups w1 !! name = Some f -> mtime f <= mtime fk).
    { intros Hin1. apply (IH3 name f (or_introl Hin1) Hgone kept fk Hk Hkb). }
    destruct Hcand as [Hin|(t0 & Ht0 & -> & ->)].
    + destruct (backups w1 !! name) as [f1|] eqn:E1.
      * apply Hvia. apply Hsub in E1 as [[-> _]|E1]; [|congruence].
        rewrite (Hfresh t) in Hin by left. discriminate.
      * apply IH1 in Hk as [Hk|(t' & Ht' & -> & ->)].
        -- exact (Hrecent name f Hin E1 kept fk Hk Hkb).
        -- cbn [mtime]. apply Z.lt_le_incl.
           apply (Hold t' ltac:(now right) name f Hin).
           destruct (isBackupName name) eqn:Hb; [reflexivity|].
           rewrite (Hother name f Hin Hb) in E1. discriminate.
    + apply elem_of_cons in Ht0 as [->|Ht0].
      * apply Hvia, Hnew.
      * exact (IH3 (backupFileName t0) _
                 (or_intror (ex_intro _ t0 (conj Ht0 (conj eq_refl eq_refl))))
                 Hgone kept fk Hk Hkb).
Qed.

(** C6. With no file system failure, [cleanOldBackups] on a directory
    that holds more than [maxBackups] backup files leaves exactly
    [maxBackups] of them: nothing is added, no other file is touched, and
    every backup it deleted is at most as recent (by modification time) as
    every backup it kept. So [createBackup], which prunes after each copy,
    leaves [min maxBackups n] backups when the directory with the new copy
    holds [n]; a sequence of [createBackup] calls never leaves more than
    [maxBackups], and [k] calls in pairwise different seconds on a
    directory that holds [c] backups, none of them theirs, leave
    [min maxBackups (c + k)]. And the backups left by a sequence of
    [createBackup] calls are the most recent ones: when the calls come in
    successive seconds, later than every backup file that was there, the
    directory ends with [min maxBackups (c + k)] backup files, each one
    of those that were there or one that was created, unchanged; no other
    file is touched; and every backup that was there or was created and
    is gone is at most as recent as every backup still there. *)
Theorem cleanOldBackups_keeps_newest w :
  faults w = noFaults ->
  ((ExcelConfig.maxBackups < backupCount (backups w))%nat ->
   exists w', cleanOldBackups w = (Ok tt, w') /\
     backupCount (backups w') = ExcelConfig.maxBackups /\
     (forall name f, backups w' !! name = Some f -> backups w !! name = Some f) /\
     (forall name f, backups w !! name = Some f -> isBackupName name = false ->
        backups w' !! name = Some f) /\
     (forall old fo kept fk,
        backups w !! old = Some fo -> backups w' !! old = None ->
        backups w' !! kept = Some fk -> isBackupName kept = true ->
        mtime fo <= mtime fk)) /\
  (forall now wb, storeFile w = Some wb ->
     backupCount (backups (createBackup now w).2) =
     Nat.min ExcelConfig.maxBackups
       (backupCount (<[backupFileName now := {| mtime := now; content := wb |}]> (backups w)))) /\
  (forall clock wb, storeFile w = Some wb ->
     (backupCount (backups w) <= ExcelConfig.maxBackups)%nat ->
     (backupCount (backups (createBackups clock w)) <= ExcelConfig.maxBackups)%nat) /\
  (forall clock wb, storeFile w = Some wb ->
     (backupCount (backups w) <= ExcelConfig.maxBackups)%nat ->
     NoDup ((fun t => t / 1000) <$> clock) ->
     (forall t, t ∈ clock -> backups w !! backupFileName t = None) ->
     backupCount (backups (createBackups clock w)) =
     Nat.min ExcelConfig.maxBackups (backupCount (backups w) + length clock)) /\
  (forall clock wb, storeFile w = Some wb ->
     (backupCount (backups w) <= ExcelConfig.maxBackups)%nat ->
     StronglySorted (fun a b => a / 1000 < b / 1000) clock ->
     (forall t, t ∈ clock -> backups w !! backupFileName t = None) ->
     (forall t, t ∈ clock -> backupsOlderThan t (backups w)) ->
     let dir := backups (createBackups clock w) in
     backupCount dir =
       Nat.min ExcelConfig.maxBackups (backupCount (backups w) + length clock) /\
     (forall name f, dir !! name = Some f ->
        backups w !! name = Some f \/
        exists t, t ∈ clock /\ name = backupFileName t /\
                  f = {| mtime := t; content := wb |}) /\
     (forall name f, backups w !! name = Some f -> isBackupName name = false ->
        dir !! name = Some f) /\
     (forall name f,
        backups w !! name = Some f \/
        (exists t, t ∈ clock /\ name = backupFileName t /\
                   f = {| mtime := t; content := wb |}) ->
        dir !! name = Some f \/
        (dir !! name = None /\
         forall kept fk, dir !! kept = Some fk -> isBackupName kept = true ->
                         mtime f <= mtime fk))).
Proof.
  intros Hf. split; [|split; [|split; [|split]]].
  - intros Hgt. pose proof (cleanOldBackups_count w Hf) as Hcount.
    rewrite (cleanOldBackups_run w Hf) in *.
    apply Nat.leb_gt in Hgt as Hleb. rewrite Hleb in *.
    cbn [snd backups set_backups] in Hcount.
    eexists. split; [reflexivity|]. cbn [backups set_backups].
    set (del := fname <$> filesToDelete (backups w)) in *.
    split; [lia|]. split; [|split].
    + intros name f. rewrite lookup_withoutFiles. now destruct (decide (name ∈ del)).
    + intros name f Hin Hnb. rewrite lookup_withoutFiles.
      destruct (decide (name ∈ del)) as [Hd|_]; [|exact Hin].
      apply filesToDelete_names_sub, elem_of_backupNames in Hd as [Hd _]. congruence.
    + intros old fo kept fk Hold Hgone Hkept Hbk.
      rewrite lookup_withoutFiles in Hgone, Hkept.
      destruct (decide (old ∈ del)) as [Hd|_]; [|congruence].
      destruct (decide (kept ∈ del)) as [|Hk]; [discriminate|].
      set (sorted := jsSort (byKey fmtime) (statOf (backups w) <$> backupNames (backups w))).
      set (k := (length sorted - ExcelConfig.maxBackups)%nat).
      assert (Hin : forall s, s ∈ sorted -> s = statOf (backups w) (fname s)).
      { intros s Hs. unfold sorted in Hs. rewrite jsSort_Permutation in Hs.
        apply list_elem_of_fmap in Hs as (n & -> & _). reflexivity. }
      apply list_elem_of_fmap in Hd as (so & -> & Hso).
      assert (Hks : kept ∈ fname <$> sorted).
      { unfold sorted. rewrite sorted_names. apply elem_of_backupNames. eauto. }
      apply list_elem_of_fmap in Hks as (sk & -> & Hsk).
      assert (Hdrop : sk ∈ drop k sorted).
      { rewrite <- (take_drop k sorted) in Hsk.
        apply elem_of_app in Hsk as [Ht|Hd]; [|exact Hd].
        exfalso. apply Hk, list_elem_of_fmap. eauto. }
      pose proof (sorted_take_drop fmtime sorted k so sk (jsSort_sorted _ _) Hso Hdrop) as Hle.
      rewrite (Hin so), (Hin sk) in Hle; [|exact Hsk|].
      * simpl in Hle. rewrite Hold, Hkept in Hle. exact Hle.
      * eapply sublist_subseteq; [apply sublist_take | exact Hso].
  - intros now wb Hs. now apply createBackup_count.
  - intros clock wb Hs Hc. now apply (createBackups_bounded clock w wb).
  - intros clock wb Hs Hc Hnd Hfresh. now apply (createBackups_count clock w wb).
  - intros clock wb Hs Hc Hsorted Hfresh Hold. cbv zeta.
    destruct (createBackups_recent clock w wb Hf Hs Hsorted Hfresh Hold)
      as (Hfrom & Hother & Hrecent).
    split; [|split; [exact Hfrom|split; [exact Hother|]]].
    { apply (createBackups_count clock w wb Hf Hs Hc); [|exact Hfresh].
      now apply seconds_NoDup. }
    intros name f Hcand.
    destruct (backups (createBackups clock w) !! name) as [f'|] eqn:E.
    + left. f_equal. apply Hfrom in E as [E|(t' & Ht' & Hn' & ->)].
      * destruct Hcand as [Hin|(t & Ht & -> & ->)]; [congruence|].
        rewrite (Hfresh t Ht) in E. discriminate.
      * destruct Hcand as [Hin|(t & Ht & -> & ->)].
        -- subst name. rewrite (Hfresh t' Ht') in Hin. discriminate.
        -- apply backupFileName_inj in Hn'.
           now rewrite (seconds_inj clock t t' Hsorted Ht Ht' Hn').
    + right. split; [reflexivity|]. intros kept fk Hk Hkb.
      apply (Hrecent name f Hcand E kept fk Hk Hkb).
Qed.

End RetentionClaim.

Lemma backupsOlderThan_fullWorld t :
  1700000030000 <= t -> backupsOlderThan t (backups fullWorld).
Proof.
  assert (Hall : map_Forall (fun _ f => mtime f < 1700000030000) (backups fullWorld)).
  { apply (bool_decide_unpack _). vm_compute. exact I. }
  intros Ht name f Hf _. specialize (Hall name f Hf). simpl in Hall. lia.
Defined.

Lemma cleanOldBackups_keeps_newest_witness :
  faults fullWorld = noFaults /\ storeFile fullWorld = Some sampleBook /\
  (backupCount (backups fullWorld) <= ExcelConfig.maxBackups)%nat /\
  StronglySorted (fun a b => a / 1000 < b / 1000) [1700000040000; 1700000041000] /\
  let dir := backups (createBackups [1700000040000; 1700000041000] fullWorld) in
  backupCount dir = ExcelConfig.maxBackups /\
  dir !! BackupService.backupFileName 1700000000000 = None /\
  forall kept fk, dir !! kept = Some fk -> BackupService.isBackupName kept = true ->
                  1700000000000 <= mtime fk.
Proof.
  assert (Hc : (backupCount (backups fullWorld) <= ExcelConfig.maxBackups)%nat).
  { vm_compute. lia. }
  assert (Hsorted : StronglySorted (fun a b => a / 1000 < b / 1000)
                      [1700000040000; 1700000041000]).
  { repeat constructor. }
  assert (Hfresh : forall t, t ∈ [1700000040000; 1700000041000] ->
                     backups fullWorld !! BackupService.backupFileName t = None).
  { intros t Ht. apply elem_of_cons in Ht as [->|Ht]; [vm_compute; reflexivity|].
    apply elem_of_cons in Ht as [->|Ht]; [vm_compute; reflexivity | inversion Ht]. }
  assert (Hold : forall t, t ∈ [1700000040000; 1700000041000] ->
                   backupsOlderThan t (backups fullWorld)).
  { intros t Ht. apply backupsOlderThan_fullWorld.
    apply elem_of_cons in Ht as [->|Ht]; [lia|].
    apply elem_of_cons in Ht as [->|Ht]; [lia | inversion Ht]. }
  split; [reflexivity|]. split; [reflexivity|]. split; [exact Hc|].
  split; [exact Hsorted|].
  destruct (proj2 (proj2 (proj2 (proj2 (cleanOldBackups_keeps_newest fullWorld eq_refl))))
              [1700000040000; 1700000041000] sampleBook eq_refl Hc Hsorted Hfresh Hold)
    as (Hcount & _ & _ & Hrecent).
  assert (Hgone : backups (createBackups [1700000040000; 1700000041000] fullWorld)
                    !! BackupService.backupFileName 1700000000000 = None)
    by (vm_compute; reflexivity).
  cbv zeta. split; [rewrite Hcount; vm_compute; reflexivity|]. split; [exact Hgone|].
  intros kept fk Hk Hkb.
  destruct (Hrecent (BackupService.backupFileName 1700000000000)
              {| mtime := 1700000000000; content := freshWorkbook |}) as [Hthere|[_ Hle]].
  - left. vm_compute. reflexivity.
  - rewrite Hgone in Hthere. discriminate.
  - exact (Hle kept fk Hk Hkb).
Defined.

(** ** Requests in flight together *)

Section OverlappingRequests.
Context `{JSRuntime}.
Import ExcelService SubmissionController.

(** The handler is its two parts run one right after the other. *)
Lemma createSubmission_in_two_parts now rnd req w :
  createSubmission now rnd req w =
  match createSubmission_begin now req w with
  | (Some res, w1) => (res, w1)
  | (None, w1) => createSubmission_finish now rnd req w1
  end.
Proof.
  unfold createSubmission, createSubmission_begin, createSubmission_finish, bind, ret.
  destruct (truthy (prop (body req) "bookingDate")); [|reflexivity].
  destruct (validateBookingDate now (prop (body req) "bookingDate") w) as [[v|e] w1];
    [|reflexivity].
  destruct (negb (valid v)); reflexivity.
Qed.

Lemma validateBookingDate_room now bookingDate t w wb :
  storeFile w = Some wb -> datesValid (submissions wb) ->
  newDate bookingDate = Some t -> localDay now <= localDay t ->
  (bookingsOn (utcDay t) (submissions wb) < ExcelConfig.maxBookingsPerDay)%nat ->
  validateBookingDate now bookingDate w =
  (Ok (Valid (bookingsOn (utcDay t) (submissions wb))
         (Z.of_nat ExcelConfig.maxBookingsPerDay -
          Z.of_nat (bookingsOn (utcDay t) (submissions wb)))),
   set_trace (trace w ++ [StoreRead]) w).
Proof.
  intros Hs Hv Hd Hday Hroom. unfold validateBookingDate. rewrite Hd.
  cbn [option_map dateLt]. rewrite setHours0_ltb.
  apply Z.ltb_ge in Hday. rewrite Hday.
  unfold bind at 1. rewrite (isDateAvailable_at bookingDate t w wb Hd Hs Hv).
  cbn [available count remaining]. apply Nat.ltb_lt in Hroom. rewrite Hroom.
  reflexivity.
Qed.

Lemma createSubmission_begin_room now req t w wb :
  storeFile w = Some wb -> datesValid (submissions wb) ->
  truthy (prop (body req) "bookingDate") = true ->
  newDate (prop (body req) "bookingDate") = Some t -> localDay now <= localDay t ->
  (bookingsOn (utcDay t) (submissions wb) < ExcelConfig.maxBookingsPerDay)%nat ->
  createSubmission_begin now req w = (None, set_trace (trace w ++ [StoreRead]) w).
Proof.
  intros Hs Hv Htr Hd Hday Hroom. unfold createSubmission_begin. rewrite Htr.
  unfold bind. rewrite (validateBookingDate_room now _ t w wb Hs Hv Hd Hday Hroom).
  reflexivity.
Qed.

(** With the store file in place and the lock free the second part
    takes a backup, appends the row and answers 201. *)
Lemma createSubmission_finish_run now rnd req w wb :
  lockBusy w = false -> storeFile w = Some wb ->
  exists r w',
    createSubmission_finish now rnd req w = (Created r, w') /\
    lockBusy w' = false /\
    storeFile w' =
      Some {| submissions := submissions wb ++ [createdRow now rnd req];
              summary := touchSummary now (fun t => t + 1) (summary wb) |}.
Proof.
  intros Hl Hs. unfold createSubmission_finish. unfold bind at 1.
  pose proof (preserves_createBackup storeFile traceBlind_storeFile
                backupsBlind_storeFile now w) as Pstore.
  pose proof (preserves_createBackup lockBusy traceBlind_lockBusy
                backupsBlind_lockBusy now w) as Plock.
  rewrite (createBackup_run now w wb Hs) in *. cbn [snd] in Pstore, Plock.
  set (w1 := (BackupService.cleanOldBackups _).2) in *.
  rewrite Hs in Pstore. rewrite Hl in Plock.
  unfold bind. rewrite (addSubmission_run now rnd _ w1 wb Plock Pstore).
  eexists _, _. split; [reflexivity|]. split; [exact Plock | reflexivity].
Qed.

Lemma createdRow_counts now rnd req t :
  truthy (prop (body req) "bookingDate") = true ->
  newDate (prop (body req) "bookingDate") = Some t ->
  countsOn (utcDay t) (createdRow now rnd req) = true.
Proof.
  intros Htr Hd. unfold countsOn, createdRow, rowOfValues, submissionData.
  cbn [Row.bookingDate Row.status cellOf].
  assert (E : prop (<["ipAddress" := VStr (clientIp req)]> (body req)) "bookingDate"
              = prop (body req) "bookingDate").
  { unfold prop. rewrite lookup_insert_ne; [reflexivity | discriminate]. }
  rewrite E, Htr, Hd. cbn. now rewrite Z.eqb_refl.
Qed.

(** C1. The cap is not kept by requests in flight together. The handler
    checks the booking day without the lock and only later writes under
    it, so a second request taken up while the first awaits its check
    sees the same count: on a store whose day [d] is one booking short of
    [maxBookingsPerDay], two requests for day [d] that overlap in this
    way are both answered 201, both rows are stored, and day [d] then
    holds [maxBookingsPerDay + 1] live bookings; the second booking, which
    exceeds the cap, is not rejected before its row is persisted. *)
Theorem overlapping_requests_exceed_daily_cap (c1 c2 : createCall) w wb t1 t2 :
  lockBusy w = false -> storeFile w = Some wb -> datesValid (submissions wb) ->
  truthy (prop (body (cc_req c1)) "bookingDate") = true ->
  truthy (prop (body (cc_req c2)) "bookingDate") = true ->
  newDate (prop (body (cc_req c1)) "bookingDate") = Some t1 ->
  newDate (prop (body (cc_req c2)) "bookingDate") = Some t2 ->
  utcDay t1 = utcDay t2 ->
  localDay (cc_now c1) <= localDay t1 -> localDay (cc_now c2) <= localDay t2 ->
  S (bookingsOn (utcDay t1) (submissions wb)) = ExcelConfig.maxBookingsPerDay ->
  exists r1 r2 w',
    createSubmissionsOverlapped c1 c2 w = (Created r1, Created r2, w') /\
    liveRows w' =
      submissions wb ++ [createdRow (cc_now c1) (cc_rnd c1) (cc_req c1);
                         createdRow (cc_now c2) (cc_rnd c2) (cc_req c2)] /\
    bookingsOn (utcDay t1) (liveRows w') = S ExcelConfig.maxBookingsPerDay /\
    ~ withinCapacity w'.
Proof.
  intros Hl Hs Hv Htr1 Htr2 Hd1 Hd2 Hday Hnow1 Hnow2 Hone.
  assert (Hroom1 : (bookingsOn (utcDay t1) (submissions wb) <
                    ExcelConfig.maxBookingsPerDay)%nat) by lia.
  assert (Hroom2 : (bookingsOn (utcDay t2) (submissions wb) <
                    ExcelConfig.maxBookingsPerDay)%nat) by (rewrite <- Hday; lia).
  unfold createSubmissionsOverlapped.
  rewrite (createSubmission_begin_room _ _ t1 w wb Hs Hv Htr1 Hd1 Hnow1 Hroom1).
  set (wa := set_trace _ w).
  rewrite (createSubmission_begin_room _ _ t2 wa wb Hs Hv Htr2 Hd2 Hnow2 Hroom2).
  set (wb' := set_trace _ wa).
  destruct (createSubmission_finish_run (cc_now c1) (cc_rnd c1) (cc_req c1) wb' wb Hl Hs)
    as (r1 & wc & Hrun1 & Hlc & Hsc).
  rewrite Hrun1.
  destruct (createSubmission_finish_run (cc_now c2) (cc_rnd c2) (cc_req c2) wc _ Hlc Hsc)
    as (r2 & wd & Hrun2 & _ & Hsd).
  rewrite Hrun2. cbn [submissions] in Hsd.
  assert (Hrows : liveRows wd =
            submissions wb ++ [createdRow (cc_now c1) (cc_rnd c1) (cc_req c1);
                               createdRow (cc_now c2) (cc_rnd c2) (cc_req c2)]).
  { unfold liveRows. rewrite Hsd. cbn [submissions]. now rewrite <- app_assoc. }
  assert (Hcount : bookingsOn (utcDay t1) (liveRows wd) = S ExcelConfig.maxBookingsPerDay).
  { rewrite Hrows, bookingsOn_app, !bookingsOn_cons.
    rewrite (createdRow_counts _ _ _ t1 Htr1 Hd1).
    rewrite Hday at 2. rewrite (createdRow_counts _ _ _ t2 Htr2 Hd2).
    change (bookingsOn (utcDay t1) []) with 0%nat. lia. }
  exists r1, r2, wd. split; [reflexivity|]. split; [exact Hrows|].
  split; [exact Hcount|]. intros Hcap. specialize (Hcap (utcDay t1)). lia.
Qed.

End OverlappingRequests.

Lemma overlapping_requests_witness :
  lockBusy nearlyFullWorld = false /\
  @withinCapacity utcRuntime nearlyFullWorld /\
  @bookingsOn utcRuntime 21929 (liveRows nearlyFullWorld) = 2%nat /\
  exists r1 r2 w',
    @createSubmissionsOverlapped utcRuntime (sampleCreate 2) (sampleCreate 3)
      nearlyFullWorld
      = (SubmissionController.Created r1, SubmissionController.Created r2, w') /\
    @bookingsOn utcRuntime 21929 (liveRows w') = 4%nat /\
    ~ @withinCapacity utcRuntime w'.
Proof.
  assert (Hcap : @withinCapacity utcRuntime nearlyFullWorld).
  { apply createSubmissions_withinCapacity. intros d.
    unfold bookingsOn, ExcelConfig.maxBookingsPerDay. simpl. lia. }
  assert (Hstore : exists wb, storeFile nearlyFullWorld = Some wb /\
                     @datesValid utcRuntime (submissions wb) /\
                     S (@bookingsOn utcRuntime 21929 (submissions wb)) = 3%nat).
  { eexists. split; [vm_compute; reflexivity|]. split.
    - repeat constructor; intros _; eexists; reflexivity.
    - vm_compute. reflexivity. }
  destruct Hstore as (wb & Hs & Hv & Hone).
  assert (Htwo : @bookingsOn utcRuntime 21929 (liveRows nearlyFullWorld) = 2%nat)
    by (vm_compute; reflexivity).
  assert (Hday : @localDay utcRuntime 1700000000003 <= @localDay utcRuntime 1894665600000)
    by (vm_compute; discriminate).
  assert (Hday' : @localDay utcRuntime 1700000000002 <= @localDay utcRuntime 1894665600000)
    by (vm_compute; discriminate).
  split; [vm_compute; reflexivity|]. split; [exact Hcap|]. split; [exact Htwo|].
  destruct (@overlapping_requests_exceed_daily_cap utcRuntime (sampleCreate 2) (sampleCreate 3)
              nearlyFullWorld wb 1894665600000 1894665600000
              ltac:(vm_compute; reflexivity) Hs Hv eq_refl eq_refl eq_refl eq_refl
              eq_refl Hday' Hday Hone)
    as (r1 & r2 & w' & Hrun & _ & Hcount & Hover).
  exists r1, r2, w'. split; [exact Hrun|]. split; [exact Hcount | exact Hover].
Defined.
